(** * JURIDICO_BI: the GraphQL -> SQL Server synchronisation job

    A shallow embedding of [src/actualizar_bd.py].  The Python program is
    dynamically typed glue between three libraries, so the embedding has
    four layers:

    - Python values and exceptions ([valor], [excepcion], [resultado]);
    - the part of pandas the program calls ([Module pd]);
    - the part of pyodbc / SQL Server the program calls ([Module pyodbc]);
    - the program itself: [consulta_graphql], [procesar_datos_servicios],
      [limpiar_dataframes], [main].

    What lies outside the repository and cannot be derived from it is a
    field of [Entorno]: the GraphQL server, the text parsers behind
    [pd.to_datetime] and [pd.to_numeric], and the conditions under which
    the database refuses a statement. *)

From Stdlib Require Import ZArith List String Ascii Bool Lia Floats DecimalString.
Import ListNotations.
Set Warnings "-register-all,-inexact-float".
Open Scope string_scope.
Open Scope Z_scope.

(* ================================================================== *)
(** ** Python values                                                   *)
(* ================================================================== *)

(** A pandas [Timestamp]: a calendar date and the nanosecond of the day. *)
Record Timestamp := mkTimestamp {
  year : Z;
  month : Z;
  day : Z;
  nanosecond_of_day : Z
}.

(** The Python objects the program handles: JSON values as [json.loads]
    builds them, and the two cell values pandas adds ([Timestamp], [NaT]).
    NaN is [VFloat nan].  A dict is an association list in key order. *)
Inductive valor : Type :=
| VNone
| VBool (b : bool)
| VInt (z : Z)
| VFloat (f : float)
| VStr (s : string)
| VList (l : list valor)
| VDict (d : list (string * valor))
| VTimestamp (t : Timestamp)
| VNaT.

(** The exceptions the program can meet. *)
Inductive excepcion : Type :=
| Exception_ (msg : string)          (* raise Exception(msg) *)
| KeyError (clave : string)
| TypeError (msg : string)
| ValueError (msg : string)
| RequestException (msg : string)    (* requests: transport failure *)
| pyodbc_Error (msg : string)        (* pyodbc.Error; msg is str(e) *)
| NoModelado (msg : string).         (* input outside the modelled fragment *)

(** [str(e)], as the f-string of [main] formats it. *)
Definition str (e : excepcion) : string :=
  match e with
  | Exception_ m => m
  | KeyError k => "'" ++ k ++ "'"
  | TypeError m => m
  | ValueError m => m
  | RequestException m => m
  | pyodbc_Error m => m
  | NoModelado m => m
  end.

(** A computation that returns or raises. *)
Inductive resultado (A : Type) : Type :=
| Ok (a : A)
| Raise (e : excepcion).
Arguments Ok {A} a.
Arguments Raise {A} e.

Definition bind {A B : Type} (m : resultado A) (k : A -> resultado B) : resultado B :=
  match m with
  | Ok a => k a
  | Raise e => Raise e
  end.

Declare Scope py_scope.
Delimit Scope py_scope with py.
Notation "x <- m ;; k" := (bind m (fun x => k))
  (at level 100, m at next level, right associativity) : py_scope.
Notation "' p <- m ;; k" := (bind m (fun p => k))
  (at level 100, p pattern, m at next level, right associativity) : py_scope.
Open Scope py_scope.

Definition es_ok {A : Type} (r : resultado A) : bool :=
  match r with Ok _ => true | Raise _ => false end.

(** [d.get(k)] on an association list. *)
Fixpoint buscar {A : Type} (k : string) (d : list (string * A)) : option A :=
  match d with
  | [] => None
  | (k', v) :: d' => if String.eqb k k' then Some v else buscar k d'
  end.

(** [v[k]] with a string subscript. *)
Definition subscript (v : valor) (k : string) : resultado valor :=
  match v with
  | VDict d =>
      match buscar k d with
      | Some x => Ok x
      | None => Raise (KeyError k)
      end
  | VList _ => Raise (TypeError "list indices must be integers or slices, not str")
  | VStr _ => Raise (TypeError "string indices must be integers")
  | VNone => Raise (TypeError "'NoneType' object is not subscriptable")
  | _ => Raise (TypeError "object is not subscriptable")
  end.

(** Truth value of an object, as [if x] tests it. *)
Definition truthy (v : valor) : bool :=
  match v with
  | VNone => false
  | VBool b => b
  | VInt z => negb (z =? 0)
  | VFloat f => negb (PrimFloat.eqb f 0%float)
  | VStr s => negb (String.eqb s "")
  | VList l => match l with [] => false | _ => true end
  | VDict d => match d with [] => false | _ => true end
  | VTimestamp _ => true
  | VNaT => true
  end.

(** [pd.isna]: the values pandas treats as missing. *)
Definition es_nulo (v : valor) : bool :=
  match v with
  | VNone => true
  | VNaT => true
  | VFloat f => match Prim2SF f with S754_nan => true | _ => false end
  | _ => false
  end.

(* ================================================================== *)
(** ** binary64 helpers                                                *)
(* ================================================================== *)

(** An integer as the nearest binary64 (what numpy does when an int
    column is upcast to float64). *)
Definition float_of_Z (z : Z) : float :=
  SF2Prim (binary_normalize prec emax z 0 false).

Definition dos_52 : float := 4503599627370496%float.

(** C's [rint] in the default rounding mode: the nearest integer, ties
    to even, the sign of the argument kept. *)
Definition rint (x : float) : float :=
  let a := PrimFloat.abs x in
  if PrimFloat.ltb a dos_52 then
    let r := PrimFloat.sub (PrimFloat.add a dos_52) dos_52 in
    if PrimFloat.get_sign x then PrimFloat.opp r else r
  else x.

(** [numpy.round(x, 2)] on float64: scale, [rint], unscale. *)
Definition np_round2 (x : float) : float :=
  PrimFloat.div (rint (PrimFloat.mul x 100%float)) 100%float.

(* ================================================================== *)
(** ** Equality of cell values                                         *)
(* ================================================================== *)

(** The integer a float is, when it is one ([2.0] is 2, [-0.0] is 0). *)
Definition entero_de_float (f : float) : option Z :=
  match Prim2SF f with
  | S754_zero _ => Some 0
  | S754_finite s m e =>
      if 0 <=? e then Some ((if s then -1 else 1) * (Z.pos m * 2 ^ e))
      else if Z.pos m mod 2 ^ (- e) =? 0
           then Some ((if s then -1 else 1) * (Z.pos m / 2 ^ (- e)))
           else None
  | _ => None
  end.

(** A value up to the equality pandas' hash tables use on the keys of
    [duplicated]: Python's [==], with NaN equal to NaN.  Two cells are
    duplicates of one another exactly when their labels are equal.
    Numbers are compared by value, whatever their type ([1], [True] and
    [1.0] are one key, and so are [0.0] and [-0.0]); [None], NaN and NaT
    are three keys; a list is compared element by element and a dict item
    by item, in any order.  (A list or a dict cannot be hashed; the table
    then takes 0 for its hash and compares it all the same.) *)
Inductive etiqueta : Type :=
| ENone
| ENaN
| ENaT
| ENumero (z : Z)                      (* a bool, an int, a float that is an integer *)
| EFloat (sf : spec_float)             (* any other float *)
| EStr (s : string)
| ETimestamp (t : Timestamp)
| ELista (l : list etiqueta)
| EDict (d : list (string * etiqueta)).  (* the items by increasing key *)

Definition etiqueta_de_float (f : float) : etiqueta :=
  match entero_de_float f with
  | Some z => ENumero z
  | None => match Prim2SF f with S754_nan => ENaN | sf => EFloat sf end
  end.

(** An item put at its place among items sorted by key; a key that is
    there already keeps its item (as [buscar] finds the first one). *)
Fixpoint poner (k : string) (e : etiqueta) (d : list (string * etiqueta))
  : list (string * etiqueta) :=
  match d with
  | [] => [(k, e)]
  | (k', e') :: d' =>
      match String.compare k k' with
      | Lt => (k, e) :: d
      | Eq => d
      | Gt => (k', e') :: poner k e d'
      end
  end.

Fixpoint etiqueta_de (v : valor) : etiqueta :=
  match v with
  | VNone => ENone
  | VNaT => ENaT
  | VBool b => ENumero (if b then 1 else 0)
  | VInt z => ENumero z
  | VFloat f => etiqueta_de_float f
  | VStr s => EStr s
  | VTimestamp t => ETimestamp t
  | VList l => ELista (map etiqueta_de l)
  | VDict d =>
      EDict (fold_left (fun acc (kv : string * etiqueta) => poner (fst kv) (snd kv) acc)
               (map (fun kv : string * valor => (fst kv, etiqueta_de (snd kv))) d) [])
  end.

Definition Timestamp_eq_dec (a b : Timestamp) : {a = b} + {a <> b}.
Proof. decide equality; apply Z.eq_dec. Defined.

Definition spec_float_eq_dec (a b : spec_float) : {a = b} + {a <> b}.
Proof.
  decide equality; try apply Bool.bool_dec; try apply Z.eq_dec; apply Pos.eq_dec.
Defined.

Fixpoint etiqueta_eq_dec (a b : etiqueta) {struct a} : {a = b} + {a <> b}.
Proof.
  decide equality.
  - apply Z.eq_dec.
  - apply spec_float_eq_dec.
  - apply string_dec.
  - apply Timestamp_eq_dec.
  - apply (list_eq_dec etiqueta_eq_dec).
  - apply list_eq_dec. decide equality. apply string_dec.
Defined.

Definition etiqueta_eqb (a b : etiqueta) : bool :=
  if etiqueta_eq_dec a b then true else false.

(** Objects that are no scalar (a list or a dict). *)
Definition no_hashable (v : valor) : bool :=
  match v with
  | VList _ => true
  | VDict _ => true
  | _ => false
  end.

(** [for x in l: ... f(x) ...], collecting what [f] returns; the first
    exception ends the loop. *)
Fixpoint para_cada {A B : Type} (f : A -> resultado B) (l : list A) : resultado (list B) :=
  match l with
  | [] => Ok []
  | x :: l' =>
      y <- f x ;;
      ys <- para_cada f l' ;;
      Ok (y :: ys)
  end.

(* ================================================================== *)
(** ** pandas                                                          *)
(* ================================================================== *)

Module pd.

(** A frame: the column labels and the rows in index order, each row
    holding one cell per column.  The index itself is not modelled (the
    program resets it after every filter), so [reset_index] is the
    identity. *)
Record DataFrame := mkDataFrame {
  columns : list string;
  filas : list (list valor)
}.

(** [df.empty]: one of the two axes has length zero. *)
Definition empty (df : DataFrame) : bool :=
  match columns df, filas df with
  | [], _ => true
  | _, [] => true
  | _, _ => false
  end.

(** Position of a column label. *)
Fixpoint indice (c : string) (cols : list string) : option nat :=
  match cols with
  | [] => None
  | c' :: cols' =>
      if String.eqb c c' then Some 0%nat
      else option_map S (indice c cols')
  end.

Definition celda (j : nat) (fila : list valor) : valor := nth j fila VNone.

Definition columna (j : nat) (rows : list (list valor)) : list valor :=
  map (celda j) rows.

(** *** Construction from a list of records *)

(** Union of the records' keys, in order of first appearance. *)
Fixpoint agregar_claves (cols : list string) (d : list (string * valor)) : list string :=
  match d with
  | [] => cols
  | (k, _) :: d' =>
      agregar_claves (if in_dec string_dec k cols then cols else (cols ++ [k])%list) d'
  end.

Definition claves_de (data : list (list (string * valor))) : list string :=
  fold_left agregar_claves data [].

(** A record laid out on the columns; a missing key gives NaN. *)
Definition fila_de (cols : list string) (d : list (string * valor)) : list valor :=
  map (fun c => match buscar c d with Some v => v | None => VFloat nan end) cols.

(** dtype inference on one column of Python objects: a column of ints
    and floats, or of numbers and [None], becomes float64 (an int is
    converted, [None] becomes NaN); any other column keeps its objects. *)
Definition es_numero_o_none (v : valor) : bool :=
  match v with VInt _ | VFloat _ | VNone => true | _ => false end.
Definition es_int (v : valor) : bool := match v with VInt _ => true | _ => false end.
Definition es_float (v : valor) : bool := match v with VFloat _ => true | _ => false end.
Definition es_none (v : valor) : bool := match v with VNone => true | _ => false end.

Definition pasa_a_float64 (col : list valor) : bool :=
  forallb es_numero_o_none col
  && (existsb es_float col || (existsb es_int col && existsb es_none col)).

Definition a_float64 (v : valor) : valor :=
  match v with
  | VInt z => VFloat (float_of_Z z)
  | VNone => VFloat nan
  | _ => v
  end.

Definition inferir (rows : list (list valor)) (ncols : nat) : list (list valor) :=
  let marcas := map (fun j => pasa_a_float64 (columna j rows)) (seq 0 ncols) in
  map (fun fila =>
         map (fun mv : bool * valor => if fst mv then a_float64 (snd mv) else snd mv)
             (combine marcas fila))
      rows.

(** [pd.DataFrame(records)] for a list of dicts. *)
Definition de_registros (data : list (list (string * valor))) : DataFrame :=
  let cols := claves_de data in
  mkDataFrame cols (inferir (map (fila_de cols) data) (List.length cols)).

Fixpoint como_registros (l : list valor) : option (list (list (string * valor))) :=
  match l with
  | [] => Some []
  | VDict d :: l' => option_map (cons d) (como_registros l')
  | _ :: _ => None
  end.

(** [pd.DataFrame(data)]: [None] and the empty list give the frame with
    no column and no row; a list of dicts gives one row per dict.  Other
    shapes (a list of scalars or of lists, a dict of columns) are not
    modelled. *)
Definition DataFrame_ (data : valor) : resultado DataFrame :=
  match data with
  | VNone => Ok (mkDataFrame [] [])
  | VList l =>
      match como_registros l with
      | Some ds => Ok (de_registros ds)
      | None => Raise (NoModelado "pd.DataFrame of a list that is not a list of dicts")
      end
  | VDict _ => Raise (NoModelado "pd.DataFrame of a dict")
  | _ => Raise (ValueError "DataFrame constructor not properly called!")
  end.

(** *** drop_duplicates, rename, reset_index *)

(** Rows whose key label was not seen before, in order. *)
Fixpoint primeras (j : nat) (vistos : list etiqueta) (rows : list (list valor))
  : list (list valor) :=
  match rows with
  | [] => []
  | r :: rs =>
      let e := etiqueta_de (celda j r) in
      if in_dec etiqueta_eq_dec e vistos then primeras j vistos rs
      else r :: primeras j (e :: vistos) rs
  end.

(** [df.drop_duplicates(subset=c)] with the default [keep="first"]: an
    empty frame is returned as it is, before the column is looked up. *)
Definition drop_duplicates (df : DataFrame) (subset : string) : resultado DataFrame :=
  if empty df then Ok df
  else
    match indice subset (columns df) with
    | None => Raise (KeyError subset)
    | Some j => Ok (mkDataFrame (columns df) (primeras j [] (filas df)))
    end.

(** [df.rename(columns=m)]: labels in [m] are replaced, others kept;
    keys of [m] that are not labels are ignored. *)
Definition rename (df : DataFrame) (m : list (string * string)) : DataFrame :=
  mkDataFrame
    (map (fun c => match buscar c m with Some c' => c' | None => c end) (columns df))
    (filas df).

(** [df.reset_index(drop=True)]. *)
Definition reset_index (df : DataFrame) : DataFrame := df.

(** *** Column access *)

(** [df[c]] read. *)
Definition getitem (df : DataFrame) (c : string) : resultado (list valor) :=
  match indice c (columns df) with
  | None => Raise (KeyError c)
  | Some j => Ok (columna j (filas df))
  end.

Fixpoint reemplazar (j : nat) (v : valor) (fila : list valor) : list valor :=
  match fila, j with
  | [], _ => []
  | _ :: fila', O => v :: fila'
  | x :: fila', S j' => x :: reemplazar j' v fila'
  end.

(** [df[c] = serie]: the column is replaced when it exists and appended
    otherwise.  The series has the frame's index, so it is applied row by
    row. *)
Definition setitem (df : DataFrame) (c : string) (serie : list valor) : DataFrame :=
  match indice c (columns df) with
  | Some j =>
      mkDataFrame (columns df)
        (map (fun rv : list valor * valor => reemplazar j (snd rv) (fst rv))
             (combine (filas df) serie))
  | None =>
      mkDataFrame (columns df ++ [c])%list
        (map (fun rv : list valor * valor => (fst rv ++ [snd rv])%list)
             (combine (filas df) serie))
  end.

(** [df.itertuples(index=False)]: the columns zipped together, so a
    frame without columns yields nothing, whatever its index holds. *)
Definition itertuples (df : DataFrame) : list (list valor) :=
  match columns df with
  | [] => []
  | _ :: _ => filas df
  end.

(** *** Coercions *)

(** [pd.to_datetime(serie, errors="coerce")].  [analizar serie v] is the
    library's parser on one non-missing element of the series (it may use
    the whole series to guess the format); a missing value, and a value
    the parser refuses, becomes [NaT]. *)
Definition to_datetime (analizar : list valor -> valor -> option Timestamp)
                       (serie : list valor) : list valor :=
  map (fun v =>
         if es_nulo v then VNaT
         else match analizar serie v with
              | Some t => VTimestamp t
              | None => VNaT
              end)
      serie.

(** What the parser behind [pd.to_numeric] makes of a text it can read:
    an integer literal (its value, and the double read from the same
    text), or another number. *)
Inductive lectura : Type :=
| entero (z : Z) (f : float)
| decimal (f : float).

Definition INT64_MIN : Z := - 2 ^ 63.
Definition INT64_MAX : Z := 2 ^ 63 - 1.
Definition UINT64_MAX : Z := 2 ^ 64 - 1.

(** An integer too large for a double. *)
Definition desmedido (z : Z) : bool :=
  match Prim2SF (float_of_Z z) with
  | S754_infinity _ => true
  | _ => false
  end.

(** The fast path of [to_numeric] on one element: [int(v)], when it
    exists, fits int64 and is equal to [v]. *)
Definition como_int64 (v : valor) : option Z :=
  let en_rango := fun z => if (INT64_MIN <=? z) && (z <=? INT64_MAX) then Some z else None in
  match v with
  | VInt z => en_rango z
  | VBool b => Some (if b then 1 else 0)
  | VFloat f => match entero_de_float f with Some z => en_rango z | None => None end
  | _ => None
  end.

Fixpoint todos_int64 (serie : list valor) : option (list Z) :=
  match serie with
  | [] => Some []
  | v :: serie' =>
      match como_int64 v, todos_int64 serie' with
      | Some z, Some zs => Some (z :: zs)
      | _, _ => None
      end
  end.

(** One element as the loop of [to_numeric] reads it under
    [errors="coerce"]: a float, an integer (with the double it is read
    as), or a bool.  A missing value, an empty text, list or dict, and
    anything that cannot be read as a number is NaN. *)
Inductive leido : Type :=
| LFloat (f : float)
| LInt (z : Z) (f : float)
| LBool (b : bool).

Definition leer (analizar : string -> option lectura) (v : valor) : resultado leido :=
  match v with
  | VFloat f => Ok (LFloat f)
  | VInt z =>
      if desmedido z
      then Raise (NoModelado "pd.to_numeric of an integer beyond the range of float64")
      else Ok (LInt z (float_of_Z z))
  | VBool b => Ok (LBool b)
  | VStr s =>
      match s with
      | EmptyString => Ok (LFloat nan)
      | _ =>
          match analizar s with
          | Some (entero z f) => Ok (LInt z f)
          | Some (decimal f) => Ok (LFloat f)
          | None => Ok (LFloat nan)
          end
      end
  | _ => Ok (LFloat nan)
  end.

(** The result is float64 as soon as one element is a float or a
    missing value, or an integer outside both int64 and uint64, or when
    the integers need both a sign and the 64th bit. *)
Definition visto_float (l : list leido) : bool :=
  existsb (fun x => match x with
                    | LFloat _ => true
                    | LInt z _ => (z <? INT64_MIN) || (UINT64_MAX <? z)
                    | LBool _ => false
                    end) l
  || (existsb (fun x => match x with
                        | LInt z _ => (INT64_MIN <=? z) && (z <? 0)
                        | _ => false
                        end) l
      && existsb (fun x => match x with
                           | LInt z _ => (INT64_MAX <? z) && (z <=? UINT64_MAX)
                           | _ => false
                           end) l).

Definition visto_int (l : list leido) : bool :=
  existsb (fun x => match x with LInt _ _ => true | _ => false end) l.

Definition como_float (x : leido) : valor :=
  match x with
  | LFloat f => VFloat f
  | LInt _ f => VFloat f
  | LBool b => VFloat (if b then 1%float else 0%float)
  end.

Definition como_int (x : leido) : valor :=
  match x with
  | LInt z _ => VInt z
  | LBool b => VInt (if b then 1 else 0)
  | LFloat _ => VInt 0
  end.

Definition como_bool (x : leido) : valor :=
  match x with
  | LBool b => VBool b
  | _ => VBool false
  end.

(** [pd.to_numeric(serie, errors="coerce")].  A series that is numeric
    already (float64, int64, uint64, bool) comes back as it is; on a
    series of objects the library first tries all elements as int64 when
    the first one is an int, and otherwise reads them one by one and
    returns float64, else int64 or uint64, else bool, by what it saw.
    Both ways give a numeric series back as it is, so the model goes by
    the values alone. *)
Definition to_numeric (analizar : string -> option lectura) (serie : list valor)
  : resultado (list valor) :=
  let uno_a_uno :=
    leidos <- para_cada (leer analizar) serie ;;
    Ok (if visto_float leidos then map como_float leidos
        else if visto_int leidos then map como_int leidos
        else map como_bool leidos) in
  match serie with
  | VInt _ :: _ =>
      match todos_int64 serie with
      | Some zs => Ok (map VInt zs)
      | None => uno_a_uno
      end
  | _ => uno_a_uno
  end.

(** [serie.round(2)] on a numeric series; integers and bools are left
    as they are. *)
Definition round_2 (serie : list valor) : list valor :=
  map (fun v => match v with VFloat f => VFloat (np_round2 f) | _ => v end) serie.

End pd.

(* ================================================================== *)
(** ** pyodbc and the SQL Server database                              *)
(* ================================================================== *)

Module pyodbc.

Inductive tabla : Type := cliente | casoJuridico | contratoServicio.

(** The content of the three tables, each in insertion order. *)
Record base := mkBase {
  filas_cliente : list (list valor);
  filas_casoJuridico : list (list valor);
  filas_contratoServicio : list (list valor)
}.

Definition vacia : base := mkBase [] [] [].

Definition tabla_de (b : base) (t : tabla) : list (list valor) :=
  match t with
  | cliente => filas_cliente b
  | casoJuridico => filas_casoJuridico b
  | contratoServicio => filas_contratoServicio b
  end.

Definition insertar (b : base) (t : tabla) (fila : list valor) : base :=
  match t with
  | cliente =>
      mkBase (filas_cliente b ++ [fila]) (filas_casoJuridico b) (filas_contratoServicio b)
  | casoJuridico =>
      mkBase (filas_cliente b) (filas_casoJuridico b ++ [fila]) (filas_contratoServicio b)
  | contratoServicio =>
      mkBase (filas_cliente b) (filas_casoJuridico b) (filas_contratoServicio b ++ [fila])
  end.

(** The key of a row: in the three statements of [main] the ON clause
    compares the first column. *)
Definition clave (fila : list valor) : valor := pd.celda 0 fila.

(** SQL's [=]: not true when a side is NULL (or NaN, NaT), and defined
    on scalars only.  Numbers are compared by value and text as it is; the
    collation of text columns is not modelled. *)
Definition sql_igual (a b : valor) : bool :=
  negb (es_nulo a) && negb (es_nulo b) && negb (no_hashable a)
  && etiqueta_eqb (etiqueta_de a) (etiqueta_de b).

(** Whether the ON clause matches a row of the target. *)
Definition coincide (k : valor) (rows : list (list valor)) : bool :=
  existsb (fun r => sql_igual (clave r) k) rows.

(** The one statement shape the program uses:
    [MERGE INTO t USING (VALUES (?, ...)) AS source ON target.k = source.k
     WHEN NOT MATCHED THEN INSERT (...) VALUES (source. ...)]
    with k the first column and [marcadores] parameter markers. *)
Record Merge := mkMerge {
  destino : tabla;
  marcadores : nat
}.

(** One execution of a MERGE against the content [b].  [rechazo] says
    when the driver or the server refuses the statement (a parameter it
    cannot bind, a constraint of the schema); otherwise the row is
    inserted when no target row matches its key, and nothing changes when
    one does. *)
Definition merge (rechazo : tabla -> list valor -> base -> option string)
                 (m : Merge) (params : list valor) (b : base) : resultado base :=
  if negb (Nat.eqb (List.length params) (marcadores m))
  then Raise (pyodbc_Error "wrong number of parameters for the parameter markers")
  else
    match rechazo (destino m) params b with
    | Some msg => Raise (pyodbc_Error msg)
    | None =>
        if coincide (clave params) (tabla_de b (destino m)) then Ok b
        else Ok (insertar b (destino m) params)
    end.

(** A connection with autocommit off: what the database holds durably,
    what the open transaction sees, and how many times [commit()] was
    called on it. *)
Record Connection := mkConnection {
  persistido : base;
  en_curso : base;
  llamadas_commit : nat
}.

Definition abrir (b : base) : Connection := mkConnection b b 0.

Definition commit_ (c : Connection) : Connection :=
  mkConnection (en_curso c) (en_curso c) (S (llamadas_commit c)).

Definition rollback (c : Connection) : Connection :=
  mkConnection (persistido c) (persistido c) (llamadas_commit c).

(** [Connection.__exit__]: the end of a [with] block ends the open
    transaction, committing when the block finished and rolling back
    when it raised.  It is the library's doing, not a call of the
    program, so it does not count in [llamadas_commit]. *)
Definition salir {A : Type} (r : resultado A) (c : Connection) : Connection :=
  match r with
  | Ok _ => mkConnection (en_curso c) (en_curso c) (llamadas_commit c)
  | Raise _ => rollback c
  end.

End pyodbc.

(* ================================================================== *)
(** ** What the program finds around it                                *)
(* ================================================================== *)

(** [requests.Response]: the status code and what [.json()] gives. *)
Record Response := mkResponse {
  status_code : Z;
  json : resultado valor
}.

Record Entorno := mkEntorno {
  (** the environment variable GRAPHQL_URL, or its default *)
  GRAPHQL_URL : string;
  (** [requests.post(url, json={"query": q})] *)
  requests_post : string -> string -> resultado Response;
  (** the parser behind [pd.to_datetime] *)
  analizar_fecha : list valor -> valor -> option Timestamp;
  (** the parser behind [pd.to_numeric] on text *)
  analizar_numero : string -> option pd.lectura;
  (** [pyodbc.connect]: the error text when the database is unreachable *)
  error_de_conexion : option string;
  (** when the database refuses a statement, and with which error text *)
  rechazo : pyodbc.tabla -> list valor -> pyodbc.base -> option string
}.

(* ================================================================== *)
(** ** actualizar_bd.py                                                *)
(* ================================================================== *)

Definition QUERY_CLIENTES : string := "
query {
  allClientes {
    ci
    nombre
    apellido
  }
}
".

Definition QUERY_CASOS : string := "
query {
  allCasos {
    id
    meteria
  }
}
".

Definition QUERY_SERVICIOS : string := "
query {
  allContratos {
    id
    fecha
    precioBS
    cliente {
      ci
    }
    Caso {
      id
    }
  }
}
".

(** [str(n)] for an int. *)
Definition str_int (n : Z) : string := NilZero.string_of_int (Z.to_int n).

(** [consulta_graphql(query)]. *)
Definition consulta_graphql (E : Entorno) (query : string) : resultado valor :=
  response <- requests_post E (GRAPHQL_URL E) query ;;
  if negb (status_code response =? 200)
  then Raise (Exception_ ("Error al consultar GraphQL (" ++ str_int (status_code response) ++ ")"))
  else
    cuerpo <- json response ;;
    subscript cuerpo "data".

(** What a [for] loop iterates over. *)
Definition iterar (v : valor) : resultado (list valor) :=
  match v with
  | VList l => Ok l
  | VStr s => Ok (map (fun a => VStr (String a EmptyString)) (list_ascii_of_string s))
  | VDict d => Ok (map (fun kv : string * valor => VStr (fst kv)) d)
  | _ => Raise (TypeError "object is not iterable")
  end.

(** The dict built for one [servicio] in the loop of
    [procesar_datos_servicios]; the items are evaluated in order. *)
Definition procesar_servicio (servicio : valor) : resultado (list (string * valor)) :=
  nrocontrato <- subscript servicio "id" ;;
  fecha <- subscript servicio "fecha" ;;
  monto <- subscript servicio "precioBS" ;;
  cli <- subscript servicio "cliente" ;;
  cicliente <- (if truthy cli then subscript cli "ci" else Ok VNone) ;;
  caso <- subscript servicio "Caso" ;;
  nrocasojuridico <- (if truthy caso then subscript caso "id" else Ok VNone) ;;
  Ok [ ("nrocontrato", nrocontrato);
       ("fecha", fecha);
       ("monto", monto);
       ("cicliente", cicliente);
       ("nrocasojuridico", nrocasojuridico) ].

(** [procesar_datos_servicios(raw_data)]. *)
Definition procesar_datos_servicios (raw_data : valor) : resultado pd.DataFrame :=
  servicios <- iterar raw_data ;;
  processed <- para_cada procesar_servicio servicios ;;
  Ok (pd.de_registros processed).

(** [limpiar_dataframes(df_clientes, df_casos, df_servicios)]. *)
Definition limpiar_dataframes (E : Entorno)
    (df_clientes df_casos df_servicios : pd.DataFrame)
  : resultado (pd.DataFrame * pd.DataFrame * pd.DataFrame) :=
  df_clientes <- pd.drop_duplicates df_clientes "ci" ;;
  let df_clientes := pd.reset_index df_clientes in
  df_casos <- pd.drop_duplicates df_casos "id" ;;
  let df_casos :=
    pd.reset_index (pd.rename df_casos [("id", "nrocaso"); ("materia", "materia")]) in
  df_servicios <- pd.drop_duplicates df_servicios "nrocontrato" ;;
  let df_servicios := pd.reset_index df_servicios in
  fecha <- pd.getitem df_servicios "fecha" ;;
  let df_servicios :=
    pd.setitem df_servicios "fecha" (pd.to_datetime (analizar_fecha E) fecha) in
  monto <- pd.getitem df_servicios "monto" ;;
  monto <- pd.to_numeric (analizar_numero E) monto ;;
  let df_servicios := pd.setitem df_servicios "monto" (pd.round_2 monto) in
  Ok (df_clientes, df_casos, df_servicios).

(** Lines 137-147 of [main]: the three fetches, the three frames, the
    cleaning.  Nothing here is inside the [try].  The prints of [main]
    (the shapes and first rows of the frames) are left out. *)
Definition obtener_y_limpiar (E : Entorno)
  : resultado (pd.DataFrame * pd.DataFrame * pd.DataFrame) :=
  data_clientes <- (d <- consulta_graphql E QUERY_CLIENTES ;; subscript d "allClientes") ;;
  data_casos <- (d <- consulta_graphql E QUERY_CASOS ;; subscript d "allCasos") ;;
  data_servicios <- (d <- consulta_graphql E QUERY_SERVICIOS ;; subscript d "allContratos") ;;
  df_clientes <- pd.DataFrame_ data_clientes ;;
  df_casos <- pd.DataFrame_ data_casos ;;
  df_servicios <- procesar_datos_servicios data_servicios ;;
  limpiar_dataframes E df_clientes df_casos df_servicios.

(** *** The database session *)

(** Code that runs on an open connection: it returns or raises, and
    leaves the connection in a new state either way. *)
Definition Sesion (A : Type) : Type :=
  pyodbc.Connection -> resultado A * pyodbc.Connection.

Definition luego {A B : Type} (m : Sesion A) (k : A -> Sesion B) : Sesion B :=
  fun c =>
    match m c with
    | (Ok a, c') => k a c'
    | (Raise e, c') => (Raise e, c')
    end.

Notation "m >> k" := (luego m (fun _ => k)) (at level 90, right associativity).

(** [cursor.execute(sql, row)]. *)
Definition execute (E : Entorno) (sql : pyodbc.Merge) (row : list valor) : Sesion unit :=
  fun c =>
    match pyodbc.merge (rechazo E) sql row (pyodbc.en_curso c) with
    | Ok b' =>
        (Ok tt, pyodbc.mkConnection (pyodbc.persistido c) b' (pyodbc.llamadas_commit c))
    | Raise e => (Raise e, c)
    end.

(** [conn.commit()].  (A commit that itself fails is not modelled.) *)
Definition commit : Sesion unit := fun c => (Ok tt, pyodbc.commit_ c).

(** [for row in rows: cursor.execute(sql, row)]. *)
Fixpoint execute_todas (E : Entorno) (sql : pyodbc.Merge) (rows : list (list valor))
  : Sesion unit :=
  match rows with
  | [] => fun c => (Ok tt, c)
  | row :: rows' => execute E sql row >> execute_todas E sql rows'
  end.

Definition insert_clientes : pyodbc.Merge := pyodbc.mkMerge pyodbc.cliente 3.
Definition insert_casos : pyodbc.Merge := pyodbc.mkMerge pyodbc.casoJuridico 2.
Definition insert_servicios : pyodbc.Merge := pyodbc.mkMerge pyodbc.contratoServicio 5.

(** The body of the [with] block of [main] (lines 166-205). *)
Definition cuerpo_with (E : Entorno)
    (df_clientes df_casos df_servicios : pd.DataFrame) : Sesion unit :=
  execute_todas E insert_clientes (pd.itertuples df_clientes) >>
  execute_todas E insert_casos (pd.itertuples df_casos) >>
  execute_todas E insert_servicios (pd.itertuples df_servicios) >>
  commit.

(** What one run of the program leaves behind: how it ended, what the
    database holds afterwards, and how many times the program called
    [commit()]. *)
Record Corrida := mkCorrida {
  salida : resultado unit;
  almacen : pyodbc.base;
  commits : nat
}.

(** [except Exception as e: raise Exception(f"...: {e}")]. *)
Definition envolver (e : excepcion) : excepcion :=
  Exception_ ("Error al guardar los datos en la base de datos: " ++ str e).

(** Lines 164-211 of [main]: the [try] around the [with] block. *)
Definition guardar (E : Entorno)
    (df_clientes df_casos df_servicios : pd.DataFrame) (b : pyodbc.base) : Corrida :=
  match error_de_conexion E with
  | Some msg => mkCorrida (Raise (envolver (pyodbc_Error msg))) b 0
  | None =>
      let conn := pyodbc.abrir b in
      let (r, conn) := cuerpo_with E df_clientes df_casos df_servicios conn in
      let conn := pyodbc.salir r conn in
      mkCorrida
        (match r with Ok _ => Ok tt | Raise e => Raise (envolver e) end)
        (pyodbc.persistido conn)
        (pyodbc.llamadas_commit conn)
  end.

(** [main()], run against a database that holds [b]. *)
Definition main (E : Entorno) (b : pyodbc.base) : Corrida :=
  match obtener_y_limpiar E with
  | Raise e => mkCorrida (Raise e) b 0
  | Ok (df_clientes, df_casos, df_servicios) =>
      guardar E df_clientes df_casos df_servicios b
  end.

(** *** The statements of a run, one by one *)

(** The statements the [with] block sends, in order. *)
Definition sentencias (df_clientes df_casos df_servicios : pd.DataFrame)
  : list (pyodbc.Merge * list valor) :=
  map (pair insert_clientes) (pd.itertuples df_clientes)
  ++ map (pair insert_casos) (pd.itertuples df_casos)
  ++ map (pair insert_servicios) (pd.itertuples df_servicios).

(** The content of the open transaction after the statements [l], or
    the error of the first one that fails. *)
Fixpoint aplicar (E : Entorno) (l : list (pyodbc.Merge * list valor)) (b : pyodbc.base)
  : resultado pyodbc.base :=
  match l with
  | [] => Ok b
  | (sql, row) :: l' =>
      b' <- pyodbc.merge (rechazo E) sql row b ;;
      aplicar E l' b'
  end.

(** The first statement of [l] the database refuses: its table, the key
    of its row, and the text of the error. *)
Fixpoint primer_fallo (E : Entorno) (l : list (pyodbc.Merge * list valor)) (b : pyodbc.base)
  : option (pyodbc.tabla * valor * string) :=
  match l with
  | [] => None
  | (sql, row) :: l' =>
      match pyodbc.merge (rechazo E) sql row b with
      | Ok b' => primer_fallo E l' b'
      | Raise e => Some (pyodbc.destino sql, pyodbc.clave row, str e)
      end
  end.

(** The statement at which a run of [main] fails, when it fails at one. *)
Definition fallo_de_main (E : Entorno) (b : pyodbc.base)
  : option (pyodbc.tabla * valor * string) :=
  match obtener_y_limpiar E, error_de_conexion E with
  | Ok (df_clientes, df_casos, df_servicios), None =>
      primer_fallo E (sentencias df_clientes df_casos df_servicios) b
  | _, _ => None
  end.

(** The program run once for each environment of [Es], each run starting
    from what the previous one left in the database. *)
Definition corridas (Es : list Entorno) (b : pyodbc.base) : pyodbc.base :=
  fold_left (fun b E => almacen (main E b)) Es b.

(* ================================================================== *)
(** ** dashboards.py                                                   *)
(* ================================================================== *)

(** Order of timestamps: by date, then by the time of the day. *)
Definition Timestamp_compare (a b : Timestamp) : comparison :=
  match year a ?= year b with
  | Eq =>
      match month a ?= month b with
      | Eq =>
          match day a ?= day b with
          | Eq => nanosecond_of_day a ?= nanosecond_of_day b
          | c => c
          end
      | c => c
      end
  | c => c
  end.

Definition Timestamp_leb (a b : Timestamp) : bool :=
  match Timestamp_compare a b with
  | Gt => false
  | _ => true
  end.

Module dashboards.

(** A plotly figure: the empty one of [go.Figure()], or one a [graf_]
    function drew from a frame. *)
Inductive Figure : Type :=
| go_Figure
| px_figure (nombre : string) (df : pd.DataFrame).

(** What the dashboard finds around it.  The five [graf_] functions fit
    scikit-learn models and draw plotly figures; they are taken as they
    come, as is the SQL engine behind [pd.read_sql_query]. *)
Record Tablero := mkTablero {
  (** [pyodbc.connect(CONNECTION_STRING)]: the error text when it fails *)
  error_de_conexion_bd : option string;
  (** [pd.read_sql_query(q, conn)] on a database that holds [b] *)
  read_sql_query : string -> pyodbc.base -> resultado pd.DataFrame;
  (** the parser behind [pd.to_datetime] on a series *)
  analizar_fechas : list valor -> valor -> option Timestamp;
  (** the parser pandas applies to a text compared with a date column *)
  analizar_limite : string -> option Timestamp;
  graf_ingreso_fecha : pd.DataFrame -> resultado (pd.DataFrame * valor * Figure);
  graf_ingreso_materia : pd.DataFrame -> resultado (pd.DataFrame * valor * Figure);
  graf_top_clientes : pd.DataFrame -> resultado (pd.DataFrame * valor * Figure);
  graf_prediccion : pd.DataFrame -> resultado (pd.DataFrame * valor * Figure);
  graf_segmentacion : pd.DataFrame -> resultado (pd.DataFrame * valor * Figure);
  (** the text of [round(suma, 2)] in the f-string *)
  formato_total : valor -> string;
  (** [subprocess.run]: the error text when the child cannot be started *)
  error_de_lanzamiento : option string;
  (** what [actualizar_bd.py] finds around it when run as a child *)
  entorno_hijo : Entorno
}.

Definition QUERY_ingresofecha : string := "
        SELECT fecha, monto
        FROM contratoServicio
        ORDER BY fecha;
    ".

Definition QUERY_ingresomateria : string := "
        SELECT cs.fecha, cs.monto, cj.meteria as materia
        FROM contratoServicio AS cs
        JOIN casoJuridico AS cj ON cs.nrocasojuridico = cj.nrocaso;
    ".

Definition QUERY_topclientes : string := "
        SELECT cs.fecha, cs.monto, c.nombre + ' ' + c.apellido AS nombre, c.ci
        FROM contratoServicio AS cs
        JOIN cliente AS c ON cs.cicliente = c.ci;
    ".

Definition QUERY_prediccion : string := "
        SELECT 
            DATEFROMPARTS(YEAR(fecha), MONTH(fecha), 1) AS fecha,
            COUNT(nrocontrato) AS total_contratos
        FROM contratoServicio
        GROUP BY YEAR(fecha), MONTH(fecha)
        ORDER BY fecha;
    ".

Definition QUERY_segmentacion : string := "
        SELECT 
            c.ci AS cliente_id,
            COUNT(cs.nrocontrato) AS frecuencia,
            AVG(cs.monto) AS monto_promedio,
            COUNT(DISTINCT cs.nrocasojuridico) AS variedad_casos
        FROM cliente c
        LEFT JOIN contratoServicio cs ON cs.cicliente = c.ci
        GROUP BY c.ci;
    ".

Definition QUERIES : list (string * string) :=
  [ ("ingresofecha", QUERY_ingresofecha);
    ("ingresomateria", QUERY_ingresomateria);
    ("topclientes", QUERY_topclientes);
    ("prediccion", QUERY_prediccion);
    ("segmentacion", QUERY_segmentacion) ].

(** [df.dropna()]: the rows without a missing cell. *)
Definition dropna (df : pd.DataFrame) : pd.DataFrame :=
  pd.mkDataFrame (pd.columns df)
    (filter (fun r => negb (existsb es_nulo r)) (pd.filas df)).

(** [get_data()] on a database that holds [b]. *)
Definition get_data (T : Tablero) (b : pyodbc.base)
  : resultado (list (string * pd.DataFrame)) :=
  match error_de_conexion_bd T with
  | Some msg => Raise (pyodbc_Error msg)
  | None =>
      para_cada
        (fun kq : string * string =>
           df <- read_sql_query T (snd kq) b ;;
           Ok (fst kq, dropna df))
        QUERIES
  end.

(** [pd.to_datetime(serie)] with the default [errors="raise"]: a
    missing value becomes NaT, a timestamp stays, anything else goes to
    the parser, and what the parser refuses raises. *)
Definition to_datetime (analizar : list valor -> valor -> option Timestamp)
                       (serie : list valor) : resultado (list valor) :=
  para_cada
    (fun v =>
       if es_nulo v then Ok VNaT
       else match v with
            | VTimestamp t => Ok (VTimestamp t)
            | _ =>
                match analizar serie v with
                | Some t => Ok (VTimestamp t)
                | None => Raise (ValueError "Unknown datetime string format")
                end
            end)
    serie.

(** The scalar a datetime column is compared with: a timestamp, NaT
    (which compares false with everything), or a text pandas parses;
    anything else is an invalid comparison. *)
Definition limite (analizar : string -> option Timestamp) (v : valor)
  : resultado (option Timestamp) :=
  match v with
  | VTimestamp t => Ok (Some t)
  | VNaT => Ok None
  | VStr s =>
      match analizar s with
      | Some t => Ok (Some t)
      | None => Raise (TypeError "Invalid comparison between dtype=datetime64[ns] and str")
      end
  | _ => Raise (TypeError "Invalid comparison between dtype=datetime64[ns] and object")
  end.

(** One cell under [serie >= l] and under [serie <= l]. *)
Definition mayor_igual (l : option Timestamp) (v : valor) : bool :=
  match l, v with
  | Some tl, VTimestamp t => Timestamp_leb tl t
  | _, _ => false
  end.

Definition menor_igual (l : option Timestamp) (v : valor) : bool :=
  match l, v with
  | Some tl, VTimestamp t => Timestamp_leb t tl
  | _, _ => false
  end.

(** [a & b] on two boolean series. *)
Definition y_logico (a b : list bool) : list bool :=
  map (fun p : bool * bool => fst p && snd p) (combine a b).

(** [df[mascara]]: the rows where the mask is true. *)
Fixpoint seleccionar (mascara : list bool) (rows : list (list valor)) : list (list valor) :=
  match mascara, rows with
  | m :: mascara', r :: rows' =>
      if m then r :: seleccionar mascara' rows' else seleccionar mascara' rows'
  | _, _ => []
  end.

(** [filtrar_por_fecha(df, fechaInicio, fechaFin)].  The function
    assigns to a column of its argument, so it gives back two frames: what
    [df] is after the call, and the frame it returns. *)
Definition filtrar_por_fecha (T : Tablero) (df : pd.DataFrame) (fechaInicio fechaFin : valor)
  : resultado (pd.DataFrame * pd.DataFrame) :=
  fecha <- pd.getitem df "fecha" ;;
  fecha <- to_datetime (analizar_fechas T) fecha ;;
  let df := pd.setitem df "fecha" fecha in
  desde <- pd.getitem df "fecha" ;;
  inicio <- limite (analizar_limite T) fechaInicio ;;
  hasta <- pd.getitem df "fecha" ;;
  fin <- limite (analizar_limite T) fechaFin ;;
  let mascara := y_logico (map (mayor_igual inicio) desde) (map (menor_igual fin) hasta) in
  Ok (df, pd.mkDataFrame (pd.columns df) (seleccionar mascara (pd.filas df))).

Definition PROCESS_MAP (T : Tablero)
  : list (string * (pd.DataFrame -> resultado (pd.DataFrame * valor * Figure))) :=
  [ ("ingresofecha", graf_ingreso_fecha T);
    ("ingresomateria", graf_ingreso_materia T);
    ("topclientes", graf_top_clientes T);
    ("prediccion", graf_prediccion T);
    ("segmentacion", graf_segmentacion T) ].

(** [subprocess.run(['python', 'actualizar_bd.py'], check=True)]: the
    child runs [main]; it exits with status 0 when [main] returns and with
    status 1 when an exception leaves it, which [check=True] turns into
    an exception of the caller. *)
Definition subprocess_run (T : Tablero) (b : pyodbc.base) : resultado unit * pyodbc.base :=
  match error_de_lanzamiento T with
  | Some msg => (Raise (Exception_ msg), b)
  | None =>
      let c := main (entorno_hijo T) b in
      (match salida c with
       | Ok _ => Ok tt
       | Raise _ =>
           Raise (Exception_ "Command '['python', 'actualizar_bd.py']' returned non-zero exit status 1.")
       end,
       almacen c)
  end.

(** [s.upper()] on ASCII text (the values of the menu are ASCII). *)
Definition upper_ascii (a : ascii) : ascii :=
  let n := nat_of_ascii a in
  if (97 <=? n)%nat && (n <=? 122)%nat then ascii_of_nat (n - 32) else a.

Fixpoint upper (s : string) : string :=
  match s with
  | EmptyString => EmptyString
  | String a s' => String (upper_ascii a) (upper s')
  end.

(** The four outputs of the callback. *)
Record Vista := mkVista {
  titulo : string;
  gbarras : Figure;
  estado_sincronizacion : string;
  suma_monto : string
}.

(** [d[k]] on a dict with string keys. *)
Definition item {A : Type} (d : list (string * A)) (k : string) : resultado A :=
  match buscar k d with
  | Some x => Ok x
  | None => Raise (KeyError k)
  end.

(** Lines 305-319 of [actualizar_vista]: what it does once both dates
    are there. *)
Definition vista_de_consulta (T : Tablero) (menu : string) (fechaInicio fechaFin : valor)
    (b : pyodbc.base) : resultado Vista :=
  dfs <- get_data T b ;;
  df <- item dfs menu ;;
  df <- (if existsb (String.eqb "fecha") (pd.columns df)
         then (r <- filtrar_por_fecha T df fechaInicio fechaFin ;; Ok (snd r))
         else Ok df) ;;
  if pd.empty df then Ok (mkVista "Sin datos" go_Figure "" "")
  else
    graf <- item (PROCESS_MAP T) menu ;;
    r <- graf df ;;
    Ok (mkVista (upper menu) (snd r) "" ("Total: BS. " ++ formato_total T (snd (fst r)))).

(** [actualizar_vista(menu, fechaInicio, fechaFin)] on a database that
    holds [b]: what the callback returns or raises, and what the database
    holds afterwards. *)
Definition actualizar_vista (T : Tablero) (menu : string) (fechaInicio fechaFin : valor)
    (b : pyodbc.base) : resultado Vista * pyodbc.base :=
  if String.eqb menu "actualizarbd" then
    let (r, b') := subprocess_run T b in
    (match r with
     | Ok _ => Ok (mkVista "Actualizando BD" go_Figure "✅ Actualizada" "")
     | Raise _ => Ok (mkVista "Error" go_Figure "❌ Error al actualizar" "")
     end, b')
  else if negb (truthy fechaInicio) || negb (truthy fechaFin) then
    (Ok (mkVista "Seleccione fechas" go_Figure "" ""), b)
  else (vista_de_consulta T menu fechaInicio fechaFin b, b).

End dashboards.

(* ================================================================== *)
(** ** Concrete environments                                           *)
(* ================================================================== *)

(** A GraphQL server that answers the three queries with the given
    lists, status 200, and any other query with status 400. *)
Definition servidor (clientes casos contratos : valor)
  : string -> string -> resultado Response :=
  fun _ query =>
    if String.eqb query QUERY_CLIENTES then
      Ok (mkResponse 200 (Ok (VDict [("data", VDict [("allClientes", clientes)])])))
    else if String.eqb query QUERY_CASOS then
      Ok (mkResponse 200 (Ok (VDict [("data", VDict [("allCasos", casos)])])))
    else if String.eqb query QUERY_SERVICIOS then
      Ok (mkResponse 200 (Ok (VDict [("data", VDict [("allContratos", contratos)])])))
    else Ok (mkResponse 400 (Ok (VDict []))).

(** A server that gives every query the same response. *)
Definition servidor_fijo (r : Response) : string -> string -> resultado Response :=
  fun _ _ => Ok r.

Definition numero_decimal (s : string) : option Z :=
  option_map Z.of_int (NilZero.int_of_string s).

(** A date parser that reads [YYYY-MM-DD] and nothing else. *)
Definition fecha_iso (_ : list valor) (v : valor) : option Timestamp :=
  match v with
  | VStr s =>
      if (String.length s =? 10)%nat
         && String.eqb (substring 4 1 s) "-" && String.eqb (substring 7 1 s) "-"
      then
        match numero_decimal (substring 0 4 s),
              numero_decimal (substring 5 2 s),
              numero_decimal (substring 8 2 s) with
        | Some y, Some m, Some d =>
            if (1 <=? m) && (m <=? 12) && (1 <=? d) && (d <=? 31)
            then Some (mkTimestamp y m d 0)
            else None
        | _, _, _ => None
        end
      else None
  | _ => None
  end.

(** A number parser that reads decimal integers and nothing else. *)
Definition numero_entero (s : string) : option pd.lectura :=
  option_map (fun z => pd.entero z (float_of_Z z)) (numero_decimal s).

(** A database that refuses nothing. *)
Definition sin_restricciones : pyodbc.tabla -> list valor -> pyodbc.base -> option string :=
  fun _ _ _ => None.

(** A database whose key columns are primary keys: a row whose key is
    NULL (or is no SQL scalar) is refused. *)
Definition clave_primaria : pyodbc.tabla -> list valor -> pyodbc.base -> option string :=
  fun _ fila _ =>
    if pyodbc.sql_igual (pyodbc.clave fila) (pyodbc.clave fila) then None
    else Some "Cannot insert the value NULL into the key column".

(** A strict schema: besides the primary keys, a contract must
    reference a client that is in the table. *)
Definition esquema_estricto : pyodbc.tabla -> list valor -> pyodbc.base -> option string :=
  fun t fila b =>
    match clave_primaria t fila b with
    | Some msg => Some msg
    | None =>
        match t with
        | pyodbc.contratoServicio =>
            let ci := pd.celda 3 fila in
            if es_nulo ci || pyodbc.coincide ci (pyodbc.filas_cliente b) then None
            else Some "The MERGE statement conflicted with the FOREIGN KEY constraint"
        | _ => None
        end
    end.

(** A database whose amount column takes no NaN: a contract whose
    amount is missing is refused. *)
Definition sin_nan : pyodbc.tabla -> list valor -> pyodbc.base -> option string :=
  fun t fila _ =>
    match t with
    | pyodbc.contratoServicio =>
        if es_nulo (pd.celda 2 fila)
        then Some "The supplied value is not a valid instance of data type float"
        else None
    | _ => None
    end.

(** A database that refuses every statement with one and the same text. *)
Definition siempre_rechaza : pyodbc.tabla -> list valor -> pyodbc.base -> option string :=
  fun _ _ _ => Some "constraint violation".

Definition entorno (clientes casos contratos : valor)
    (r : pyodbc.tabla -> list valor -> pyodbc.base -> option string) : Entorno :=
  mkEntorno "http://host.docker.internal:8080/graphql"
            (servidor clientes casos contratos)
            fecha_iso numero_entero None r.

(** The scenario of the specification. *)
Definition cliente_A1 : valor :=
  VDict [("ci", VStr "A1"); ("nombre", VStr "Ana"); ("apellido", VStr "Ruiz")].
Definition caso_C1 : valor :=
  VDict [("id", VStr "C1"); ("meteria", VStr "civil")].
Definition contrato_K1 : valor :=
  VDict [("id", VStr "K1"); ("fecha", VStr "2024-03-01"); ("precioBS", VFloat 150.555%float);
         ("cliente", VDict [("ci", VStr "A1")]); ("Caso", VDict [("id", VStr "C1")])].

Definition escenario : Entorno :=
  entorno (VList [cliente_A1]) (VList [caso_C1]) (VList [contrato_K1]) sin_restricciones.

(** A second record for the client A1, under another name. *)
Definition cliente_A1_bis : valor :=
  VDict [("ci", VStr "A1"); ("nombre", VStr "Anabel"); ("apellido", VStr "Ruiz")].

(** A contract with a date and an amount nobody can read, and with
    neither client nor case. *)
Definition contrato_K2 : valor :=
  VDict [("id", VStr "K2"); ("fecha", VStr "ayer"); ("precioBS", VStr "mucho");
         ("cliente", VNone); ("Caso", VNone)].

(** The frames [main] builds from these records. *)
Definition df_dos_clientes : pd.DataFrame :=
  pd.mkDataFrame ["ci"; "nombre"; "apellido"]
    [[VStr "A1"; VStr "Ana"; VStr "Ruiz"]; [VStr "A1"; VStr "Anabel"; VStr "Ruiz"]].
Definition df_un_caso : pd.DataFrame :=
  pd.mkDataFrame ["id"; "meteria"] [[VStr "C1"; VStr "civil"]].
Definition df_dos_contratos : pd.DataFrame :=
  pd.mkDataFrame ["nrocontrato"; "fecha"; "monto"; "cicliente"; "nrocasojuridico"]
    [[VStr "K1"; VStr "2024-03-01"; VFloat 150.555%float; VStr "A1"; VStr "C1"];
     [VStr "K2"; VStr "ayer"; VStr "mucho"; VNone; VNone]].

(** The same frames after [limpiar_dataframes]. *)
Definition df_un_cliente_limpio : pd.DataFrame :=
  pd.mkDataFrame ["ci"; "nombre"; "apellido"] [[VStr "A1"; VStr "Ana"; VStr "Ruiz"]].
Definition df_un_caso_limpio : pd.DataFrame :=
  pd.mkDataFrame ["nrocaso"; "meteria"] [[VStr "C1"; VStr "civil"]].
Definition df_dos_contratos_limpio : pd.DataFrame :=
  pd.mkDataFrame ["nrocontrato"; "fecha"; "monto"; "cicliente"; "nrocasojuridico"]
    [[VStr "K1"; VTimestamp (mkTimestamp 2024 3 1 0); VFloat 150.56%float;
      VStr "A1"; VStr "C1"];
     [VStr "K2"; VNaT; VFloat nan; VNone; VNone]].

(** What the database holds after these frames went into an empty one. *)
Definition base_dos_de_cada : pyodbc.base :=
  pyodbc.mkBase (pd.filas df_un_cliente_limpio) (pd.filas df_un_caso_limpio)
                (pd.filas df_dos_contratos_limpio).

Definition dos_de_cada : Entorno :=
  entorno (VList [cliente_A1; cliente_A1_bis]) (VList [caso_C1])
          (VList [contrato_K1; contrato_K2]) sin_restricciones.

(** A contract of a client the source does not list. *)
Definition contrato_K3 : valor :=
  VDict [("id", VStr "K3"); ("fecha", VStr "2024-03-02"); ("precioBS", VInt 80);
         ("cliente", VDict [("ci", VStr "A2")]); ("Caso", VDict [("id", VStr "C1")])].

(** A server that answers every query with status 500. *)
Definition respuesta_500 : Response := mkResponse 500 (Ok (VDict [])).

(** Two sources against a database that refuses everything: the first
    run has a client to insert, the second has only a contract. *)
Definition falla_en_cliente : Entorno :=
  entorno (VList [cliente_A1]) (VList []) (VList [contrato_K1]) siempre_rechaza.
Definition falla_en_contrato : Entorno :=
  entorno (VList []) (VList []) (VList [contrato_K1]) siempre_rechaza.

(** The scenario against the strict schema. *)
Definition estricto : Entorno :=
  entorno (VList [cliente_A1]) (VList [caso_C1]) (VList [contrato_K1]) esquema_estricto.

(** A GraphQL error answer: status 200, a null [data], an [errors] list. *)
Definition respuesta_data_null : Response :=
  mkResponse 200 (Ok (VDict [("data", VNone);
                             ("errors", VList [VDict [("message", VStr "boom")]])])).

(** The same without a [data] key. *)
Definition respuesta_sin_data : Response :=
  mkResponse 200 (Ok (VDict [("errors", VList [VDict [("message", VStr "boom")]])])).

Definition entorno_fijo (r : Response) : Entorno :=
  mkEntorno "http://host.docker.internal:8080/graphql"
            (servidor_fijo r) fecha_iso numero_entero None sin_restricciones.

(** The scenario without contracts. *)
Definition sin_contratos : Entorno :=
  entorno (VList [cliente_A1]) (VList [caso_C1]) (VList []) sin_restricciones.

(** A dashboard over a database read through one query shape: whatever
    the query, the dates and amounts of the contracts.  Its [graf_]
    functions draw the frame they get and total nothing. *)
Definition leer_contratos : string -> pyodbc.base -> resultado pd.DataFrame :=
  fun _ b =>
    Ok (pd.mkDataFrame ["fecha"; "monto"]
          (map (fun r => [pd.celda 1 r; pd.celda 2 r]) (pyodbc.filas_contratoServicio b))).

Definition graf_de (nombre : string)
  : pd.DataFrame -> resultado (pd.DataFrame * valor * dashboards.Figure) :=
  fun df => Ok (df, VInt 0, dashboards.px_figure nombre df).

Definition tablero (E : Entorno) : dashboards.Tablero :=
  dashboards.mkTablero None leer_contratos fecha_iso (fun s => fecha_iso [] (VStr s))
    (graf_de "ingresofecha") (graf_de "ingresomateria") (graf_de "topclientes")
    (graf_de "prediccion") (graf_de "segmentacion")
    (fun _ => "0") None E.

(** Three dated amounts, the last one a timestamp already. *)
Definition df_fechas : pd.DataFrame :=
  pd.mkDataFrame ["fecha"; "monto"]
    [[VStr "2024-03-01"; VFloat 150.56%float];
     [VStr "2024-04-15"; VInt 80];
     [VTimestamp (mkTimestamp 2024 5 20 0); VInt 10]].

(** The same after [filtrar_por_fecha]: the argument, and what is
    returned for March and April. *)
Definition df_fechas_convertido : pd.DataFrame :=
  pd.mkDataFrame ["fecha"; "monto"]
    [[VTimestamp (mkTimestamp 2024 3 1 0); VFloat 150.56%float];
     [VTimestamp (mkTimestamp 2024 4 15 0); VInt 80];
     [VTimestamp (mkTimestamp 2024 5 20 0); VInt 10]].

Definition df_marzo_abril : pd.DataFrame :=
  pd.mkDataFrame ["fecha"; "monto"]
    [[VTimestamp (mkTimestamp 2024 3 1 0); VFloat 150.56%float];
     [VTimestamp (mkTimestamp 2024 4 15 0); VInt 80]].

(* ================================================================== *)
(** ** Notions the properties are stated with                          *)
(* ================================================================== *)

Open Scope list_scope.

(** The stored row a key designates: the first one the key matches. *)
Definition fila_con_clave (k : valor) (rows : list (list valor)) : option (list valor) :=
  find (fun r => pyodbc.sql_igual (pyodbc.clave r) k) rows.

(** [nuevas] were appended to [rows] one at a time, each under a key
    that matched no row present at that moment. *)
Fixpoint solo_nuevas (rows nuevas : list (list valor)) : bool :=
  match nuevas with
  | [] => true
  | r :: nuevas' =>
      negb (pyodbc.coincide (pyodbc.clave r) rows) && solo_nuevas (rows ++ [r]) nuevas'
  end.

(** The key columns are primary keys: the database refuses a row whose
    key is NULL (or is not an SQL scalar). *)
Definition con_claves_primarias
    (r : pyodbc.tabla -> list valor -> pyodbc.base -> option string) : Prop :=
  forall t fila b,
    pyodbc.sql_igual (pyodbc.clave fila) (pyodbc.clave fila) = false ->
    r t fila b <> None.

(** The key of the statement [s] matches a row of its table in [b]. *)
Definition presente (b : pyodbc.base) (s : pyodbc.Merge * list valor) : Prop :=
  pyodbc.coincide (pyodbc.clave (snd s)) (pyodbc.tabla_de b (pyodbc.destino (fst s))) = true.

(** The label of a row's cell in column [j]. *)
Definition etiqueta_en (j : nat) (r : list valor) : etiqueta :=
  etiqueta_de (pd.celda j r).

(** The first row whose cell in column [j] carries the label [e]. *)
Definition primera_con (j : nat) (e : etiqueta) (rows : list (list valor))
  : option (list valor) :=
  find (fun r => etiqueta_eqb (etiqueta_en j r) e) rows.

(** [rows'] keeps, for every key in column [j] of [rows], the first row
    that carries it, and nothing else. *)
Definition primeras_ocurrencias (j : nat) (rows rows' : list (list valor)) : Prop :=
  NoDup (map (etiqueta_en j) rows')
  /\ (forall e, primera_con j e rows' = primera_con j e rows)
  /\ (forall r, In r rows' -> In r rows).

(** Every row of the frame has one cell per column. *)
Definition bien_formado (df : pd.DataFrame) : Prop :=
  Forall (fun r => List.length r = List.length (pd.columns df)) (pd.filas df).

(** Lines 121-122 of [limpiar_dataframes] on a frame whose column
    ["fecha"] is at [jf]: the coerced dates, the frame that holds them,
    and the final frame, given the amounts [pd.to_numeric] returned. *)
Definition fechas_de (E : Entorno) (s0 : pd.DataFrame) (jf : nat) : list valor :=
  pd.to_datetime (analizar_fecha E) (pd.columna jf (pd.filas s0)).

Definition con_fechas (E : Entorno) (s0 : pd.DataFrame) (jf : nat) : pd.DataFrame :=
  pd.setitem s0 "fecha" (fechas_de E s0 jf).

Definition con_tipos (E : Entorno) (s0 : pd.DataFrame) (jf : nat) (montos : list valor)
  : pd.DataFrame :=
  pd.setitem (con_fechas E s0 jf) "monto" (pd.round_2 montos).

(** The keys of the dict [procesar_datos_servicios] builds per contract,
    which become the columns of its frame. *)
Definition claves_servicio : list string :=
  ["nrocontrato"; "fecha"; "monto"; "cicliente"; "nrocasojuridico"].

(** A dict with exactly these keys, in this order. *)
Definition es_registro_servicio (d : list (string * valor)) : Prop :=
  exists a f m cc nn,
    d = [("nrocontrato", a); ("fecha", f); ("monto", m);
         ("cicliente", cc); ("nrocasojuridico", nn)].



(** No two rows of the table have keys that match. *)
Definition claves_unicas (rows : list (list valor)) : Prop :=
  ForallOrdPairs
    (fun r1 r2 => pyodbc.sql_igual (pyodbc.clave r1) (pyodbc.clave r2) = false) rows.

(** The row is in the table, or a row of the table matches its key. *)
Definition guardada (rows : list (list valor)) (row : list valor) : Prop :=
  In row rows \/ pyodbc.coincide (pyodbc.clave row) rows = true.

(** What a cleaned date cell and a cleaned amount cell can be. *)
Definition es_fecha_o_NaT (v : valor) : bool :=
  match v with VTimestamp _ | VNaT => true | _ => false end.
Definition es_bool (v : valor) : bool :=
  match v with VBool _ => true | _ => false end.

(** The cell holds [v], or [v] as pandas stores it in a float64 column. *)
Definition celda_de (v : valor) (c : valor) : Prop := c = v \/ c = pd.a_float64 v.

(** The reference a contract record carries under [campo], projected to
    [clave_ref]: the key of the sub-object, or [None] when it is absent. *)
Definition referencia (d : list (string * valor)) (campo clave_ref : string) : resultado valor :=
  c <- subscript (VDict d) campo ;;
  if truthy c then subscript c clave_ref else Ok VNone.

(** The cell is a timestamp between the two bounds, both included. *)
Definition en_rango (inicio fin : option Timestamp) (v : valor) : bool :=
  dashboards.mayor_igual inicio v && dashboards.menor_igual fin v.

(** No cell of the frame is a missing value. *)
Definition sin_nulos (df : pd.DataFrame) : Prop :=
  Forall (fun r => Forall (fun v => es_nulo v = false) r) (pd.filas df).





(** *** Tactics *)

(** Replaces a closed term by its value. *)
Ltac calcula t := let v := eval vm_compute in t in change t with v.

(** Evaluates the closed computation at the head of a chain of binds. *)
Ltac paso :=
  match goal with
  | |- bind ?m _ = _ => calcula m; cbn [bind]
  | |- match bind ?m _ with _ => _ end = _ => calcula m; cbn [bind]
  end.

(* ================================================================== *)
(** ** The reconciler                                                  *)
(* ================================================================== *)

Section Reconciliador.

Variable E : Entorno.

Lemma merge_casos (sql : pyodbc.Merge) (row : list valor) (b b' : pyodbc.base) :
  pyodbc.merge (rechazo E) sql row b = Ok b' ->
  rechazo E (pyodbc.destino sql) row b = None
  /\ ((pyodbc.coincide (pyodbc.clave row) (pyodbc.tabla_de b (pyodbc.destino sql)) = true
       /\ b' = b)
      \/ (pyodbc.coincide (pyodbc.clave row) (pyodbc.tabla_de b (pyodbc.destino sql)) = false
          /\ b' = pyodbc.insertar b (pyodbc.destino sql) row)).
Proof.
  unfold pyodbc.merge.
  destruct (negb _); [discriminate|].
  destruct (rechazo E _ row b); [discriminate|].
  destruct (pyodbc.coincide _ _) eqn:Hc; intros H; inversion H; subst; auto.
Qed.

Lemma tabla_de_insertar (b : pyodbc.base) (t t' : pyodbc.tabla) (row : list valor) :
  pyodbc.tabla_de (pyodbc.insertar b t row) t'
  = pyodbc.tabla_de b t' ++ (if match t, t' with
                                | pyodbc.cliente, pyodbc.cliente => true
                                | pyodbc.casoJuridico, pyodbc.casoJuridico => true
                                | pyodbc.contratoServicio, pyodbc.contratoServicio => true
                                | _, _ => false
                                end then [row] else []).
Proof. destruct t, t'; simpl; now rewrite ?app_nil_r. Qed.

Lemma tabla_de_insertar_misma (b : pyodbc.base) (t : pyodbc.tabla) (row : list valor) :
  pyodbc.tabla_de (pyodbc.insertar b t row) t = pyodbc.tabla_de b t ++ [row].
Proof. destruct t; reflexivity. Qed.

Lemma solo_nuevas_app (rows x y : list (list valor)) :
  solo_nuevas rows (x ++ y) = solo_nuevas rows x && solo_nuevas (rows ++ x) y.
Proof.
  revert rows; induction x as [|r x IH]; intros rows; simpl.
  - now rewrite app_nil_r.
  - rewrite IH, <- app_assoc; simpl. now rewrite andb_assoc.
Qed.

(** One statement only appends, and only under an absent key. *)
Lemma merge_solo_inserta (sql : pyodbc.Merge) (row : list valor) (b b' : pyodbc.base) :
  pyodbc.merge (rechazo E) sql row b = Ok b' ->
  forall t, exists nuevas,
    pyodbc.tabla_de b' t = pyodbc.tabla_de b t ++ nuevas
    /\ solo_nuevas (pyodbc.tabla_de b t) nuevas = true.
Proof.
  intros H t. apply merge_casos in H as [_ [[_ ->] | [Hc ->]]].
  - exists []; now rewrite app_nil_r.
  - rewrite tabla_de_insertar.
    destruct (pyodbc.destino sql), t; simpl in *;
      try (exists []; split; reflexivity);
      (exists [row]; split; [reflexivity | simpl; now rewrite Hc]).
Qed.

Lemma aplicar_solo_inserta (l : list (pyodbc.Merge * list valor)) :
  forall b b', aplicar E l b = Ok b' ->
  forall t, exists nuevas,
    pyodbc.tabla_de b' t = pyodbc.tabla_de b t ++ nuevas
    /\ solo_nuevas (pyodbc.tabla_de b t) nuevas = true.
Proof.
  induction l as [|[sql row] l IH]; simpl; intros b b' H t.
  - inversion H; subst. exists []; now rewrite app_nil_r.
  - destruct (pyodbc.merge (rechazo E) sql row b) as [b1|e] eqn:Hm; [|discriminate].
    simpl in H.
    destruct (merge_solo_inserta _ _ _ _ Hm t) as [x [Hx Sx]].
    destruct (IH _ _ H t) as [y [Hy Sy]].
    exists (x ++ y). rewrite Hy, Hx, app_assoc. split; [reflexivity|].
    rewrite solo_nuevas_app, Sx. simpl. now rewrite <- Hx.
Qed.

Lemma aplicar_app (l1 l2 : list (pyodbc.Merge * list valor)) (b : pyodbc.base) :
  aplicar E (l1 ++ l2) b = (b1 <- aplicar E l1 b ;; aplicar E l2 b1).
Proof.
  revert b; induction l1 as [|[sql row] l1 IH]; intros b; simpl; [reflexivity|].
  destruct (pyodbc.merge (rechazo E) sql row b); simpl; auto.
Qed.

(** The loop over the rows of a frame is [aplicar] on the open
    transaction; it touches neither the durable content nor the count of
    commits. *)
Lemma execute_todas_aplicar (sql : pyodbc.Merge) (rows : list (list valor)) :
  forall c,
    match aplicar E (map (pair sql) rows) (pyodbc.en_curso c) with
    | Ok b' =>
        execute_todas E sql rows c
        = (Ok tt, pyodbc.mkConnection (pyodbc.persistido c) b' (pyodbc.llamadas_commit c))
    | Raise e =>
        exists b'',
          execute_todas E sql rows c
          = (Raise e, pyodbc.mkConnection (pyodbc.persistido c) b'' (pyodbc.llamadas_commit c))
    end.
Proof.
  induction rows as [|row rows IH]; intros c; simpl.
  - now destruct c.
  - unfold luego, execute.
    destruct (pyodbc.merge (rechazo E) sql row (pyodbc.en_curso c)) as [b1|e]; simpl.
    + specialize (IH (pyodbc.mkConnection (pyodbc.persistido c) b1 (pyodbc.llamadas_commit c))).
      simpl in IH. exact IH.
    + exists (pyodbc.en_curso c). now destruct c.
Qed.

Lemma cuerpo_with_aplicar (dfc dfk dfs : pd.DataFrame) (c : pyodbc.Connection) :
  match aplicar E (sentencias dfc dfk dfs) (pyodbc.en_curso c) with
  | Ok b' =>
      cuerpo_with E dfc dfk dfs c
      = (Ok tt, pyodbc.mkConnection b' b' (S (pyodbc.llamadas_commit c)))
  | Raise e =>
      exists b'',
        cuerpo_with E dfc dfk dfs c
        = (Raise e, pyodbc.mkConnection (pyodbc.persistido c) b'' (pyodbc.llamadas_commit c))
  end.
Proof.
  unfold sentencias, cuerpo_with, luego. rewrite aplicar_app.
  generalize (execute_todas_aplicar insert_clientes (pd.itertuples dfc) c).
  destruct (aplicar E (map (pair insert_clientes) (pd.itertuples dfc)) (pyodbc.en_curso c))
    as [b1|e]; simpl; [intros -> | intros [b'' ->]; eauto].
  rewrite aplicar_app.
  generalize (execute_todas_aplicar insert_casos (pd.itertuples dfk)
                (pyodbc.mkConnection (pyodbc.persistido c) b1 (pyodbc.llamadas_commit c))).
  simpl.
  destruct (aplicar E (map (pair insert_casos) (pd.itertuples dfk)) b1)
    as [b2|e]; simpl; [intros -> | intros [b'' ->]; eauto].
  generalize (execute_todas_aplicar insert_servicios (pd.itertuples dfs)
                (pyodbc.mkConnection (pyodbc.persistido c) b2 (pyodbc.llamadas_commit c))).
  simpl.
  destruct (aplicar E (map (pair insert_servicios) (pd.itertuples dfs)) b2)
    as [b3|e]; simpl; [intros -> | intros [b'' ->]; eauto].
  reflexivity.
Qed.

(** The [try] block as a whole: the statements either all apply, and
    their effect is committed by the one [commit()], or one fails, and
    the database keeps what it held. *)
Lemma guardar_aplicar (dfc dfk dfs : pd.DataFrame) (b : pyodbc.base) :
  guardar E dfc dfk dfs b
  = match error_de_conexion E with
    | Some msg => mkCorrida (Raise (envolver (pyodbc_Error msg))) b 0
    | None =>
        match aplicar E (sentencias dfc dfk dfs) b with
        | Ok b' => mkCorrida (Ok tt) b' 1
        | Raise e => mkCorrida (Raise (envolver e)) b 0
        end
    end.
Proof.
  unfold guardar. destruct (error_de_conexion E); [reflexivity|].
  generalize (cuerpo_with_aplicar dfc dfk dfs (pyodbc.abrir b)). simpl.
  destruct (aplicar E (sentencias dfc dfk dfs) b) as [b'|e].
  - intros ->. reflexivity.
  - intros [b'' ->]. reflexivity.
Qed.

(** A run changes the database only through [aplicar]. *)
Lemma main_almacen (b : pyodbc.base) :
  almacen (main E b) = b
  \/ exists dfc dfk dfs,
       obtener_y_limpiar E = Ok (dfc, dfk, dfs)
       /\ error_de_conexion E = None
       /\ aplicar E (sentencias dfc dfk dfs) b = Ok (almacen (main E b)).
Proof.
  unfold main. destruct (obtener_y_limpiar E) as [[[dfc dfk] dfs]|e]; [|now left].
  rewrite guardar_aplicar.
  destruct (error_de_conexion E) eqn:Hc; [now left|].
  destruct (aplicar E (sentencias dfc dfk dfs) b) as [b'|e] eqn:Ha; [|now left].
  right. exists dfc, dfk, dfs. auto.
Qed.

End Reconciliador.

(* ================================================================== *)
(** ** Runs of the program against the database                        *)
(* ================================================================== *)

Lemma find_app_some {A : Type} (f : A -> bool) (l x : list A) (a : A) :
  find f l = Some a -> find f (l ++ x) = Some a.
Proof.
  induction l as [|y l IH]; simpl; [discriminate|].
  destruct (f y); auto.
Qed.

Lemma coincide_app (k : valor) (rows x : list (list valor)) :
  pyodbc.coincide k rows = true -> pyodbc.coincide k (rows ++ x) = true.
Proof.
  unfold pyodbc.coincide. rewrite existsb_app. now intros ->.
Qed.

(** One run only appends rows, each under a key absent when it went in. *)
Lemma main_solo_inserta (E : Entorno) (b : pyodbc.base) (t : pyodbc.tabla) :
  exists nuevas,
    pyodbc.tabla_de (almacen (main E b)) t = pyodbc.tabla_de b t ++ nuevas
    /\ solo_nuevas (pyodbc.tabla_de b t) nuevas = true.
Proof.
  destruct (main_almacen E b) as [-> | (dfc & dfk & dfs & _ & _ & Ha)].
  - exists []. now rewrite app_nil_r.
  - exact (aplicar_solo_inserta E _ _ _ Ha t).
Qed.

Lemma corridas_solo_insertan (Es : list Entorno) :
  forall (b : pyodbc.base) (t : pyodbc.tabla),
  exists nuevas,
    pyodbc.tabla_de (corridas Es b) t = pyodbc.tabla_de b t ++ nuevas
    /\ solo_nuevas (pyodbc.tabla_de b t) nuevas = true.
Proof.
  unfold corridas.
  induction Es as [|E Es IH]; intros b t; simpl.
  - exists []. now rewrite app_nil_r.
  - destruct (main_solo_inserta E b t) as [x [Hx Sx]].
    destruct (IH (almacen (main E b)) t) as [y [Hy Sy]].
    exists (x ++ y). rewrite Hy, Hx, app_assoc. split; [reflexivity|].
    rewrite solo_nuevas_app, Sx. simpl. now rewrite <- Hx.
Qed.

(** C1.  Whatever the sources of a sequence of runs return, and whether
    each run succeeds or fails, every table after the runs is the table
    before them followed by new rows: no stored row is changed, moved or
    removed.  Each new row went in under a key that matched no row at that
    moment, and the row a key designates is the same before and after, so
    the stored values of a key stay the first ones seen. *)
Theorem C1_solo_insercion (Es : list Entorno) (b : pyodbc.base) (t : pyodbc.tabla) :
  exists nuevas,
    pyodbc.tabla_de (corridas Es b) t = pyodbc.tabla_de b t ++ nuevas
    /\ solo_nuevas (pyodbc.tabla_de b t) nuevas = true
    /\ (forall k r,
          fila_con_clave k (pyodbc.tabla_de b t) = Some r ->
          fila_con_clave k (pyodbc.tabla_de (corridas Es b) t) = Some r).
Proof.
  destruct (corridas_solo_insertan Es b t) as [nuevas [Hn Sn]].
  exists nuevas. repeat split; auto.
  intros k r Hk. rewrite Hn. now apply find_app_some.
Qed.

(** The name of A1 changes at the source between two runs: the stored
    name stays the first one. *)
Example cambio_de_nombre :
  pyodbc.filas_cliente
    (corridas [entorno (VList [cliente_A1]) (VList [caso_C1]) (VList [contrato_K1])
                       sin_restricciones;
               entorno (VList [cliente_A1_bis]) (VList [caso_C1]) (VList [contrato_K1])
                       sin_restricciones]
              pyodbc.vacia)
  = [[VStr "A1"; VStr "Ana"; VStr "Ruiz"]].
Proof. vm_compute. reflexivity. Qed.


(** The case the specification singles out: the contract loop fails after
    the client and case loops went through. *)
Lemma falla_en_contratos (E : Entorno) (b b1 : pyodbc.base)
    (dfc dfk dfs : pd.DataFrame) (e : excepcion) :
  obtener_y_limpiar E = Ok (dfc, dfk, dfs) ->
  error_de_conexion E = None ->
  aplicar E (map (pair insert_clientes) (pd.itertuples dfc)
             ++ map (pair insert_casos) (pd.itertuples dfk)) b = Ok b1 ->
  aplicar E (map (pair insert_servicios) (pd.itertuples dfs)) b1 = Raise e ->
  main E b = mkCorrida (Raise (envolver e)) b 0.
Proof.
  intros Ho Hc H12 H3. unfold main. rewrite Ho, guardar_aplicar, Hc.
  unfold sentencias. rewrite app_assoc, aplicar_app, H12. simpl. now rewrite H3.
Qed.

(** Under the strict schema the contract K3 names a client that is not
    stored: the client and the case went into the transaction, the
    contract is refused, and the database is empty afterwards. *)
Example todo_o_nada_ejemplo :
  main (entorno (VList [cliente_A1]) (VList [caso_C1]) (VList [contrato_K3]) esquema_estricto)
       pyodbc.vacia
  = mkCorrida
      (Raise (Exception_ "Error al guardar los datos en la base de datos: The MERGE statement conflicted with the FOREIGN KEY constraint"))
      pyodbc.vacia 0.
Proof. vm_compute. reflexivity. Qed.

Section Idempotencia.

Variable E : Entorno.
Hypothesis claves : con_claves_primarias (rechazo E).

Lemma presente_crece (b b' : pyodbc.base) (s : pyodbc.Merge * list valor) :
  (forall t, exists x, pyodbc.tabla_de b' t = pyodbc.tabla_de b t ++ x) ->
  presente b s -> presente b' s.
Proof.
  unfold presente. intros H Hp.
  destruct (H (pyodbc.destino (fst s))) as [x ->]. now apply coincide_app.
Qed.

(** After the statements went through, every one of their keys is in
    its table. *)
Lemma aplicar_deja_presentes (l : list (pyodbc.Merge * list valor)) :
  forall b b1, aplicar E l b = Ok b1 -> Forall (presente b1) l.
Proof.
  induction l as [|[sql row] l IH]; simpl; intros b b1 H; [constructor|].
  destruct (pyodbc.merge (rechazo E) sql row b) as [b'|e] eqn:Hm; [|discriminate].
  simpl in H. constructor; [|eapply IH; eauto].
  apply presente_crece with (b := b').
  { intros t. destruct (aplicar_solo_inserta E _ _ _ H t) as [x [Hx _]]. eauto. }
  unfold presente; simpl.
  apply merge_casos in Hm as [Hr [[Hc ->] | [Hc ->]]]; [exact Hc|].
  rewrite tabla_de_insertar_misma. unfold pyodbc.coincide.
  rewrite existsb_app. simpl.
  destruct (pyodbc.sql_igual (pyodbc.clave row) (pyodbc.clave row)) eqn:Hs.
  - now rewrite orb_true_r.
  - exfalso. exact (claves _ _ b Hs Hr).
Qed.

(** Statements whose keys are all present change nothing. *)
Lemma aplicar_presentes (l : list (pyodbc.Merge * list valor)) (b1 : pyodbc.base) :
  Forall (presente b1) l ->
  forall b2, aplicar E l b1 = Ok b2 -> b2 = b1.
Proof.
  induction 1 as [|[sql row] l Hp _ IH]; simpl; intros b2 H.
  - now inversion H.
  - destruct (pyodbc.merge (rechazo E) sql row b1) as [b'|e] eqn:Hm; [|discriminate].
    simpl in H. unfold presente in Hp; simpl in Hp.
    apply merge_casos in Hm as [_ [[_ ->] | [Hc _]]]; [auto | congruence].
Qed.

Lemma segunda_corrida (b : pyodbc.base) :
  almacen (main E (almacen (main E b))) = almacen (main E b).
Proof.
  destruct (main_almacen E b) as [Hb | (dfc & dfk & dfs & Ho & Hc & Ha)].
  - now rewrite !Hb.
  - set (b1 := almacen (main E b)) in *.
    destruct (main_almacen E b1) as [Hb | (dfc' & dfk' & dfs' & Ho' & _ & Ha')]; [exact Hb|].
    rewrite Ho in Ho'. inversion Ho'; subst dfc' dfk' dfs'.
    eapply aplicar_presentes; [|exact Ha'].
    eapply aplicar_deja_presentes; exact Ha.
Qed.

End Idempotencia.

(** C3.  Against a database whose key columns are primary keys, running
    the program a second time with the same environment (the same source
    answers) leaves the database exactly as the first run left it; in
    particular each of the three tables has the same number of rows. *)
Theorem C3_idempotencia (E : Entorno) (b : pyodbc.base) :
  con_claves_primarias (rechazo E) ->
  almacen (main E (almacen (main E b))) = almacen (main E b)
  /\ forall t,
       List.length (pyodbc.tabla_de (almacen (main E (almacen (main E b)))) t)
       = List.length (pyodbc.tabla_de (almacen (main E b)) t).
Proof.
  intros H. pose proof (segunda_corrida E H b) as Heq.
  split; [exact Heq|]. intros t. now rewrite Heq.
Qed.

(** Without primary keys the second run does add rows: a client whose
    identifier is null matches nothing, and goes in again. *)
Example sin_clave_primaria_se_duplica :
  let E := entorno (VList [VDict [("ci", VNone); ("nombre", VStr "Ana"); ("apellido", VStr "Ruiz")]])
                   (VList []) (VList [contrato_K1]) sin_restricciones in
  List.length (pyodbc.filas_cliente (almacen (main E pyodbc.vacia))) = 1%nat
  /\ List.length (pyodbc.filas_cliente (almacen (main E (almacen (main E pyodbc.vacia))))) = 2%nat.
Proof. vm_compute. split; reflexivity. Qed.

Lemma clave_primaria_es_primaria : con_claves_primarias clave_primaria.
Proof.
  intros t fila b H. unfold clave_primaria. rewrite H. discriminate.
Qed.

Lemma C3_idempotencia_testigo :
  con_claves_primarias clave_primaria
  /\ almacen (main (entorno (VList [cliente_A1]) (VList [caso_C1]) (VList [contrato_K1])
                            clave_primaria)
                   (almacen (main (entorno (VList [cliente_A1]) (VList [caso_C1])
                                           (VList [contrato_K1]) clave_primaria)
                                  pyodbc.vacia)))
     = almacen (main (entorno (VList [cliente_A1]) (VList [caso_C1]) (VList [contrato_K1])
                              clave_primaria)
                     pyodbc.vacia).
Proof.
  split; [exact clave_primaria_es_primaria|].
  exact (proj1 (C3_idempotencia
                  (entorno (VList [cliente_A1]) (VList [caso_C1]) (VList [contrato_K1])
                           clave_primaria)
                  pyodbc.vacia clave_primaria_es_primaria)).
Defined.

(* ================================================================== *)
(** ** Errors of the database                                          *)
(* ================================================================== *)

Lemma primer_fallo_aplicar (E : Entorno) (l : list (pyodbc.Merge * list valor)) :
  forall b t k msg,
    primer_fallo E l b = Some (t, k, msg) ->
    exists e, aplicar E l b = Raise e /\ str e = msg.
Proof.
  induction l as [|[sql row] l IH]; simpl; intros b t k msg H; [discriminate|].
  destruct (pyodbc.merge (rechazo E) sql row b) as [b'|e]; simpl.
  - eapply IH; eauto.
  - inversion H; subst. eauto.
Qed.

(** C9.  When a statement of the run is refused, the program ends with a
    plain [Exception] whose message is the fixed text of [main] followed
    by the text of the database error, and the database keeps what it
    held.  The message holds nothing else. *)
Theorem C9_error_de_guardado (E : Entorno) (b : pyodbc.base)
    (t : pyodbc.tabla) (k : valor) (msg : string) :
  fallo_de_main E b = Some (t, k, msg) ->
  main E b
  = mkCorrida
      (Raise (Exception_ ("Error al guardar los datos en la base de datos: " ++ msg)%string))
      b 0.
Proof.
  unfold fallo_de_main, main.
  destruct (obtener_y_limpiar E) as [[[dfc dfk] dfs]|e]; [|discriminate].
  rewrite guardar_aplicar.
  destruct (error_de_conexion E); [discriminate|].
  intros H. apply primer_fallo_aplicar in H as [e [-> <-]]. reflexivity.
Qed.

Lemma C9_error_de_guardado_testigo :
  fallo_de_main falla_en_contrato pyodbc.vacia
  = Some (pyodbc.contratoServicio, VStr "K1", "constraint violation")
  /\ main falla_en_contrato pyodbc.vacia
     = mkCorrida
         (Raise (Exception_ "Error al guardar los datos en la base de datos: constraint violation"))
         pyodbc.vacia 0.
Proof.
  split; [vm_compute; reflexivity|].
  apply (C9_error_de_guardado falla_en_contrato pyodbc.vacia
           pyodbc.contratoServicio (VStr "K1") "constraint violation").
  vm_compute; reflexivity.
Defined.

(** C9, as the specification words it, fails: no reading of the
    exception gives the table and the key of the refused statement.  Two
    runs refused at different tables and keys end with the same
    exception. *)
Lemma C9_no_identifica :
  ~ (exists identifica : excepcion -> pyodbc.tabla * valor,
       forall E b t k msg e,
         fallo_de_main E b = Some (t, k, msg) ->
         salida (main E b) = Raise e ->
         identifica e = (t, k)).
Proof.
  intros [identifica H].
  pose proof (H falla_en_cliente pyodbc.vacia pyodbc.cliente (VStr "A1")
                "constraint violation" _ eq_refl eq_refl) as H1.
  pose proof (H falla_en_contrato pyodbc.vacia pyodbc.contratoServicio (VStr "K1")
                "constraint violation" _ eq_refl eq_refl) as H2.
  vm_compute in H1, H2. rewrite H1 in H2. discriminate.
Qed.

(* ================================================================== *)
(** ** The query client                                                *)
(* ================================================================== *)

(** The only test [consulta_graphql] makes on a response is the status
    code. *)
Lemma consulta_graphql_respuesta (E : Entorno) (query : string) (r : Response) :
  requests_post E (GRAPHQL_URL E) query = Ok r ->
  consulta_graphql E query
  = if status_code r =? 200
    then (cuerpo <- json r ;; subscript cuerpo "data")
    else Raise (Exception_ ("Error al consultar GraphQL (" ++ str_int (status_code r) ++ ")")%string).
Proof.
  intros H. unfold consulta_graphql. rewrite H. simpl.
  now destruct (status_code r =? 200).
Qed.

Example consulta_graphql_500 :
  consulta_graphql (entorno_fijo respuesta_500) QUERY_CLIENTES
  = Raise (Exception_ "Error al consultar GraphQL (500)").
Proof. vm_compute. reflexivity. Qed.

(** C10.  For a response with status 200 whose body is a JSON object:
    when the object has no ["data"] key, [consulta_graphql] raises
    [KeyError('data')], not the error it raises for a bad status; when
    ["data"] is null, [consulta_graphql] returns [None] without raising,
    and it is the caller's subscript (["allClientes"] and the like in
    [main]) that raises a [TypeError].  With any other status
    [consulta_graphql] raises the status error. *)
Theorem C10_error_con_estado_200 (E : Entorno) (query : string) (r : Response)
    (d : list (string * valor)) :
  requests_post E (GRAPHQL_URL E) query = Ok r ->
  json r = Ok (VDict d) ->
  (status_code r = 200 -> buscar "data" d = None ->
     consulta_graphql E query = Raise (KeyError "data"))
  /\ (status_code r = 200 -> buscar "data" d = Some VNone ->
        consulta_graphql E query = Ok VNone
        /\ forall campo,
             (x <- consulta_graphql E query ;; subscript x campo)
             = Raise (TypeError "'NoneType' object is not subscriptable"))
  /\ (status_code r <> 200 ->
        consulta_graphql E query
        = Raise (Exception_ ("Error al consultar GraphQL ("
                             ++ str_int (status_code r) ++ ")")%string)).
Proof.
  intros Hp Hj. rewrite (consulta_graphql_respuesta E query r Hp), Hj.
  split; [|split].
  - intros Hs Hd. rewrite Hs. simpl. now rewrite Hd.
  - intros Hs Hd. rewrite Hs. simpl. rewrite Hd. split; [reflexivity|].
    intros campo. reflexivity.
  - intros Hs. apply Z.eqb_neq in Hs. now rewrite Hs.
Qed.

Lemma C10_error_con_estado_200_testigo :
  consulta_graphql (entorno_fijo respuesta_sin_data) QUERY_CLIENTES = Raise (KeyError "data")
  /\ consulta_graphql (entorno_fijo respuesta_data_null) QUERY_CLIENTES = Ok VNone
  /\ (x <- consulta_graphql (entorno_fijo respuesta_data_null) QUERY_CLIENTES ;;
      subscript x "allClientes")
     = Raise (TypeError "'NoneType' object is not subscriptable").
Proof.
  split.
  - apply (C10_error_con_estado_200 (entorno_fijo respuesta_sin_data) QUERY_CLIENTES
             respuesta_sin_data _ eq_refl eq_refl); reflexivity.
  - pose proof (C10_error_con_estado_200 (entorno_fijo respuesta_data_null) QUERY_CLIENTES
                  respuesta_data_null _ eq_refl eq_refl) as [_ [H _]].
    destruct (H eq_refl eq_refl) as [H1 H2]. split; [exact H1 | exact (H2 "allClientes")].
Defined.

(** C10, as worded, fails for the null ["data"]: [consulta_graphql]
    itself does not fail there, it returns [None]. *)
Lemma C10_data_null_no_falla :
  status_code respuesta_data_null = 200
  /\ (exists d, json respuesta_data_null = Ok (VDict d) /\ buscar "data" d = Some VNone)
  /\ ~ (exists e, consulta_graphql (entorno_fijo respuesta_data_null) QUERY_CLIENTES = Raise e).
Proof.
  split; [reflexivity|]. split; [eexists; split; reflexivity|].
  intros [e H]. vm_compute in H. discriminate.
Qed.

(** What the run makes of these answers: the lookup error leaves [main]
    as it is, outside the [try], and the database is not touched. *)
Example main_con_error_graphql (b : pyodbc.base) :
  main (entorno_fijo respuesta_sin_data) b = mkCorrida (Raise (KeyError "data")) b 0
  /\ main (entorno_fijo respuesta_data_null) b
     = mkCorrida (Raise (TypeError "'NoneType' object is not subscriptable")) b 0.
Proof. split; reflexivity. Qed.

(* ================================================================== *)
(** ** A source without contracts                                      *)
(* ================================================================== *)

Lemma limpiar_sin_contratos (E : Entorno) (dfc dfk : pd.DataFrame) :
  es_ok (limpiar_dataframes E dfc dfk (pd.mkDataFrame [] [])) = false.
Proof.
  unfold limpiar_dataframes.
  destruct (pd.drop_duplicates dfc "ci"); [|reflexivity].
  destruct (pd.drop_duplicates dfk "id"); reflexivity.
Qed.

(** C4 at the input where the code departs from it: an empty list of
    contracts gives the frame without columns, [limpiar_dataframes] then
    never returns (the lookup of the column ["fecha"] raises), and the run
    of the scenario without contracts ends in [KeyError('fecha')] before
    the database is opened. *)
Theorem C4_contratos_vacios :
  procesar_datos_servicios (VList []) = Ok (pd.mkDataFrame [] [])
  /\ (forall E dfc dfk,
        es_ok (limpiar_dataframes E dfc dfk (pd.mkDataFrame [] [])) = false)
  /\ main sin_contratos pyodbc.vacia = mkCorrida (Raise (KeyError "fecha")) pyodbc.vacia 0.
Proof.
  split; [reflexivity|]. split; [exact limpiar_sin_contratos|].
  vm_compute. reflexivity.
Qed.

(** The two other entities do what C4 says: an empty list of clients, or
    of cases, gives an empty sequence of tuples and no error of its own. *)
Lemma sin_clientes_ni_casos (E : Entorno) (dfs : pd.DataFrame) :
  pd.DataFrame_ (VList []) = Ok (pd.mkDataFrame [] [])
  /\ limpiar_dataframes E (pd.mkDataFrame [] []) (pd.mkDataFrame [] []) dfs
     = (df_servicios <- pd.drop_duplicates dfs "nrocontrato" ;;
        fecha <- pd.getitem df_servicios "fecha" ;;
        monto <- pd.getitem
                   (pd.setitem df_servicios "fecha" (pd.to_datetime (analizar_fecha E) fecha))
                   "monto" ;;
        monto <- pd.to_numeric (analizar_numero E) monto ;;
        Ok (pd.mkDataFrame [] [], pd.mkDataFrame [] [],
            pd.setitem
              (pd.setitem df_servicios "fecha" (pd.to_datetime (analizar_fecha E) fecha))
              "monto" (pd.round_2 monto))).
Proof. split; reflexivity. Qed.

(* ================================================================== *)
(** ** The scenario of the specification                               *)
(* ================================================================== *)

Lemma redondeo_150_555 : np_round2 150.555%float = 150.56%float.
Proof. reflexivity. Qed.

(** What the scenario's records look like after [limpiar_dataframes]. *)
Lemma escenario_limpio (url : string)
    (af : list valor -> valor -> option Timestamp) (an : string -> option pd.lectura)
    (r : pyodbc.tabla -> list valor -> pyodbc.base -> option string) :
  af [VStr "2024-03-01"] (VStr "2024-03-01") = Some (mkTimestamp 2024 3 1 0) ->
  obtener_y_limpiar
    (mkEntorno url
          (servidor (VList [cliente_A1]) (VList [caso_C1]) (VList [contrato_K1]))
          af an None r)
  = Ok (pd.mkDataFrame ["ci"; "nombre"; "apellido"] [[VStr "A1"; VStr "Ana"; VStr "Ruiz"]],
        pd.mkDataFrame ["nrocaso"; "meteria"] [[VStr "C1"; VStr "civil"]],
        pd.mkDataFrame ["nrocontrato"; "fecha"; "monto"; "cicliente"; "nrocasojuridico"]
          [[VStr "K1"; VTimestamp (mkTimestamp 2024 3 1 0); VFloat 150.56%float;
            VStr "A1"; VStr "C1"]]).
Proof.
  intros Haf.
  unfold obtener_y_limpiar, consulta_graphql. cbn [requests_post GRAPHQL_URL].
  repeat paso.
  unfold limpiar_dataframes.
  repeat paso.
  cbv [analizar_fecha analizar_numero pd.to_datetime map es_nulo pd.reset_index].
  rewrite Haf.
  repeat paso.
  vm_compute. reflexivity.
Qed.

(** A database that refuses nothing runs a MERGE to its end. *)
Lemma merge_sin_rechazo
    (r : pyodbc.tabla -> list valor -> pyodbc.base -> option string) :
  (forall t fila b, r t fila b = None) ->
  forall sql row b,
    pyodbc.merge r sql row b
    = if negb (Nat.eqb (List.length row) (pyodbc.marcadores sql))
      then Raise (pyodbc_Error "wrong number of parameters for the parameter markers")
      else if pyodbc.coincide (pyodbc.clave row) (pyodbc.tabla_de b (pyodbc.destino sql))
           then Ok b
           else Ok (pyodbc.insertar b (pyodbc.destino sql) row).
Proof. intros Hr sql row b. unfold pyodbc.merge. now rewrite Hr. Qed.

(** C7.  With a date parser that reads ["2024-03-01"] as the first of
    March 2024 and a database that refuses nothing, the run of the
    scenario on an empty database ends normally and leaves the rows
    Client(A1, Ana, Ruiz), Case(C1, civil) and
    ServiceContract(K1, 2024-03-01, 150.56, A1, C1): the amount 150.555 is
    stored as 150.56. *)
Theorem C7_escenario (url : string)
    (af : list valor -> valor -> option Timestamp) (an : string -> option pd.lectura)
    (r : pyodbc.tabla -> list valor -> pyodbc.base -> option string) :
  af [VStr "2024-03-01"] (VStr "2024-03-01") = Some (mkTimestamp 2024 3 1 0) ->
  (forall t fila b, r t fila b = None) ->
  main (mkEntorno url
          (servidor (VList [cliente_A1]) (VList [caso_C1]) (VList [contrato_K1]))
          af an None r)
       pyodbc.vacia
  = mkCorrida (Ok tt)
      (pyodbc.mkBase
         [[VStr "A1"; VStr "Ana"; VStr "Ruiz"]]
         [[VStr "C1"; VStr "civil"]]
         [[VStr "K1"; VTimestamp (mkTimestamp 2024 3 1 0); VFloat 150.56%float;
           VStr "A1"; VStr "C1"]])
      1.
Proof.
  intros Haf Hr. unfold main. rewrite (escenario_limpio url af an r Haf).
  rewrite guardar_aplicar. cbn [error_de_conexion].
  unfold sentencias, pd.itertuples. cbn [pd.columns pd.filas map app aplicar rechazo].
  do 3 (rewrite (merge_sin_rechazo r Hr); paso).
  reflexivity.
Qed.

Lemma C7_escenario_testigo :
  main escenario pyodbc.vacia
  = mkCorrida (Ok tt)
      (pyodbc.mkBase
         [[VStr "A1"; VStr "Ana"; VStr "Ruiz"]]
         [[VStr "C1"; VStr "civil"]]
         [[VStr "K1"; VTimestamp (mkTimestamp 2024 3 1 0); VFloat 150.56%float;
           VStr "A1"; VStr "C1"]])
      1.
Proof.
  apply (C7_escenario "http://host.docker.internal:8080/graphql"
           fecha_iso numero_entero sin_restricciones).
  - vm_compute. reflexivity.
  - intros t fila b. reflexivity.
Defined.

(* ================================================================== *)
(** ** The normalizer: deduplication                                   *)
(* ================================================================== *)

Lemma etiqueta_eqb_eq (a b : etiqueta) : etiqueta_eqb a b = true <-> a = b.
Proof.
  unfold etiqueta_eqb. destruct (etiqueta_eq_dec a b); split; congruence.
Qed.

Lemma etiqueta_eqb_neq (a b : etiqueta) : etiqueta_eqb a b = false <-> a <> b.
Proof.
  unfold etiqueta_eqb. destruct (etiqueta_eq_dec a b); split; congruence.
Qed.

Section Primeras.

Variable j : nat.

Lemma primeras_In (rows : list (list valor)) :
  forall vistos r, In r (pd.primeras j vistos rows) -> In r rows.
Proof.
  induction rows as [|x rows IH]; simpl; intros vistos r H; [exact H|].
  destruct (in_dec etiqueta_eq_dec _ vistos).
  - right. eapply IH; eauto.
  - destruct H as [-> | H]; [now left | right; eapply IH; eauto].
Qed.

Lemma primeras_fuera (rows : list (list valor)) :
  forall vistos r,
    In r (pd.primeras j vistos rows) -> ~ In (etiqueta_en j r) vistos.
Proof.
  induction rows as [|x rows IH]; simpl; intros vistos r H; [contradiction|].
  destruct (in_dec etiqueta_eq_dec _ vistos) as [Hin|Hout].
  - eapply IH; eauto.
  - destruct H as [-> | H]; [exact Hout|].
    intros Hv. apply (IH _ _ H). now right.
Qed.

Lemma primeras_NoDup (rows : list (list valor)) :
  forall vistos, NoDup (map (etiqueta_en j) (pd.primeras j vistos rows)).
Proof.
  induction rows as [|x rows IH]; simpl; intros vistos; [constructor|].
  destruct (in_dec etiqueta_eq_dec _ vistos); [apply IH|].
  simpl. constructor; [|apply IH].
  intros Hin. apply in_map_iff in Hin as [r [Hr Hin]].
  apply primeras_fuera in Hin. apply Hin. left. now rewrite Hr.
Qed.

Lemma primeras_primera_con (rows : list (list valor)) :
  forall vistos e,
    ~ In e vistos ->
    primera_con j e (pd.primeras j vistos rows) = primera_con j e rows.
Proof.
  unfold primera_con.
  induction rows as [|x rows IH]; simpl; intros vistos e He; [reflexivity|].
  fold (etiqueta_en j x).
  destruct (in_dec etiqueta_eq_dec (etiqueta_en j x) vistos) as [Hin|Hout].
  - destruct (etiqueta_eqb (etiqueta_en j x) e) eqn:Heq.
    + apply etiqueta_eqb_eq in Heq. subst e. contradiction.
    + now apply IH.
  - simpl. destruct (etiqueta_eqb (etiqueta_en j x) e) eqn:Heq; [reflexivity|].
    apply IH. apply etiqueta_eqb_neq in Heq. intros [H|H]; contradiction.
Qed.

Lemma primeras_son_primeras (rows : list (list valor)) :
  primeras_ocurrencias j rows (pd.primeras j [] rows).
Proof.
  split; [apply primeras_NoDup|]. split.
  - intros e. apply primeras_primera_con. intros [].
  - intros r. apply primeras_In.
Qed.

End Primeras.

(** How [drop_duplicates] can return. *)
Lemma drop_duplicates_ok (df df' : pd.DataFrame) (c : string) :
  pd.drop_duplicates df c = Ok df' ->
  (pd.empty df = true /\ df' = df)
  \/ (exists j, pd.indice c (pd.columns df) = Some j
                /\ df' = pd.mkDataFrame (pd.columns df) (pd.primeras j [] (pd.filas df))).
Proof.
  unfold pd.drop_duplicates.
  destruct (pd.empty df) eqn:He.
  - intros H; inversion H; auto.
  - destruct (pd.indice c (pd.columns df)) as [j|]; [|discriminate].
    intros H; inversion H; subst. right. eauto.
Qed.

Lemma drop_duplicates_columns (df df' : pd.DataFrame) (c : string) :
  pd.drop_duplicates df c = Ok df' -> pd.columns df' = pd.columns df.
Proof.
  intros H. apply drop_duplicates_ok in H as [[_ ->] | [j [_ ->]]]; reflexivity.
Qed.

(** [drop_duplicates] keeps, for every key of the column, the first row
    that carries it. *)
Lemma drop_duplicates_primeras (df df' : pd.DataFrame) (c : string) (j : nat) :
  pd.drop_duplicates df c = Ok df' ->
  pd.indice c (pd.columns df) = Some j ->
  primeras_ocurrencias j (pd.filas df) (pd.filas df').
Proof.
  intros H Hj. apply drop_duplicates_ok in H as [[He ->] | [j' [Hj' ->]]].
  - unfold pd.empty in He. destruct (pd.columns df); [discriminate|].
    destruct (pd.filas df); [|discriminate].
    repeat split; auto. constructor.
  - rewrite Hj in Hj'. inversion Hj'; subst j'. simpl. apply primeras_son_primeras.
Qed.

Lemma drop_duplicates_bien_formado (df df' : pd.DataFrame) (c : string) :
  pd.drop_duplicates df c = Ok df' -> bien_formado df -> bien_formado df'.
Proof.
  intros H Hb. apply drop_duplicates_ok in H as [[_ ->] | [j [_ ->]]]; [exact Hb|].
  unfold bien_formado in *. simpl. rewrite Forall_forall in *.
  intros r Hr. apply Hb. eapply primeras_In; eauto.
Qed.

(* ================================================================== *)
(** ** The normalizer: columns                                         *)
(* ================================================================== *)

Lemma indice_nth (c : string) (cols : list string) :
  forall j, pd.indice c cols = Some j -> nth_error cols j = Some c.
Proof.
  induction cols as [|c' cols IH]; simpl; intros j H; [discriminate|].
  destruct (String.eqb c c') eqn:Hc.
  - inversion H; subst. apply String.eqb_eq in Hc. now subst.
  - destruct (pd.indice c cols) as [j'|]; [|discriminate].
    inversion H; subst. simpl. now apply IH.
Qed.

Lemma indice_lt (c : string) (cols : list string) (j : nat) :
  pd.indice c cols = Some j -> (j < List.length cols)%nat.
Proof.
  intros H. apply indice_nth in H. apply nth_error_Some. congruence.
Qed.

Lemma indice_misma (c c' : string) (cols : list string) (j : nat) :
  pd.indice c cols = Some j -> pd.indice c' cols = Some j -> c = c'.
Proof.
  intros H H'. apply indice_nth in H, H'. congruence.
Qed.

Lemma celda_reemplazar_otra (v : valor) (fila : list valor) :
  forall j j', j' <> j -> pd.celda j' (pd.reemplazar j v fila) = pd.celda j' fila.
Proof.
  unfold pd.celda.
  induction fila as [|x fila IH]; intros j j' Hj.
  - destruct j; reflexivity.
  - destruct j, j'; simpl; try reflexivity; try contradiction.
    apply IH. congruence.
Qed.

Lemma celda_reemplazar_misma (v : valor) (fila : list valor) :
  forall j, (j < List.length fila)%nat -> pd.celda j (pd.reemplazar j v fila) = v.
Proof.
  unfold pd.celda.
  induction fila as [|x fila IH]; intros j Hj; simpl in *; [lia|].
  destruct j; simpl; [reflexivity|]. apply IH. lia.
Qed.

Lemma length_reemplazar (v : valor) (fila : list valor) :
  forall j, List.length (pd.reemplazar j v fila) = List.length fila.
Proof.
  induction fila as [|x fila IH]; intros j.
  - destruct j; reflexivity.
  - destruct j; simpl; auto.
Qed.

Section Setitem.

Variables (df : pd.DataFrame) (c : string) (jc : nat) (serie : list valor).
Hypothesis Hc : pd.indice c (pd.columns df) = Some jc.
Hypothesis Hlen : List.length serie = List.length (pd.filas df).

Lemma setitem_existente :
  pd.setitem df c serie
  = pd.mkDataFrame (pd.columns df)
      (map (fun rv : list valor * valor => pd.reemplazar jc (snd rv) (fst rv))
           (combine (pd.filas df) serie)).
Proof. unfold pd.setitem. now rewrite Hc. Qed.

Lemma setitem_columns : pd.columns (pd.setitem df c serie) = pd.columns df.
Proof. now rewrite setitem_existente. Qed.

Lemma setitem_length :
  List.length (pd.filas (pd.setitem df c serie)) = List.length (pd.filas df).
Proof.
  rewrite setitem_existente. simpl. rewrite length_map, length_combine. lia.
Qed.

Lemma setitem_bien_formado : bien_formado df -> bien_formado (pd.setitem df c serie).
Proof.
  unfold bien_formado. rewrite setitem_existente. simpl.
  rewrite !Forall_forall. intros Hb r Hr.
  apply in_map_iff in Hr as [[r0 v] [<- Hin]]. simpl.
  rewrite length_reemplazar. apply Hb. eapply in_combine_l; eauto.
Qed.

(** The other columns are not touched. *)
Lemma setitem_otra_columna (j' : nat) :
  j' <> jc ->
  pd.columna j' (pd.filas (pd.setitem df c serie)) = pd.columna j' (pd.filas df).
Proof.
  intros Hj. rewrite setitem_existente. simpl. unfold pd.columna.
  clear Hc. revert serie Hlen.
  induction (pd.filas df) as [|r rows IH]; intros [|v s] Hl; simpl in *;
    try discriminate; [reflexivity|].
  rewrite celda_reemplazar_otra by exact Hj. f_equal. apply IH. lia.
Qed.

(** The column itself becomes the series. *)
Lemma setitem_misma_columna :
  bien_formado df ->
  pd.columna jc (pd.filas (pd.setitem df c serie)) = serie.
Proof.
  intros Hb. rewrite setitem_existente. simpl. unfold pd.columna.
  pose proof (indice_lt _ _ _ Hc) as Hlt.
  unfold bien_formado in Hb. clear Hc. revert serie Hlen Hb.
  induction (pd.filas df) as [|r rows IH]; intros [|v s] Hl Hb; simpl in *;
    try discriminate; [reflexivity|].
  inversion Hb; subst.
  rewrite celda_reemplazar_misma by lia. f_equal. apply IH; [lia | assumption].
Qed.

End Setitem.

Lemma getitem_ok (df : pd.DataFrame) (c : string) (serie : list valor) :
  pd.getitem df c = Ok serie ->
  exists j, pd.indice c (pd.columns df) = Some j /\ serie = pd.columna j (pd.filas df).
Proof.
  unfold pd.getitem. destruct (pd.indice c (pd.columns df)) as [j|]; [|discriminate].
  intros H; inversion H; eauto.
Qed.

Lemma length_columna (j : nat) (rows : list (list valor)) :
  List.length (pd.columna j rows) = List.length rows.
Proof. unfold pd.columna. apply length_map. Qed.

Lemma length_to_datetime (af : list valor -> valor -> option Timestamp) (s : list valor) :
  List.length (pd.to_datetime af s) = List.length s.
Proof. unfold pd.to_datetime. apply length_map. Qed.

Lemma para_cada_ok {A B : Type} (f : A -> resultado B) (l : list A) :
  forall ys,
    para_cada f l = Ok ys ->
    List.length ys = List.length l
    /\ forall i x, nth_error l i = Some x ->
                   exists y, nth_error ys i = Some y /\ f x = Ok y.
Proof.
  induction l as [|a l IH]; simpl; intros ys H.
  - inversion H; subst. split; [reflexivity|]. intros [|i] x Hx; discriminate.
  - destruct (f a) as [y|] eqn:Hy; [|discriminate]. simpl in H.
    destruct (para_cada f l) as [ys'|] eqn:Hys; [|discriminate]. simpl in H.
    inversion H; subst. destruct (IH _ eq_refl) as [Hl Hn].
    split; [simpl; now rewrite Hl|].
    intros [|i] x Hx; simpl in *.
    + inversion Hx; subst. eauto.
    + now apply Hn.
Qed.

Lemma para_cada_In {A B : Type} (f : A -> resultado B) (l : list A) :
  forall ys y, para_cada f l = Ok ys -> In y ys -> exists x, In x l /\ f x = Ok y.
Proof.
  induction l as [|a l IH]; simpl; intros ys y H Hy.
  - inversion H; subst. contradiction.
  - destruct (f a) as [y0|] eqn:Hy0; [|discriminate]. simpl in H.
    destruct (para_cada f l) as [ys'|] eqn:Hys; [|discriminate]. simpl in H.
    inversion H; subst. destruct Hy as [<- | Hy]; [eauto|].
    destruct (IH _ _ eq_refl Hy) as [x [Hx Hf]]. eauto.
Qed.

Lemma length_para_cada {A B : Type} (f : A -> resultado B) (l : list A) :
  forall ys, para_cada f l = Ok ys -> List.length ys = List.length l.
Proof.
  induction l as [|a l IH]; simpl; intros ys H; [now inversion H|].
  destruct (f a); [|discriminate]. simpl in H.
  destruct (para_cada f l) as [ys'|]; [|discriminate]. simpl in H.
  inversion H; subst. simpl. now rewrite (IH _ eq_refl).
Qed.

Lemma length_todos_int64 (s : list valor) :
  forall zs, pd.todos_int64 s = Some zs -> List.length zs = List.length s.
Proof.
  induction s as [|v s IH]; simpl; intros zs H; [now inversion H|].
  destruct (pd.como_int64 v); [|discriminate].
  destruct (pd.todos_int64 s) as [zs'|]; [|discriminate].
  inversion H; subst. simpl. now rewrite (IH _ eq_refl).
Qed.

(** How [to_numeric] can return: all elements as int64, or read one by
    one. *)
Lemma to_numeric_ok (an : string -> option pd.lectura) (s m : list valor) :
  pd.to_numeric an s = Ok m ->
  (exists zs, pd.todos_int64 s = Some zs /\ m = map VInt zs)
  \/ (exists leidos,
        para_cada (pd.leer an) s = Ok leidos
        /\ m = if pd.visto_float leidos then map pd.como_float leidos
               else if pd.visto_int leidos then map pd.como_int leidos
               else map pd.como_bool leidos).
Proof.
  unfold pd.to_numeric. intros H.
  assert (Hlento :
            (leidos <- para_cada (pd.leer an) s ;;
             Ok (if pd.visto_float leidos then map pd.como_float leidos
                 else if pd.visto_int leidos then map pd.como_int leidos
                 else map pd.como_bool leidos)) = Ok m ->
            exists leidos,
              para_cada (pd.leer an) s = Ok leidos
              /\ m = if pd.visto_float leidos then map pd.como_float leidos
                     else if pd.visto_int leidos then map pd.como_int leidos
                     else map pd.como_bool leidos).
  { destruct (para_cada (pd.leer an) s) as [leidos|]; [|discriminate].
    cbn [bind]. intros H'. inversion H'. eauto. }
  destruct s as [|v s]; [right; auto|].
  destruct v; try (right; auto; fail).
  destruct (pd.todos_int64 (VInt z :: s)) as [zs|] eqn:Hz; [|right; auto].
  left. inversion H. eauto.
Qed.

Lemma length_to_numeric (an : string -> option pd.lectura) (s m : list valor) :
  pd.to_numeric an s = Ok m -> List.length m = List.length s.
Proof.
  intros H. apply to_numeric_ok in H as [[zs [Hz ->]] | [leidos [Hl ->]]].
  - rewrite length_map. now apply length_todos_int64.
  - apply length_para_cada in Hl.
    destruct (pd.visto_float leidos); [|destruct (pd.visto_int leidos)];
      now rewrite length_map.
Qed.

Lemma length_round_2 (s : list valor) : List.length (pd.round_2 s) = List.length s.
Proof. unfold pd.round_2. apply length_map. Qed.

(** How [limpiar_dataframes] can return: the three deduplications went
    through, the deduplicated contracts have the columns ["fecha"] and
    ["monto"], and [pd.to_numeric] returned on the amounts; the two
    columns are then replaced by their coerced series. *)
Lemma limpiar_dataframes_ok (E : Entorno) (dfc dfk dfs c' k' s' : pd.DataFrame) :
  limpiar_dataframes E dfc dfk dfs = Ok (c', k', s') ->
  exists k0 s0 jf jm montos,
    pd.drop_duplicates dfc "ci" = Ok c'
    /\ pd.drop_duplicates dfk "id" = Ok k0
    /\ k' = pd.rename k0 [("id", "nrocaso"); ("materia", "materia")]
    /\ pd.drop_duplicates dfs "nrocontrato" = Ok s0
    /\ pd.indice "fecha" (pd.columns s0) = Some jf
    /\ pd.indice "monto" (pd.columns s0) = Some jm
    /\ pd.to_numeric (analizar_numero E) (pd.columna jm (pd.filas (con_fechas E s0 jf)))
       = Ok montos
    /\ s' = con_tipos E s0 jf montos.
Proof.
  unfold limpiar_dataframes, pd.reset_index.
  destruct (pd.drop_duplicates dfc "ci") as [c0|]; [|discriminate].
  destruct (pd.drop_duplicates dfk "id") as [k0|]; [|discriminate].
  destruct (pd.drop_duplicates dfs "nrocontrato") as [s0|]; [|discriminate].
  cbn [bind].
  destruct (pd.getitem s0 "fecha") as [f|] eqn:Hf; [|discriminate].
  cbn [bind].
  destruct (pd.getitem _ "monto") as [m|] eqn:Hm; [|discriminate].
  cbn [bind].
  destruct (pd.to_numeric (analizar_numero E) m) as [montos|] eqn:Hn; [|discriminate].
  cbn [bind]. intros H; inversion H; subst.
  apply getitem_ok in Hf as [jf [Hjf ->]].
  apply getitem_ok in Hm as [jm [Hjm ->]].
  rewrite setitem_columns with (jc := jf) in Hjm by exact Hjf.
  exists k0, s0, jf, jm, montos. repeat split; auto.
Qed.

Section ConTipos.

Variables (E : Entorno) (s0 : pd.DataFrame) (jf jm : nat).
Hypothesis Hjf : pd.indice "fecha" (pd.columns s0) = Some jf.
Hypothesis Hjm : pd.indice "monto" (pd.columns s0) = Some jm.

Lemma fechas_length : List.length (fechas_de E s0 jf) = List.length (pd.filas s0).
Proof. unfold fechas_de. now rewrite length_to_datetime, length_columna. Qed.

Lemma s1_monto : pd.indice "monto" (pd.columns (con_fechas E s0 jf)) = Some jm.
Proof.
  unfold con_fechas. rewrite (setitem_columns s0 "fecha" jf _ Hjf). exact Hjm.
Qed.

Lemma jf_no_es_jm : jf <> jm.
Proof.
  intros ->. pose proof (indice_misma _ _ _ _ Hjf Hjm) as H. discriminate.
Qed.


Variable montos : list valor.
Hypothesis Hmontos :
  pd.to_numeric (analizar_numero E) (pd.columna jm (pd.filas (con_fechas E s0 jf)))
  = Ok montos.

Lemma montos_length :
  List.length (pd.round_2 montos) = List.length (pd.filas (con_fechas E s0 jf)).
Proof.
  now rewrite length_round_2, (length_to_numeric _ _ _ Hmontos), length_columna.
Qed.

Lemma con_tipos_columns : pd.columns (con_tipos E s0 jf montos) = pd.columns s0.
Proof.
  unfold con_tipos. rewrite (setitem_columns _ "monto" jm _ s1_monto).
  apply (setitem_columns s0 "fecha" jf _ Hjf).
Qed.

Lemma con_tipos_length :
  List.length (pd.filas (con_tipos E s0 jf montos)) = List.length (pd.filas s0).
Proof.
  unfold con_tipos.
  rewrite (setitem_length _ "monto" jm _ s1_monto montos_length).
  apply (setitem_length s0 "fecha" jf _ Hjf fechas_length).
Qed.

(** The coercions leave every other column as it was. *)
Lemma con_tipos_otra_columna (j : nat) :
  j <> jf -> j <> jm ->
  pd.columna j (pd.filas (con_tipos E s0 jf montos)) = pd.columna j (pd.filas s0).
Proof.
  intros H1 H2.
  unfold con_tipos.
  rewrite (setitem_otra_columna _ "monto" jm _ s1_monto montos_length j H2).
  apply (setitem_otra_columna s0 "fecha" jf _ Hjf fechas_length j H1).
Qed.

Lemma con_tipos_fecha :
  bien_formado s0 ->
  pd.columna jf (pd.filas (con_tipos E s0 jf montos))
  = pd.to_datetime (analizar_fecha E) (pd.columna jf (pd.filas s0)).
Proof.
  intros Hb.
  unfold con_tipos.
  rewrite (setitem_otra_columna _ "monto" jm _ s1_monto montos_length jf jf_no_es_jm).
  apply (setitem_misma_columna s0 "fecha" jf _ Hjf fechas_length Hb).
Qed.

Lemma con_tipos_monto :
  bien_formado s0 ->
  pd.columna jm (pd.filas (con_tipos E s0 jf montos)) = pd.round_2 montos.
Proof.
  intros Hb.
  assert (Hb1 : bien_formado (con_fechas E s0 jf))
    by exact (setitem_bien_formado s0 "fecha" jf _ Hjf Hb).
  unfold con_tipos.
  apply (setitem_misma_columna _ "monto" jm _ s1_monto montos_length Hb1).
Qed.


End ConTipos.

Lemma etiquetas_de_columna (j : nat) (rows : list (list valor)) :
  map (etiqueta_en j) rows = map etiqueta_de (pd.columna j rows).
Proof. unfold pd.columna, etiqueta_en. now rewrite map_map. Qed.

(** C5.  When [limpiar_dataframes] returns, each of the three frames has
    been deduplicated on its key column, keeping first occurrences: no
    two rows of the result carry the same key, the row the result holds
    for a key is the first row of the input with that key, and every row
    of the result is a row of the input.  For the contracts this holds of
    the frame before the two coercions, which then change the columns
    ["fecha"] and ["monto"] and no other, so the keys stay distinct. *)
Theorem C5_deduplicacion (E : Entorno) (dfc dfk dfs c' k' s' : pd.DataFrame) :
  limpiar_dataframes E dfc dfk dfs = Ok (c', k', s') ->
  (forall j, pd.indice "ci" (pd.columns dfc) = Some j ->
             primeras_ocurrencias j (pd.filas dfc) (pd.filas c'))
  /\ (forall j, pd.indice "id" (pd.columns dfk) = Some j ->
                primeras_ocurrencias j (pd.filas dfk) (pd.filas k'))
  /\ (forall j, pd.indice "nrocontrato" (pd.columns dfs) = Some j ->
        exists s0,
          pd.drop_duplicates dfs "nrocontrato" = Ok s0
          /\ primeras_ocurrencias j (pd.filas dfs) (pd.filas s0)
          /\ NoDup (map (etiqueta_en j) (pd.filas s'))
          /\ (forall j',
                pd.indice "fecha" (pd.columns dfs) <> Some j' ->
                pd.indice "monto" (pd.columns dfs) <> Some j' ->
                pd.columna j' (pd.filas s') = pd.columna j' (pd.filas s0))).
Proof.
  intros H.
  apply limpiar_dataframes_ok in H
    as (k0 & s0 & jf & jm & montos & Hc & Hk & -> & Hs & Hjf & Hjm & Hmon & ->).
  split; [|split].
  - intros j Hj. eapply drop_duplicates_primeras; eauto.
  - intros j Hj. simpl. eapply drop_duplicates_primeras; eauto.
  - intros j Hj. exists s0.
    pose proof (drop_duplicates_columns _ _ _ Hs) as Hcols.
    assert (Hotra : forall j', pd.indice "fecha" (pd.columns dfs) <> Some j' ->
                               pd.indice "monto" (pd.columns dfs) <> Some j' ->
                               pd.columna j' (pd.filas (con_tipos E s0 jf montos))
                               = pd.columna j' (pd.filas s0)).
    { intros j' H1 H2. rewrite <- Hcols in H1, H2.
      apply (con_tipos_otra_columna E s0 jf jm Hjf Hjm montos Hmon); congruence. }
    pose proof (drop_duplicates_primeras _ _ _ _ Hs Hj) as Hp.
    repeat split; try apply Hp; auto.
    rewrite etiquetas_de_columna, Hotra, <- etiquetas_de_columna; [apply Hp| |].
    + intros H'. pose proof (indice_misma _ _ _ _ H' Hj). discriminate.
    + intros H'. pose proof (indice_misma _ _ _ _ H' Hj). discriminate.
Qed.

Example dos_de_cada_frames :
  pd.DataFrame_ (VList [cliente_A1; cliente_A1_bis]) = Ok df_dos_clientes
  /\ pd.DataFrame_ (VList [caso_C1]) = Ok df_un_caso
  /\ procesar_datos_servicios (VList [contrato_K1; contrato_K2]) = Ok df_dos_contratos.
Proof. repeat split; vm_compute; reflexivity. Qed.

(** The example of C5 and C6 run to its end: one client row, with the
    first name seen; the unreadable date and amount stored as NaT and
    NaN, the absent references as [None]. *)
Example dos_de_cada_corrida :
  main dos_de_cada pyodbc.vacia = mkCorrida (Ok tt) base_dos_de_cada 1.
Proof. vm_compute. reflexivity. Qed.

Lemma C5_deduplicacion_testigo :
  primeras_ocurrencias 0 (pd.filas df_dos_clientes) (pd.filas df_un_cliente_limpio).
Proof.
  refine (proj1 (C5_deduplicacion escenario df_dos_clientes df_un_caso df_dos_contratos
                   df_un_cliente_limpio df_un_caso_limpio df_dos_contratos_limpio _)
                0%nat _).
  - vm_compute. reflexivity.
  - reflexivity.
Defined.

(** Every statement that went through left its row in the table, or
    found its key there. *)
Lemma aplicar_enviadas (E : Entorno) (l : list (pyodbc.Merge * list valor)) :
  forall b b',
    aplicar E l b = Ok b' ->
    forall sql row,
      In (sql, row) l ->
      In row (pyodbc.tabla_de b' (pyodbc.destino sql)) \/ presente b' (sql, row).
Proof.
  induction l as [|[sql0 row0] l IH]; simpl; intros b b' H sql row Hin; [contradiction|].
  destruct (pyodbc.merge (rechazo E) sql0 row0 b) as [b1|e] eqn:Hm; [|discriminate].
  simpl in H. destruct Hin as [Heq | Hin]; [|eapply IH; eauto].
  inversion Heq; subst sql0 row0.
  destruct (aplicar_solo_inserta E _ _ _ H (pyodbc.destino sql)) as [x [Hx _]].
  apply merge_casos in Hm as [_ [[Hc ->] | [Hc ->]]].
  - right. unfold presente. simpl. rewrite Hx. now apply coincide_app.
  - left. rewrite Hx, tabla_de_insertar_misma. apply in_or_app. left.
    apply in_or_app. right. now left.
Qed.

(* ================================================================== *)
(** ** The normalizer: coercion                                        *)
(* ================================================================== *)



Lemma redondeo_nan : np_round2 nan = nan.
Proof. reflexivity. Qed.


(* ================================================================== *)
(** ** The normalizer: contracts without client or case                *)
(* ================================================================== *)

(** The dict of one contract: five items under the five keys, the two
    references [None] when the sub-object is absent. *)
Lemma procesar_servicio_ok (servicio : valor) (d : list (string * valor)) :
  procesar_servicio servicio = Ok d ->
  exists a f m cc nn,
    d = [("nrocontrato", a); ("fecha", f); ("monto", m);
         ("cicliente", cc); ("nrocasojuridico", nn)]
    /\ (forall c, subscript servicio "cliente" = Ok c -> truthy c = false -> cc = VNone)
    /\ (forall c, subscript servicio "Caso" = Ok c -> truthy c = false -> nn = VNone).
Proof.
  unfold procesar_servicio.
  destruct (subscript servicio "id") as [a|]; [|discriminate].
  destruct (subscript servicio "fecha") as [f|]; [|discriminate].
  destruct (subscript servicio "precioBS") as [m|]; [|discriminate].
  destruct (subscript servicio "cliente") as [cli|]; [|discriminate].
  cbn [bind].
  destruct (if truthy cli then subscript cli "ci" else Ok VNone) as [cc|] eqn:Hcc;
    [|discriminate].
  destruct (subscript servicio "Caso") as [caso|]; [|discriminate].
  cbn [bind].
  destruct (if truthy caso then subscript caso "id" else Ok VNone) as [nn|] eqn:Hnn;
    [|discriminate].
  cbn [bind]. intros H; inversion H; subst.
  exists a, f, m, cc, nn. split; [reflexivity|]. split.
  - intros c Hc Ht. inversion Hc; subst. rewrite Ht in Hcc. now inversion Hcc.
  - intros c Hc Ht. inversion Hc; subst. rewrite Ht in Hnn. now inversion Hnn.
Qed.

Lemma claves_de_servicios (data : list (list (string * valor))) :
  Forall es_registro_servicio data ->
  data <> [] ->
  pd.claves_de data = claves_servicio.
Proof.
  intros Hf Hne. unfold pd.claves_de.
  destruct data as [|d data]; [contradiction|].
  inversion Hf as [|? ? Hd Hrest]; subst. simpl.
  destruct Hd as (a & f & m & cc & nn & ->).
  change (pd.agregar_claves [] _) with claves_servicio.
  clear Hf Hne. induction Hrest as [|d' data' Hd' _ IH]; simpl; [reflexivity|].
  destruct Hd' as (a' & f' & m' & cc' & nn' & ->).
  change (pd.agregar_claves claves_servicio _) with claves_servicio. exact IH.
Qed.

(** dtype inference rewrites a cell to its float64 form or leaves it. *)
Lemma celda_inferida (marcas : list bool) (fila : list valor) (j : nat) :
  List.length marcas = List.length fila ->
  pd.celda j (map (fun mv : bool * valor =>
                     if fst mv then pd.a_float64 (snd mv) else snd mv)
                  (combine marcas fila))
  = if nth j marcas false then pd.a_float64 (pd.celda j fila) else pd.celda j fila.
Proof.
  intros Hl. unfold pd.celda.
  change VNone with ((fun mv : bool * valor =>
                        if fst mv then pd.a_float64 (snd mv) else snd mv) (false, VNone)) at 1.
  rewrite map_nth, combine_nth by exact Hl. reflexivity.
Qed.

Lemma inferir_fila (rows : list (list valor)) (n i : nat) (r : list valor) :
  nth_error rows i = Some r ->
  List.length r = n ->
  exists marcas r',
    nth_error (pd.inferir rows n) i = Some r'
    /\ forall j, pd.celda j r'
                 = if nth j marcas false then pd.a_float64 (pd.celda j r) else pd.celda j r.
Proof.
  intros Hr Hn. unfold pd.inferir.
  set (marcas := map (fun j => pd.pasa_a_float64 (pd.columna j rows)) (seq 0 n)).
  exists marcas. eexists. split.
  - apply map_nth_error. exact Hr.
  - intros j. apply celda_inferida. unfold marcas. now rewrite length_map, length_seq.
Qed.

Lemma es_nulo_inferido (b : bool) (v : valor) :
  v = VNone -> es_nulo (if b then pd.a_float64 v else v) = true.
Proof. intros ->. destruct b; reflexivity. Qed.

(** The frame of the contracts: a row per record, in order, the two
    reference cells missing when the sub-object was absent. *)
Lemma procesar_datos_servicios_filas (servicios : list valor) (df : pd.DataFrame) :
  procesar_datos_servicios (VList servicios) = Ok df ->
  (servicios <> [] -> pd.columns df = claves_servicio)
  /\ List.length (pd.filas df) = List.length servicios
  /\ forall i servicio,
       nth_error servicios i = Some servicio ->
       exists fila,
         nth_error (pd.filas df) i = Some fila
         /\ (forall c, subscript servicio "cliente" = Ok c -> truthy c = false ->
                       es_nulo (pd.celda 3 fila) = true)
         /\ (forall c, subscript servicio "Caso" = Ok c -> truthy c = false ->
                       es_nulo (pd.celda 4 fila) = true).
Proof.
  unfold procesar_datos_servicios. cbn [iterar bind].
  destruct (para_cada procesar_servicio servicios) as [processed|] eqn:Hp; [|discriminate].
  cbn [bind]. intros H; inversion H; subst; clear H.
  destruct (para_cada_ok _ _ _ Hp) as [Hlen Hnth].
  assert (Hreg : Forall es_registro_servicio processed).
  { apply Forall_forall. intros d Hd.
    destruct (para_cada_In _ _ _ _ Hp Hd) as [x [_ Hx]].
    apply procesar_servicio_ok in Hx as (a & f & m & cc & nn & -> & _).
    red. eauto 6. }
  assert (Hcols : servicios <> [] -> pd.claves_de processed = claves_servicio).
  { intros Hne. apply claves_de_servicios; [exact Hreg|].
    intros ->. simpl in Hlen. destruct servicios; [contradiction | discriminate]. }
  split; [exact Hcols|]. split.
  { unfold pd.de_registros, pd.inferir. simpl. now rewrite !length_map. }
  intros i servicio Hi.
  destruct (Hnth i servicio Hi) as [d [Hd Hproc]].
  apply procesar_servicio_ok in Hproc as (a & f & m & cc & nn & -> & Hcc & Hnn).
  assert (Hne : servicios <> []) by (intros ->; destruct i; discriminate).
  unfold pd.de_registros. rewrite (Hcols Hne). simpl pd.filas.
  destruct (inferir_fila (map (pd.fila_de claves_servicio) processed)
              (List.length claves_servicio) i [a; f; m; cc; nn])
    as (marcas & r' & Hr' & Hcel).
  { erewrite map_nth_error; [|exact Hd]. reflexivity. }
  { reflexivity. }
  exists r'. split; [exact Hr'|]. split.
  - intros c Hc Ht. rewrite Hcel. apply es_nulo_inferido. exact (Hcc c Hc Ht).
  - intros c Hc Ht. rewrite Hcel. apply es_nulo_inferido. exact (Hnn c Hc Ht).
Qed.

(* ================================================================== *)
(** ** More on the reconciler                                          *)
(* ================================================================== *)

Lemma claves_unicas_una_mas (rows : list (list valor)) (r : list valor) :
  claves_unicas rows ->
  pyodbc.coincide (pyodbc.clave r) rows = false ->
  claves_unicas (rows ++ [r]).
Proof.
  unfold claves_unicas.
  induction 1 as [|a l Ha Hl IH]; simpl; intros Hc.
  - constructor; constructor.
  - apply orb_false_iff in Hc as [Har Hc].
    constructor; [|now apply IH].
    apply Forall_app. split; [exact Ha|]. constructor; [exact Har | constructor].
Qed.

Lemma claves_unicas_nuevas (nuevas : list (list valor)) :
  forall rows,
    solo_nuevas rows nuevas = true ->
    claves_unicas rows -> claves_unicas (rows ++ nuevas).
Proof.
  induction nuevas as [|r x IH]; intros rows Hs Hu; simpl in *.
  - now rewrite app_nil_r.
  - apply andb_true_iff in Hs as [Hc Hs]. apply negb_true_iff in Hc.
    replace (rows ++ r :: x) with ((rows ++ [r]) ++ x) by now rewrite <- app_assoc.
    apply IH; [exact Hs|]. now apply claves_unicas_una_mas.
Qed.

(** A table without two rows under one key keeps that property over
    any sequence of runs, whatever the sources return and however each run
    ends. *)
Theorem claves_unicas_se_conservan (Es : list Entorno) (b : pyodbc.base) (t : pyodbc.tabla) :
  claves_unicas (pyodbc.tabla_de b t) ->
  claves_unicas (pyodbc.tabla_de (corridas Es b) t).
Proof.
  intros Hu. destruct (corridas_solo_insertan Es b t) as [nuevas [-> Hs]].
  now apply claves_unicas_nuevas.
Qed.

Lemma claves_unicas_se_conservan_testigo :
  claves_unicas
    (pyodbc.tabla_de (corridas [escenario; dos_de_cada] pyodbc.vacia) pyodbc.contratoServicio).
Proof.
  apply (claves_unicas_se_conservan [escenario; dos_de_cada] pyodbc.vacia
           pyodbc.contratoServicio).
  simpl. constructor.
Defined.

Lemma aplicar_app_ok (E : Entorno) (l1 l2 : list (pyodbc.Merge * list valor))
    (b b' : pyodbc.base) :
  aplicar E (l1 ++ l2) b = Ok b' ->
  exists b1, aplicar E l1 b = Ok b1 /\ aplicar E l2 b1 = Ok b'.
Proof.
  rewrite aplicar_app. destruct (aplicar E l1 b) as [b1|e]; simpl; [eauto | discriminate].
Qed.

Lemma enviadas_guardadas (E : Entorno) (sql : pyodbc.Merge) (rows : list (list valor))
    (l : list (pyodbc.Merge * list valor)) (b b' : pyodbc.base) :
  aplicar E l b = Ok b' ->
  (forall row, In row rows -> In (sql, row) l) ->
  Forall (guardada (pyodbc.tabla_de b' (pyodbc.destino sql))) rows.
Proof.
  intros Ha Hin. apply Forall_forall. intros row Hr.
  exact (aplicar_enviadas E l b b' Ha sql row (Hin row Hr)).
Qed.

Lemma en_sentencias (dfc dfk dfs : pd.DataFrame) (row : list valor) :
  (In row (pd.itertuples dfc) -> In (insert_clientes, row) (sentencias dfc dfk dfs))
  /\ (In row (pd.itertuples dfk) -> In (insert_casos, row) (sentencias dfc dfk dfs))
  /\ (In row (pd.itertuples dfs) -> In (insert_servicios, row) (sentencias dfc dfk dfs)).
Proof.
  unfold sentencias. repeat split; intros H.
  - apply in_or_app. left. now apply in_map.
  - apply in_or_app. right. apply in_or_app. left. now apply in_map.
  - apply in_or_app. right. apply in_or_app. right. now apply in_map.
Qed.

(** After a run that ended normally, every tuple of the three cleaned
    frames is in its table, or a row with its key is: nothing that was
    fetched is left without a stored row. *)
Theorem corrida_completa (E : Entorno) (b : pyodbc.base) (dfc dfk dfs : pd.DataFrame) :
  obtener_y_limpiar E = Ok (dfc, dfk, dfs) ->
  es_ok (salida (main E b)) = true ->
  Forall (guardada (pyodbc.filas_cliente (almacen (main E b)))) (pd.itertuples dfc)
  /\ Forall (guardada (pyodbc.filas_casoJuridico (almacen (main E b)))) (pd.itertuples dfk)
  /\ Forall (guardada (pyodbc.filas_contratoServicio (almacen (main E b))))
            (pd.itertuples dfs).
Proof.
  intros Ho. unfold main. rewrite Ho, guardar_aplicar.
  destruct (error_de_conexion E); [discriminate|].
  destruct (aplicar E (sentencias dfc dfk dfs) b) as [b'|e] eqn:Ha; [|discriminate].
  intros _. simpl.
  repeat split.
  - apply (enviadas_guardadas E insert_clientes _ _ _ _ Ha).
    intros row. apply en_sentencias.
  - apply (enviadas_guardadas E insert_casos _ _ _ _ Ha).
    intros row. apply en_sentencias.
  - apply (enviadas_guardadas E insert_servicios _ _ _ _ Ha).
    intros row. apply en_sentencias.
Qed.

Lemma corrida_completa_testigo :
  Forall (guardada (pyodbc.filas_cliente (almacen (main dos_de_cada pyodbc.vacia))))
         (pd.itertuples df_un_cliente_limpio)
  /\ Forall (guardada (pyodbc.filas_casoJuridico (almacen (main dos_de_cada pyodbc.vacia))))
            (pd.itertuples df_un_caso_limpio)
  /\ Forall (guardada (pyodbc.filas_contratoServicio (almacen (main dos_de_cada pyodbc.vacia))))
            (pd.itertuples df_dos_contratos_limpio).
Proof.
  apply (corrida_completa dos_de_cada pyodbc.vacia
           df_un_cliente_limpio df_un_caso_limpio df_dos_contratos_limpio);
    vm_compute; reflexivity.
Defined.

(** The statements of one loop leave the other tables as they are. *)
Lemma aplicar_otra_tabla (E : Entorno) (sql : pyodbc.Merge) (rows : list (list valor)) :
  forall b b',
    aplicar E (map (pair sql) rows) b = Ok b' ->
    forall t, t <> pyodbc.destino sql -> pyodbc.tabla_de b' t = pyodbc.tabla_de b t.
Proof.
  induction rows as [|r rows IH]; simpl; intros b b' H t Ht.
  - now inversion H.
  - destruct (pyodbc.merge (rechazo E) sql r b) as [b1|] eqn:Hm; [|discriminate].
    simpl in H. rewrite (IH _ _ H t Ht).
    apply merge_casos in Hm as [_ [[_ ->] | [_ ->]]]; [reflexivity|].
    rewrite tabla_de_insertar.
    destruct (pyodbc.destino sql), t; try contradiction; simpl; now rewrite app_nil_r.
Qed.

(** How a run can fail: with the error of the fetch or of the cleaning,
    as it was raised, or, once the frames are there, with the fixed text
    of [main] in front of a database error.  No other error leaves
    [main]. *)
Theorem errores_de_main (E : Entorno) (b : pyodbc.base) (e : excepcion) :
  salida (main E b) = Raise e ->
  obtener_y_limpiar E = Raise e
  \/ (es_ok (obtener_y_limpiar E) = true
      /\ exists e',
           e = Exception_ ("Error al guardar los datos en la base de datos: " ++ str e')%string).
Proof.
  unfold main. destruct (obtener_y_limpiar E) as [[[dfc dfk] dfs]|e0]; simpl.
  - rewrite guardar_aplicar. intros H. right. split; [reflexivity|].
    destruct (error_de_conexion E) as [msg|].
    + exists (pyodbc_Error msg). cbn [salida] in H. now inversion H.
    + destruct (aplicar E (sentencias dfc dfk dfs) b) as [b'|e1]; cbn [salida] in H;
        [discriminate|]. exists e1. now inversion H.
  - intros H. inversion H. now left.
Qed.

Lemma errores_de_main_testigo :
  obtener_y_limpiar sin_contratos = Raise (KeyError "fecha")
  \/ (es_ok (obtener_y_limpiar sin_contratos) = true
      /\ exists e',
           KeyError "fecha"
           = Exception_ ("Error al guardar los datos en la base de datos: " ++ str e')%string).
Proof.
  apply (errores_de_main sin_contratos pyodbc.vacia (KeyError "fecha")).
  vm_compute. reflexivity.
Defined.

Lemma aplicar_a_lo_mas (E : Entorno) (sql : pyodbc.Merge) (rows : list (list valor)) :
  forall b b',
    aplicar E (map (pair sql) rows) b = Ok b' ->
    (List.length (pyodbc.tabla_de b' (pyodbc.destino sql))
     <= List.length (pyodbc.tabla_de b (pyodbc.destino sql)) + List.length rows)%nat.
Proof.
  induction rows as [|r rows IH]; simpl; intros b b' H.
  - inversion H. lia.
  - destruct (pyodbc.merge (rechazo E) sql r b) as [b1|] eqn:Hm; [|discriminate].
    simpl in H. specialize (IH _ _ H).
    apply merge_casos in Hm as [_ [[_ ->] | [_ ->]]]; [lia|].
    rewrite tabla_de_insertar_misma, length_app in IH. simpl in IH. lia.
Qed.

(** A run adds to each table at most as many rows as the cleaned frame
    of that table has tuples. *)
Theorem filas_agregadas (E : Entorno) (b : pyodbc.base) (dfc dfk dfs : pd.DataFrame) :
  obtener_y_limpiar E = Ok (dfc, dfk, dfs) ->
  (List.length (pyodbc.filas_cliente (almacen (main E b)))
   <= List.length (pyodbc.filas_cliente b) + List.length (pd.itertuples dfc))%nat
  /\ (List.length (pyodbc.filas_casoJuridico (almacen (main E b)))
      <= List.length (pyodbc.filas_casoJuridico b) + List.length (pd.itertuples dfk))%nat
  /\ (List.length (pyodbc.filas_contratoServicio (almacen (main E b)))
      <= List.length (pyodbc.filas_contratoServicio b) + List.length (pd.itertuples dfs))%nat.
Proof.
  intros Ho. unfold main. rewrite Ho, guardar_aplicar.
  destruct (error_de_conexion E); [simpl; lia|].
  destruct (aplicar E (sentencias dfc dfk dfs) b) as [b'|e] eqn:Ha; [|simpl; lia].
  cbn [almacen]. unfold sentencias in Ha.
  apply aplicar_app_ok in Ha as [b1 [H1 Ha]].
  apply aplicar_app_ok in Ha as [b2 [H2 H3]].
  pose proof (aplicar_a_lo_mas E _ _ _ _ H1) as L1.
  pose proof (aplicar_a_lo_mas E _ _ _ _ H2) as L2.
  pose proof (aplicar_a_lo_mas E _ _ _ _ H3) as L3.
  pose proof (aplicar_otra_tabla E _ _ _ _ H1) as O1.
  pose proof (aplicar_otra_tabla E _ _ _ _ H2) as O2.
  pose proof (aplicar_otra_tabla E _ _ _ _ H3) as O3.
  simpl in L1, L2, L3.
  pose proof (O2 pyodbc.cliente ltac:(discriminate)) as A.
  pose proof (O3 pyodbc.cliente ltac:(discriminate)) as B.
  pose proof (O1 pyodbc.casoJuridico ltac:(discriminate)) as C.
  pose proof (O3 pyodbc.casoJuridico ltac:(discriminate)) as D.
  pose proof (O1 pyodbc.contratoServicio ltac:(discriminate)) as F.
  pose proof (O2 pyodbc.contratoServicio ltac:(discriminate)) as G.
  simpl in A, B, C, D, F, G.
  rewrite B, A, D, <- C in *. rewrite <- F, <- G in *. repeat split; lia.
Qed.

Lemma filas_agregadas_testigo :
  (List.length (pyodbc.filas_cliente (almacen (main dos_de_cada base_dos_de_cada)))
   <= List.length (pyodbc.filas_cliente base_dos_de_cada)
      + List.length (pd.itertuples df_un_cliente_limpio))%nat
  /\ (List.length (pyodbc.filas_casoJuridico (almacen (main dos_de_cada base_dos_de_cada)))
      <= List.length (pyodbc.filas_casoJuridico base_dos_de_cada)
         + List.length (pd.itertuples df_un_caso_limpio))%nat
  /\ (List.length (pyodbc.filas_contratoServicio (almacen (main dos_de_cada base_dos_de_cada)))
      <= List.length (pyodbc.filas_contratoServicio base_dos_de_cada)
         + List.length (pd.itertuples df_dos_contratos_limpio))%nat.
Proof.
  apply (filas_agregadas dos_de_cada base_dos_de_cada
           df_un_cliente_limpio df_un_caso_limpio df_dos_contratos_limpio).
  vm_compute. reflexivity.
Defined.

(* ================================================================== *)
(** ** More on the normalizer                                          *)
(* ================================================================== *)

Lemma primeras_length (j : nat) (rows : list (list valor)) :
  forall vistos, (List.length (pd.primeras j vistos rows) <= List.length rows)%nat.
Proof.
  induction rows as [|r rows IH]; simpl; intros vistos; [lia|].
  destruct (in_dec etiqueta_eq_dec _ vistos); simpl.
  - specialize (IH vistos). lia.
  - specialize (IH (etiqueta_de (pd.celda j r) :: vistos)). lia.
Qed.

Lemma drop_duplicates_length (df df' : pd.DataFrame) (c : string) :
  pd.drop_duplicates df c = Ok df' ->
  (List.length (pd.filas df') <= List.length (pd.filas df))%nat.
Proof.
  intros H. apply drop_duplicates_ok in H as [[_ ->] | [j [_ ->]]]; [lia|].
  simpl. apply primeras_length.
Qed.

Lemma itertuples_In (df : pd.DataFrame) (r : list valor) :
  In r (pd.itertuples df) -> In r (pd.filas df).
Proof. unfold pd.itertuples. now destruct (pd.columns df). Qed.

Lemma itertuples_length (df : pd.DataFrame) :
  (List.length (pd.itertuples df) <= List.length (pd.filas df))%nat.
Proof. unfold pd.itertuples. destruct (pd.columns df); simpl; lia. Qed.

Lemma itertuples_filas (df : pd.DataFrame) :
  pd.columns df <> [] -> pd.itertuples df = pd.filas df.
Proof. unfold pd.itertuples. now destruct (pd.columns df). Qed.

(** [limpiar_dataframes] keeps the shape of what it is given: the
    clients and the contracts keep their column labels, the cases keep
    theirs but for ["id"], which becomes ["nrocaso"]; no frame gains a
    row. *)
Theorem limpiar_dataframes_forma (E : Entorno) (dfc dfk dfs c' k' s' : pd.DataFrame) :
  limpiar_dataframes E dfc dfk dfs = Ok (c', k', s') ->
  pd.columns c' = pd.columns dfc
  /\ pd.columns k'
     = map (fun c => if String.eqb c "id" then "nrocaso" else c) (pd.columns dfk)
  /\ pd.columns s' = pd.columns dfs
  /\ (List.length (pd.itertuples c') <= List.length (pd.filas dfc))%nat
  /\ (List.length (pd.itertuples k') <= List.length (pd.filas dfk))%nat
  /\ (List.length (pd.itertuples s') <= List.length (pd.filas dfs))%nat.
Proof.
  intros H.
  apply limpiar_dataframes_ok in H
    as (k0 & s0 & jf & jm & montos & Hc & Hk & -> & Hs & Hjf & Hjm & Hmon & ->).
  pose proof (itertuples_length c') as Lc.
  pose proof (itertuples_length (pd.rename k0 [("id", "nrocaso"); ("materia", "materia")]))
    as Lk.
  pose proof (itertuples_length (con_tipos E s0 jf montos)) as Ls.
  rewrite (con_tipos_length E s0 jf jm Hjf Hjm montos Hmon) in Ls.
  pose proof (drop_duplicates_length _ _ _ Hc) as Lc'.
  pose proof (drop_duplicates_length _ _ _ Hk) as Lk'.
  pose proof (drop_duplicates_length _ _ _ Hs) as Ls'.
  cbn [pd.rename pd.filas] in Lk.
  rewrite (con_tipos_columns E s0 jf jm Hjf Hjm montos).
  rewrite (drop_duplicates_columns _ _ _ Hc), (drop_duplicates_columns _ _ _ Hs).
  repeat split; try reflexivity; try lia.
  unfold pd.rename. simpl. rewrite (drop_duplicates_columns _ _ _ Hk).
  apply map_ext. intros c. simpl.
  destruct (String.eqb c "id") eqn:Hid; [reflexivity|].
  destruct (String.eqb c "materia") eqn:Hm; [|reflexivity].
  apply String.eqb_eq in Hm. now subst.
Qed.

Lemma limpiar_dataframes_forma_testigo :
  pd.columns df_un_cliente_limpio = pd.columns df_dos_clientes
  /\ pd.columns df_un_caso_limpio
     = map (fun c => if String.eqb c "id" then "nrocaso" else c) (pd.columns df_un_caso)
  /\ pd.columns df_dos_contratos_limpio = pd.columns df_dos_contratos
  /\ (List.length (pd.itertuples df_un_cliente_limpio)
      <= List.length (pd.filas df_dos_clientes))%nat
  /\ (List.length (pd.itertuples df_un_caso_limpio) <= List.length (pd.filas df_un_caso))%nat
  /\ (List.length (pd.itertuples df_dos_contratos_limpio)
      <= List.length (pd.filas df_dos_contratos))%nat.
Proof.
  apply (limpiar_dataframes_forma escenario df_dos_clientes df_un_caso df_dos_contratos
           df_un_cliente_limpio df_un_caso_limpio df_dos_contratos_limpio).
  vm_compute. reflexivity.
Defined.

Lemma to_datetime_tipos (af : list valor -> valor -> option Timestamp) (serie : list valor) :
  Forall (fun v => es_fecha_o_NaT v = true) (pd.to_datetime af serie).
Proof.
  unfold pd.to_datetime. apply Forall_forall. intros v Hv.
  apply in_map_iff in Hv as [x [<- _]].
  destruct (es_nulo x); [reflexivity|]. now destruct (af serie x).
Qed.

Lemma subscript_ok (v : valor) (k : string) (x : valor) :
  subscript v k = Ok x -> exists d, v = VDict d /\ buscar k d = Some x.
Proof.
  destruct v; simpl; try discriminate.
  destruct (buscar k d) eqn:Hb; [|discriminate].
  intros H; inversion H; subst. eauto.
Qed.

(** What [procesar_servicio] needs of a record and what it makes of it. *)
Lemma procesar_servicio_campos (servicio : valor) (d' : list (string * valor)) :
  procesar_servicio servicio = Ok d' ->
  exists d a f m cc nn,
    servicio = VDict d
    /\ buscar "id" d = Some a
    /\ buscar "fecha" d = Some f
    /\ buscar "precioBS" d = Some m
    /\ referencia d "cliente" "ci" = Ok cc
    /\ referencia d "Caso" "id" = Ok nn
    /\ d' = [("nrocontrato", a); ("fecha", f); ("monto", m);
             ("cicliente", cc); ("nrocasojuridico", nn)].
Proof.
  unfold procesar_servicio.
  destruct (subscript servicio "id") as [a|] eqn:Ha; [|discriminate].
  apply subscript_ok in Ha as [d [-> Ha]].
  destruct (subscript (VDict d) "fecha") as [f|] eqn:Hf; [|discriminate].
  destruct (subscript (VDict d) "precioBS") as [m|] eqn:Hm; [|discriminate].
  destruct (subscript (VDict d) "cliente") as [cli|] eqn:Hcli; [|discriminate].
  cbn [bind].
  destruct (if truthy cli then subscript cli "ci" else Ok VNone) as [cc|] eqn:Hcc;
    [|discriminate].
  destruct (subscript (VDict d) "Caso") as [caso|] eqn:Hcaso; [|discriminate].
  cbn [bind].
  destruct (if truthy caso then subscript caso "id" else Ok VNone) as [nn|] eqn:Hnn;
    [|discriminate].
  cbn [bind]. intros H; inversion H; subst.
  apply subscript_ok in Hf as [d1 [E1 Hf]]. inversion E1; subst d1.
  apply subscript_ok in Hm as [d2 [E2 Hm]]. inversion E2; subst d2.
  exists d, a, f, m, cc, nn. unfold referencia. repeat split; auto.
  - now rewrite Hcli.
  - now rewrite Hcaso.
Qed.

Lemma celda_de_inferida (b : bool) (v : valor) :
  celda_de v (if b then pd.a_float64 v else v).
Proof. unfold celda_de. destruct b; auto. Qed.

(** [procesar_datos_servicios] returns only when every record of the
    list is a dict with the fields [id], [fecha], [precioBS], [cliente]
    and [Caso]; the frame then has the five columns and, for each record,
    in order, one row of five cells: the contract number, the date and the
    amount as sent, and the two references projected to their key (or
    [None]) -- each cell as it is, or as float64 when pandas makes the
    column numeric. *)
Theorem procesar_datos_servicios_aplana (servicios : list valor) (df : pd.DataFrame) :
  procesar_datos_servicios (VList servicios) = Ok df ->
  (servicios <> [] -> pd.columns df = claves_servicio)
  /\ List.length (pd.filas df) = List.length servicios
  /\ forall i servicio,
       nth_error servicios i = Some servicio ->
       exists d a f m cc nn fila,
         servicio = VDict d
         /\ buscar "id" d = Some a
         /\ buscar "fecha" d = Some f
         /\ buscar "precioBS" d = Some m
         /\ referencia d "cliente" "ci" = Ok cc
         /\ referencia d "Caso" "id" = Ok nn
         /\ nth_error (pd.filas df) i = Some fila
         /\ celda_de a (pd.celda 0 fila)
         /\ celda_de f (pd.celda 1 fila)
         /\ celda_de m (pd.celda 2 fila)
         /\ celda_de cc (pd.celda 3 fila)
         /\ celda_de nn (pd.celda 4 fila).
Proof.
  intros H.
  destruct (procesar_datos_servicios_filas _ _ H) as (Hcols & Hlen & _).
  split; [exact Hcols|]. split; [exact Hlen|].
  revert H. unfold procesar_datos_servicios. cbn [iterar bind].
  destruct (para_cada procesar_servicio servicios) as [processed|] eqn:Hp; [|discriminate].
  cbn [bind]. intros H; inversion H; subst; clear H.
  destruct (para_cada_ok _ _ _ Hp) as [_ Hnth].
  intros i servicio Hi.
  destruct (Hnth i servicio Hi) as [d' [Hd' Hproc]].
  apply procesar_servicio_campos in Hproc
    as (d & a & f & m & cc & nn & -> & Ha & Hf & Hm & Hcc & Hnn & ->).
  assert (Hne : servicios <> []) by (intros ->; destruct i; discriminate).
  specialize (Hcols Hne). unfold pd.de_registros in *. simpl in Hcols. rewrite Hcols.
  simpl pd.filas.
  destruct (inferir_fila (map (pd.fila_de claves_servicio) processed)
              (List.length claves_servicio) i [a; f; m; cc; nn])
    as (marcas & r' & Hr' & Hcel).
  { erewrite map_nth_error; [|exact Hd']. reflexivity. }
  { reflexivity. }
  exists d, a, f, m, cc, nn, r'.
  repeat split; auto; rewrite Hcel; apply celda_de_inferida.
Qed.

Lemma procesar_datos_servicios_aplana_testigo :
  (([contrato_K1; contrato_K2] : list valor) <> [] ->
   pd.columns df_dos_contratos = claves_servicio)
  /\ List.length (pd.filas df_dos_contratos) = List.length [contrato_K1; contrato_K2]
  /\ forall i servicio,
       nth_error [contrato_K1; contrato_K2] i = Some servicio ->
       exists d a f m cc nn fila,
         servicio = VDict d
         /\ buscar "id" d = Some a
         /\ buscar "fecha" d = Some f
         /\ buscar "precioBS" d = Some m
         /\ referencia d "cliente" "ci" = Ok cc
         /\ referencia d "Caso" "id" = Ok nn
         /\ nth_error (pd.filas df_dos_contratos) i = Some fila
         /\ celda_de a (pd.celda 0 fila)
         /\ celda_de f (pd.celda 1 fila)
         /\ celda_de m (pd.celda 2 fila)
         /\ celda_de cc (pd.celda 3 fila)
         /\ celda_de nn (pd.celda 4 fila).
Proof.
  apply (procesar_datos_servicios_aplana [contrato_K1; contrato_K2] df_dos_contratos).
  vm_compute. reflexivity.
Defined.

(* ================================================================== *)
(** ** The dashboard: reading and filtering                            *)
(* ================================================================== *)

(** When [get_data] returns, it returns one frame per query of
    [QUERIES], under the same keys in the same order, and no cell of any
    of these frames is a missing value: a contract stored with NaT or NaN
    never reaches a chart. *)
Theorem get_data_sin_nulos (T : dashboards.Tablero) (b : pyodbc.base)
    (dfs : list (string * pd.DataFrame)) :
  dashboards.get_data T b = Ok dfs ->
  map fst dfs = map fst dashboards.QUERIES
  /\ forall k df, In (k, df) dfs -> sin_nulos df.
Proof.
  unfold dashboards.get_data.
  destruct (dashboards.error_de_conexion_bd T); [discriminate|].
  generalize dashboards.QUERIES as l. intros l. revert dfs.
  induction l as [|[k q] l IH]; simpl; intros dfs H.
  - inversion H; subst. split; [reflexivity|]. intros k df [].
  - destruct (dashboards.read_sql_query T q b) as [df0|]; [|discriminate].
    simpl in H.
    destruct (para_cada _ l) as [ys|] eqn:Hys; [|discriminate].
    simpl in H. inversion H; subst. destruct (IH _ eq_refl) as [Hk Hn].
    split; [simpl; now rewrite Hk|].
    intros k' df [Heq | Hin]; [|eauto].
    inversion Heq; subst. unfold sin_nulos, dashboards.dropna. simpl.
    apply Forall_forall. intros r Hr. apply filter_In in Hr as [_ Hr].
    apply negb_true_iff in Hr. apply Forall_forall. intros v Hv.
    destruct (es_nulo v) eqn:Hnul; [|reflexivity].
    assert (existsb es_nulo r = true) by (apply existsb_exists; eauto). congruence.
Qed.

Lemma get_data_sin_nulos_testigo :
  exists dfs,
    dashboards.get_data (tablero escenario) base_dos_de_cada = Ok dfs
    /\ map fst dfs = map fst dashboards.QUERIES
    /\ forall k df, In (k, df) dfs -> sin_nulos df.
Proof.
  eexists. split; [vm_compute; reflexivity|].
  apply (get_data_sin_nulos (tablero escenario) base_dos_de_cada).
  vm_compute. reflexivity.
Defined.

Lemma Timestamp_leb_spec (a b : Timestamp) :
  Timestamp_leb a b = true <->
  (year a < year b
   \/ (year a = year b
       /\ (month a < month b
           \/ (month a = month b
               /\ (day a < day b
                   \/ (day a = day b /\ nanosecond_of_day a <= nanosecond_of_day b)))))).
Proof.
  unfold Timestamp_leb, Timestamp_compare.
  destruct (Z.compare_spec (year a) (year b));
    destruct (Z.compare_spec (month a) (month b));
    destruct (Z.compare_spec (day a) (day b));
    destruct (Z.compare_spec (nanosecond_of_day a) (nanosecond_of_day b));
    split; intros; try lia; try reflexivity; try discriminate.
Qed.

Lemma Timestamp_leb_trans (a b c : Timestamp) :
  Timestamp_leb a b = true -> Timestamp_leb b c = true -> Timestamp_leb a c = true.
Proof. rewrite !Timestamp_leb_spec. lia. Qed.

Lemma seleccionar_filter (f g : valor -> bool) (j : nat) (rows : list (list valor)) :
  dashboards.seleccionar
    (dashboards.y_logico (map f (pd.columna j rows)) (map g (pd.columna j rows))) rows
  = filter (fun r => f (pd.celda j r) && g (pd.celda j r)) rows.
Proof.
  unfold pd.columna, dashboards.y_logico.
  induction rows as [|r rows IH]; simpl; [reflexivity|].
  destruct (f (pd.celda j r) && g (pd.celda j r)); simpl; now rewrite IH.
Qed.

Lemma to_datetime_length (af : list valor -> valor -> option Timestamp)
    (serie fechas : list valor) :
  dashboards.to_datetime af serie = Ok fechas -> List.length fechas = List.length serie.
Proof.
  unfold dashboards.to_datetime. intros H. now apply para_cada_ok in H as [H _].
Qed.

(** How [filtrar_por_fecha] can return. *)
Lemma filtrar_por_fecha_ok (T : dashboards.Tablero) (df df1 out : pd.DataFrame)
    (fechaInicio fechaFin : valor) :
  dashboards.filtrar_por_fecha T df fechaInicio fechaFin = Ok (df1, out) ->
  exists j fechas inicio fin,
    pd.indice "fecha" (pd.columns df) = Some j
    /\ dashboards.to_datetime (dashboards.analizar_fechas T) (pd.columna j (pd.filas df))
       = Ok fechas
    /\ df1 = pd.setitem df "fecha" fechas
    /\ dashboards.limite (dashboards.analizar_limite T) fechaInicio = Ok inicio
    /\ dashboards.limite (dashboards.analizar_limite T) fechaFin = Ok fin
    /\ out = pd.mkDataFrame (pd.columns df1)
               (filter (fun r => en_rango inicio fin (pd.celda j r)) (pd.filas df1)).
Proof.
  unfold dashboards.filtrar_por_fecha.
  destruct (pd.getitem df "fecha") as [col|] eqn:Hg; [|discriminate].
  apply getitem_ok in Hg as [j [Hj ->]]. cbn [bind].
  destruct (dashboards.to_datetime _ _) as [fechas|] eqn:Hf; [|discriminate].
  cbn [bind]. unfold pd.getitem.
  rewrite (setitem_columns df "fecha" j fechas Hj), Hj. cbn [bind].
  destruct (dashboards.limite _ fechaInicio) as [inicio|]; [|discriminate].
  destruct (dashboards.limite _ fechaFin) as [fin|]; [|discriminate].
  cbn [bind]. intros H. inversion H; subst. clear H.
  exists j, fechas, inicio, fin.
  repeat (split; [first [assumption | reflexivity]|]).
  f_equal; [symmetry; apply (setitem_columns df "fecha" j fechas Hj)
           | apply seleccionar_filter].
Qed.

(** What [filtrar_por_fecha] returns: the rows of its (converted)
    argument whose date lies between the two bounds, both included, in
    their order and with their columns; a row without a date is left
    out. *)
Theorem filtrar_por_fecha_rango (T : dashboards.Tablero) (df df1 out : pd.DataFrame)
    (fechaInicio fechaFin : valor) :
  dashboards.filtrar_por_fecha T df fechaInicio fechaFin = Ok (df1, out) ->
  exists j inicio fin,
    pd.indice "fecha" (pd.columns df) = Some j
    /\ dashboards.limite (dashboards.analizar_limite T) fechaInicio = Ok inicio
    /\ dashboards.limite (dashboards.analizar_limite T) fechaFin = Ok fin
    /\ pd.columns out = pd.columns df
    /\ pd.filas out = filter (fun r => en_rango inicio fin (pd.celda j r)) (pd.filas df1)
    /\ forall r,
         In r (pd.filas out) ->
         exists t ti tf,
           pd.celda j r = VTimestamp t /\ inicio = Some ti /\ fin = Some tf
           /\ Timestamp_leb ti t = true /\ Timestamp_leb t tf = true.
Proof.
  intros H. apply filtrar_por_fecha_ok in H
    as (j & fechas & inicio & fin & Hj & Hf & -> & Hi & Hfin & ->).
  exists j, inicio, fin. repeat split; auto.
  - simpl. apply (setitem_columns df "fecha" j fechas Hj).
  - simpl. intros r Hr. apply filter_In in Hr as [_ Hr].
    unfold en_rango in Hr. apply andb_true_iff in Hr as [H1 H2].
    unfold dashboards.mayor_igual in H1. unfold dashboards.menor_igual in H2.
    destruct inicio as [ti|]; [|discriminate].
    destruct (pd.celda j r); try discriminate.
    destruct fin as [tf|]; [|discriminate].
    exists t, ti, tf. auto.
Qed.

Lemma filtrar_por_fecha_rango_testigo :
  exists j inicio fin,
    pd.indice "fecha" (pd.columns df_fechas) = Some j
    /\ dashboards.limite (dashboards.analizar_limite (tablero escenario))
         (VStr "2024-03-01") = Ok inicio
    /\ dashboards.limite (dashboards.analizar_limite (tablero escenario))
         (VStr "2024-04-30") = Ok fin
    /\ pd.columns df_marzo_abril = pd.columns df_fechas
    /\ pd.filas df_marzo_abril
       = filter (fun r => en_rango inicio fin (pd.celda j r)) (pd.filas df_fechas_convertido)
    /\ forall r,
         In r (pd.filas df_marzo_abril) ->
         exists t ti tf,
           pd.celda j r = VTimestamp t /\ inicio = Some ti /\ fin = Some tf
           /\ Timestamp_leb ti t = true /\ Timestamp_leb t tf = true.
Proof.
  apply (filtrar_por_fecha_rango (tablero escenario) df_fechas df_fechas_convertido
           df_marzo_abril (VStr "2024-03-01") (VStr "2024-04-30")).
  vm_compute. reflexivity.
Defined.

(** A start date after the end date leaves nothing: the returned frame
    is empty. *)
Theorem filtrar_por_fecha_invertido (T : dashboards.Tablero) (df df1 out : pd.DataFrame)
    (fechaInicio fechaFin : valor) (ti tf : Timestamp) :
  dashboards.filtrar_por_fecha T df fechaInicio fechaFin = Ok (df1, out) ->
  dashboards.limite (dashboards.analizar_limite T) fechaInicio = Ok (Some ti) ->
  dashboards.limite (dashboards.analizar_limite T) fechaFin = Ok (Some tf) ->
  Timestamp_leb ti tf = false ->
  pd.filas out = [] /\ pd.empty out = true.
Proof.
  intros H Hi Hf Hinv. apply filtrar_por_fecha_ok in H
    as (j & fechas & inicio & fin & Hj & _ & -> & Hi' & Hf' & ->).
  rewrite Hi in Hi'. rewrite Hf in Hf'. inversion Hi'; inversion Hf'; subst inicio fin.
  assert (Hnil : filter (fun r => en_rango (Some ti) (Some tf) (pd.celda j r))
                        (pd.filas (pd.setitem df "fecha" fechas)) = []).
  { induction (pd.filas (pd.setitem df "fecha" fechas)) as [|r rows IH];
      simpl; [reflexivity|].
    destruct (en_rango (Some ti) (Some tf) (pd.celda j r)) eqn:He; [|exact IH].
    unfold en_rango, dashboards.mayor_igual, dashboards.menor_igual in He.
    destruct (pd.celda j r); try discriminate.
    apply andb_true_iff in He as [H1 H2].
    rewrite (Timestamp_leb_trans _ _ _ H1 H2) in Hinv. discriminate. }
  split; [exact Hnil|].
  unfold pd.empty. cbn [pd.columns pd.filas]. rewrite Hnil.
  now destruct (pd.columns (pd.setitem df "fecha" fechas)).
Qed.

Lemma filtrar_por_fecha_invertido_testigo :
  pd.filas (pd.mkDataFrame ["fecha"; "monto"] []) = []
  /\ pd.empty (pd.mkDataFrame ["fecha"; "monto"] []) = true.
Proof.
  apply (filtrar_por_fecha_invertido (tablero escenario) df_fechas df_fechas_convertido
           (pd.mkDataFrame ["fecha"; "monto"] []) (VStr "2024-04-30") (VStr "2024-03-01")
           (mkTimestamp 2024 4 30 0) (mkTimestamp 2024 3 1 0));
    vm_compute; reflexivity.
Defined.

Lemma to_datetime_estricto_tipos (af : list valor -> valor -> option Timestamp)
    (serie fechas : list valor) :
  dashboards.to_datetime af serie = Ok fechas ->
  Forall (fun v => es_fecha_o_NaT v = true) fechas.
Proof.
  unfold dashboards.to_datetime. intros H. apply Forall_forall. intros v Hv.
  destruct (para_cada_In _ _ _ _ H Hv) as [x [_ Hx]].
  destruct (es_nulo x); [now inversion Hx|].
  destruct x; try (destruct (af serie _); inversion Hx; reflexivity).
  now inversion Hx.
Qed.

(** [filtrar_por_fecha] changes the frame it is given: after the call
    the argument has the same columns and as many rows, its date column
    holds timestamps and NaT only, and every other column is as it
    was. *)
Theorem filtrar_por_fecha_argumento (T : dashboards.Tablero) (df df1 out : pd.DataFrame)
    (fechaInicio fechaFin : valor) :
  dashboards.filtrar_por_fecha T df fechaInicio fechaFin = Ok (df1, out) ->
  bien_formado df ->
  exists j,
    pd.indice "fecha" (pd.columns df) = Some j
    /\ pd.columns df1 = pd.columns df
    /\ List.length (pd.filas df1) = List.length (pd.filas df)
    /\ bien_formado df1
    /\ Forall (fun v => es_fecha_o_NaT v = true) (pd.columna j (pd.filas df1))
    /\ forall j', j' <> j -> pd.columna j' (pd.filas df1) = pd.columna j' (pd.filas df).
Proof.
  intros H Hb. apply filtrar_por_fecha_ok in H
    as (j & fechas & inicio & fin & Hj & Hf & -> & _ & _ & _).
  assert (Hlen : List.length fechas = List.length (pd.filas df))
    by (rewrite (to_datetime_length _ _ _ Hf); apply length_columna).
  exists j. split; [exact Hj|].
  split; [apply (setitem_columns df "fecha" j fechas Hj)|].
  split; [apply (setitem_length df "fecha" j fechas Hj Hlen)|].
  split; [apply (setitem_bien_formado df "fecha" j fechas Hj Hb)|].
  split.
  - rewrite (setitem_misma_columna df "fecha" j fechas Hj Hlen Hb).
    eapply to_datetime_estricto_tipos; eauto.
  - intros j' Hj'. apply (setitem_otra_columna df "fecha" j fechas Hj Hlen j' Hj').
Qed.

Lemma filtrar_por_fecha_argumento_testigo :
  exists j,
    pd.indice "fecha" (pd.columns df_fechas) = Some j
    /\ pd.columns df_fechas_convertido = pd.columns df_fechas
    /\ List.length (pd.filas df_fechas_convertido) = List.length (pd.filas df_fechas)
    /\ bien_formado df_fechas_convertido
    /\ Forall (fun v => es_fecha_o_NaT v = true)
              (pd.columna j (pd.filas df_fechas_convertido))
    /\ forall j', j' <> j ->
                  pd.columna j' (pd.filas df_fechas_convertido)
                  = pd.columna j' (pd.filas df_fechas).
Proof.
  apply (filtrar_por_fecha_argumento (tablero escenario) df_fechas df_fechas_convertido
           df_marzo_abril (VStr "2024-03-01") (VStr "2024-04-30")).
  - vm_compute. reflexivity.
  - unfold bien_formado. repeat constructor.
Defined.

Lemma reemplazar_misma (fila : list valor) :
  forall j, (j < List.length fila)%nat -> pd.reemplazar j (pd.celda j fila) fila = fila.
Proof.
  unfold pd.celda.
  induction fila as [|x fila IH]; intros j Hj; simpl in *; [lia|].
  destruct j; simpl; [reflexivity|]. f_equal. apply IH. lia.
Qed.

Lemma to_datetime_de_fechas (af : list valor -> valor -> option Timestamp) (ctx : list valor) :
  forall serie,
    Forall (fun v => exists t, v = VTimestamp t) serie ->
    para_cada
      (fun v =>
         if es_nulo v then Ok VNaT
         else match v with
              | VTimestamp t => Ok (VTimestamp t)
              | _ =>
                  match af ctx v with
                  | Some t => Ok (VTimestamp t)
                  | None => Raise (ValueError "Unknown datetime string format")
                  end
              end)
      serie
    = Ok serie.
Proof.
  induction 1 as [|v serie [t ->] _ IH]; simpl; [reflexivity|].
  now rewrite IH.
Qed.

Lemma setitem_la_misma (rows : list (list valor)) (j : nat) :
  Forall (fun r => (j < List.length r)%nat) rows ->
  map (fun rv : list valor * valor => pd.reemplazar j (snd rv) (fst rv))
      (combine rows (pd.columna j rows))
  = rows.
Proof.
  induction 1 as [|r rows Hr _ IH]; simpl; [reflexivity|].
  rewrite reemplazar_misma by exact Hr. f_equal. exact IH.
Qed.

Lemma filter_todas {A : Type} (f : A -> bool) (l : list A) :
  Forall (fun x => f x = true) l -> filter f l = l.
Proof.
  induction 1 as [|x l Hx _ IH]; simpl; [reflexivity|]. now rewrite Hx, IH.
Qed.

(** Filtering what [filtrar_por_fecha] returned, with the same bounds,
    changes nothing: it neither fails nor drops a row, and it leaves the
    frame it is given as it was. *)
Theorem filtrar_por_fecha_idempotente (T : dashboards.Tablero) (df df1 out : pd.DataFrame)
    (fechaInicio fechaFin : valor) :
  bien_formado df ->
  dashboards.filtrar_por_fecha T df fechaInicio fechaFin = Ok (df1, out) ->
  dashboards.filtrar_por_fecha T out fechaInicio fechaFin = Ok (out, out).
Proof.
  intros Hb H. apply filtrar_por_fecha_ok in H
    as (j & fechas & inicio & fin & Hj & Hf & -> & Hi & Hfin & ->).
  assert (Hlen : List.length fechas = List.length (pd.filas df))
    by (rewrite (to_datetime_length _ _ _ Hf); apply length_columna).
  pose proof (setitem_columns df "fecha" j fechas Hj) as Hcols.
  pose proof (setitem_bien_formado df "fecha" j fechas Hj Hb) as Hb1.
  set (df1 := pd.setitem df "fecha" fechas) in *.
  set (P := fun r => en_rango inicio fin (pd.celda j r)).
  set (rows := filter P (pd.filas df1)).
  assert (Hj1 : pd.indice "fecha" (pd.columns df1) = Some j) by now rewrite Hcols.
  assert (HP : Forall (fun r => P r = true) rows).
  { apply Forall_forall. intros r Hr. now apply filter_In in Hr as [_ Hr]. }
  assert (Hts : Forall (fun v => exists t, v = VTimestamp t) (pd.columna j rows)).
  { apply Forall_forall. intros v Hv. unfold pd.columna in Hv.
    apply in_map_iff in Hv as [r [<- Hr]].
    rewrite Forall_forall in HP. specialize (HP r Hr).
    unfold P, en_rango, dashboards.mayor_igual in HP.
    destruct inicio; [|discriminate].
    destruct (pd.celda j r); try discriminate. eauto. }
  assert (Hlt : Forall (fun r => (j < List.length r)%nat) rows).
  { apply Forall_forall. intros r Hr. apply filter_In in Hr as [Hr _].
    unfold bien_formado in Hb1. rewrite Forall_forall in Hb1.
    rewrite (Hb1 r Hr). now apply indice_lt with (c := "fecha"). }
  unfold dashboards.filtrar_por_fecha, pd.getitem. cbn [pd.columns pd.filas].
  rewrite Hj1. cbn [bind]. unfold dashboards.to_datetime.
  rewrite (to_datetime_de_fechas _ _ _ Hts). cbn [bind].
  assert (Hset : pd.setitem (pd.mkDataFrame (pd.columns df1) rows) "fecha"
                   (pd.columna j rows)
                 = pd.mkDataFrame (pd.columns df1) rows).
  { unfold pd.setitem. cbn [pd.columns pd.filas]. rewrite Hj1.
    now rewrite (setitem_la_misma rows j Hlt). }
  rewrite Hset. cbn [pd.columns pd.filas]. rewrite Hj1. cbn [bind].
  rewrite Hi. cbn [bind]. rewrite Hfin. cbn [bind].
  rewrite seleccionar_filter.
  change (filter (fun r => dashboards.mayor_igual inicio (pd.celda j r)
                           && dashboards.menor_igual fin (pd.celda j r)) rows)
    with (filter P rows).
  now rewrite (filter_todas P rows HP).
Qed.

Lemma filtrar_por_fecha_idempotente_testigo :
  dashboards.filtrar_por_fecha (tablero escenario) df_marzo_abril
    (VStr "2024-03-01") (VStr "2024-04-30")
  = Ok (df_marzo_abril, df_marzo_abril).
Proof.
  apply (filtrar_por_fecha_idempotente (tablero escenario) df_fechas df_fechas_convertido
           df_marzo_abril (VStr "2024-03-01") (VStr "2024-04-30")).
  - unfold bien_formado. repeat constructor.
  - vm_compute. reflexivity.
Defined.

(* ================================================================== *)
(** ** The dashboard: the callback                                     *)
(* ================================================================== *)

Lemma main_falla_sin_cambios (E : Entorno) (b : pyodbc.base) (e : excepcion) :
  salida (main E b) = Raise e -> almacen (main E b) = b.
Proof.
  unfold main. destruct (obtener_y_limpiar E) as [[[dfc dfk] dfs]|e0]; [|reflexivity].
  rewrite guardar_aplicar.
  destruct (error_de_conexion E); [reflexivity|].
  destruct (aplicar E (sentencias dfc dfk dfs) b); [discriminate|reflexivity].
Qed.

(** The menu entry that synchronizes never raises, whatever the dates.
    It answers "Actualizada" exactly when the child process was launched
    and [main] returned in it, and the database is then what that run
    left; in every other case it answers "Error al actualizar" and the
    database holds what it held. *)
Theorem actualizar_vista_sincroniza (T : dashboards.Tablero) (fechaInicio fechaFin : valor)
    (b : pyodbc.base) :
  let corrida := main (dashboards.entorno_hijo T) b in
  let r := dashboards.actualizar_vista T "actualizarbd" fechaInicio fechaFin b in
  (dashboards.error_de_lanzamiento T = None /\ salida corrida = Ok tt
   /\ r = (Ok (dashboards.mkVista "Actualizando BD" dashboards.go_Figure
                 "✅ Actualizada" EmptyString),
           almacen corrida))
  \/ ((dashboards.error_de_lanzamiento T <> None \/ exists e, salida corrida = Raise e)
      /\ r = (Ok (dashboards.mkVista "Error" dashboards.go_Figure
                    "❌ Error al actualizar" EmptyString),
              b)).
Proof.
  intros corrida r. subst r.
  unfold dashboards.actualizar_vista.
  change (String.eqb "actualizarbd" "actualizarbd") with true. cbv iota.
  unfold dashboards.subprocess_run.
  destruct (dashboards.error_de_lanzamiento T) as [msg|] eqn:Hl.
  - right. split; [left; discriminate | reflexivity].
  - subst corrida. cbv zeta.
    destruct (salida (main (dashboards.entorno_hijo T) b)) as [[]|e] eqn:Hs.
    + left. auto.
    + right. split; [right; eauto|].
      now rewrite (main_falla_sin_cambios _ _ _ Hs).
Qed.

Lemma buscar_claves {A B : Type} (k : string) (d : list (string * A)) (d' : list (string * B)) :
  map fst d = map fst d' ->
  (buscar k d = None <-> buscar k d' = None).
Proof.
  revert d'. induction d as [|[k1 x] d IH]; intros [|[k2 y] d'] H; simpl in *;
    try discriminate; [tauto|].
  inversion H; subst. destruct (String.eqb k k2); [split; discriminate|].
  now apply IH.
Qed.

(** The two lookups of the callback go together: [get_data] returns a
    frame under a menu value exactly when [PROCESS_MAP] has a chart for
    it, and a value that has neither makes the lookup of the frame raise
    [KeyError]. *)
Theorem tablas_del_menu (T : dashboards.Tablero) (b : pyodbc.base)
    (dfs : list (string * pd.DataFrame)) (menu : string) :
  dashboards.get_data T b = Ok dfs ->
  ((exists df, dashboards.item dfs menu = Ok df)
   /\ (exists graf, dashboards.item (dashboards.PROCESS_MAP T) menu = Ok graf))
  \/ (dashboards.item dfs menu = Raise (KeyError menu)
      /\ dashboards.item (dashboards.PROCESS_MAP T) menu = Raise (KeyError menu)).
Proof.
  intros H.
  assert (Hk : map fst dfs = map fst (dashboards.PROCESS_MAP T)).
  { unfold dashboards.get_data in H.
    destruct (dashboards.error_de_conexion_bd T); [discriminate|].
    transitivity (map fst dashboards.QUERIES); [|reflexivity].
    revert H. generalize dashboards.QUERIES as l. intros l. revert dfs.
    induction l as [|[k q] l IH]; simpl; intros dfs H.
    - now inversion H.
    - destruct (dashboards.read_sql_query T q b); [|discriminate]. simpl in H.
      destruct (para_cada _ l) as [ys|] eqn:Hys; [|discriminate].
      simpl in H. inversion H; subst. simpl. now rewrite (IH _ eq_refl). }
  pose proof (buscar_claves menu _ _ Hk) as Hb.
  unfold dashboards.item.
  destruct (buscar menu dfs) as [df|]; destruct (buscar menu (dashboards.PROCESS_MAP T)) as [g|].
  - left. eauto.
  - destruct Hb as [_ Hb]. now specialize (Hb eq_refl).
  - destruct Hb as [Hb _]. now specialize (Hb eq_refl).
  - right. auto.
Qed.

Lemma tablas_del_menu_testigo :
  ((exists df,
       dashboards.item
         [("ingresofecha", pd.mkDataFrame ["fecha"; "monto"] []);
          ("ingresomateria", pd.mkDataFrame ["fecha"; "monto"] []);
          ("topclientes", pd.mkDataFrame ["fecha"; "monto"] []);
          ("prediccion", pd.mkDataFrame ["fecha"; "monto"] []);
          ("segmentacion", pd.mkDataFrame ["fecha"; "monto"] [])]
         "topclientes" = Ok df)
   /\ (exists graf,
          dashboards.item (dashboards.PROCESS_MAP (tablero escenario)) "topclientes"
          = Ok graf))
  \/ (dashboards.item
        [("ingresofecha", pd.mkDataFrame ["fecha"; "monto"] []);
         ("ingresomateria", pd.mkDataFrame ["fecha"; "monto"] []);
         ("topclientes", pd.mkDataFrame ["fecha"; "monto"] []);
         ("prediccion", pd.mkDataFrame ["fecha"; "monto"] []);
         ("segmentacion", pd.mkDataFrame ["fecha"; "monto"] [])]
        "topclientes" = Raise (KeyError "topclientes")
      /\ dashboards.item (dashboards.PROCESS_MAP (tablero escenario)) "topclientes"
         = Raise (KeyError "topclientes")).
Proof.
  apply (tablas_del_menu (tablero escenario) pyodbc.vacia).
  vm_compute. reflexivity.
Defined.

(** With both dates given and the start after the end, a menu whose
    frame has a date column never reaches its chart: when the callback
    returns, it returns "Sin datos" with an empty figure. *)
Theorem actualizar_vista_rango_invertido (T : dashboards.Tablero) (menu : string)
    (fechaInicio fechaFin : valor) (b : pyodbc.base)
    (dfs : list (string * pd.DataFrame)) (df : pd.DataFrame) (ti tf : Timestamp)
    (v : dashboards.Vista) :
  menu <> "actualizarbd" ->
  truthy fechaInicio = true ->
  truthy fechaFin = true ->
  dashboards.get_data T b = Ok dfs ->
  dashboards.item dfs menu = Ok df ->
  In "fecha" (pd.columns df) ->
  dashboards.limite (dashboards.analizar_limite T) fechaInicio = Ok (Some ti) ->
  dashboards.limite (dashboards.analizar_limite T) fechaFin = Ok (Some tf) ->
  Timestamp_leb ti tf = false ->
  fst (dashboards.actualizar_vista T menu fechaInicio fechaFin b) = Ok v ->
  v = dashboards.mkVista "Sin datos" dashboards.go_Figure EmptyString EmptyString.
Proof.
  intros Hm Hti Htf Hg Hit Hin Hi Hf Hinv.
  unfold dashboards.actualizar_vista.
  apply String.eqb_neq in Hm. rewrite Hm, Hti, Htf. cbn [negb orb fst].
  unfold dashboards.vista_de_consulta. rewrite Hg. cbn [bind]. rewrite Hit. cbn [bind].
  assert (Hex : existsb (String.eqb "fecha") (pd.columns df) = true).
  { apply existsb_exists. exists "fecha". split; [exact Hin | apply String.eqb_refl]. }
  rewrite Hex.
  destruct (dashboards.filtrar_por_fecha T df fechaInicio fechaFin) as [[df1 out]|e] eqn:Hfil;
    cbn [bind snd]; [|discriminate].
  assert (Hnil : pd.empty out = true).
  { apply filtrar_por_fecha_ok in Hfil
      as (j & fechas & inicio & fin & Hj & _ & -> & Hi' & Hf' & ->).
    rewrite Hi in Hi'. rewrite Hf in Hf'. inversion Hi'; inversion Hf'; subst inicio fin.
    unfold pd.empty. cbn [pd.columns pd.filas].
    assert (Hn : filter (fun r => en_rango (Some ti) (Some tf) (pd.celda j r))
                        (pd.filas (pd.setitem df "fecha" fechas)) = []).
    { induction (pd.filas (pd.setitem df "fecha" fechas)) as [|r rows IH];
        simpl; [reflexivity|].
      destruct (en_rango (Some ti) (Some tf) (pd.celda j r)) eqn:He; [|exact IH].
      unfold en_rango, dashboards.mayor_igual, dashboards.menor_igual in He.
      destruct (pd.celda j r); try discriminate.
      apply andb_true_iff in He as [H1 H2].
      rewrite (Timestamp_leb_trans _ _ _ H1 H2) in Hinv. discriminate. }
    rewrite Hn. now destruct (pd.columns (pd.setitem df "fecha" fechas)). }
  rewrite Hnil. intros H. now inversion H.
Qed.

Lemma actualizar_vista_rango_invertido_testigo :
  exists v,
    fst (dashboards.actualizar_vista (tablero escenario) "ingresofecha"
           (VStr "2024-04-30") (VStr "2024-03-01") base_dos_de_cada) = Ok v
    /\ v = dashboards.mkVista "Sin datos" dashboards.go_Figure EmptyString EmptyString.
Proof.
  eexists. split; [vm_compute; reflexivity|].
  refine (actualizar_vista_rango_invertido (tablero escenario) "ingresofecha"
            (VStr "2024-04-30") (VStr "2024-03-01") base_dos_de_cada
            _ _ (mkTimestamp 2024 4 30 0) (mkTimestamp 2024 3 1 0) _
            _ _ _ _ _ _ _ _ _ _).
  - discriminate.
  - reflexivity.
  - reflexivity.
  - vm_compute. reflexivity.
  - vm_compute. reflexivity.
  - simpl. auto.
  - vm_compute. reflexivity.
  - vm_compute. reflexivity.
  - vm_compute. reflexivity.
  - vm_compute. reflexivity.
Defined.

(* ================================================================== *)
(** ** The order of the three loops                                    *)
(* ================================================================== *)

(** A loop of [execute] runs to its end when the store accepts each of
    its rows in every state that satisfies [Inv], a condition the
    statements of the loop keep. *)
Lemma aplicar_con_invariante (E : Entorno) (Inv : pyodbc.base -> Prop) (sql : pyodbc.Merge)
    (rows : list (list valor)) :
  (forall row b b', Inv b -> pyodbc.merge (rechazo E) sql row b = Ok b' -> Inv b') ->
  (forall row b, In row rows -> Inv b -> rechazo E (pyodbc.destino sql) row b = None) ->
  Forall (fun r => List.length r = pyodbc.marcadores sql) rows ->
  forall b, Inv b ->
    exists b', aplicar E (map (pair sql) rows) b = Ok b' /\ Inv b'.
Proof.
  intros Hinv Hacc Hlen.
  induction rows as [|row rows IH]; intros b Hb; simpl; [eauto|].
  inversion Hlen as [|? ? Hl Hrest]; subst.
  assert (Hm : exists b1, pyodbc.merge (rechazo E) sql row b = Ok b1).
  { unfold pyodbc.merge. rewrite Hl, Nat.eqb_refl. cbn [negb].
    rewrite (Hacc row b (or_introl eq_refl) Hb).
    destruct (pyodbc.coincide _ _); eauto. }
  destruct Hm as [b1 Hm]. rewrite Hm. cbn [bind].
  apply IH; [|exact Hrest|exact (Hinv _ _ _ Hb Hm)].
  intros r b0 Hr. apply Hacc. now right.
Qed.

Lemma merge_otra_tabla (E : Entorno) (sql : pyodbc.Merge) (row : list valor)
    (b b' : pyodbc.base) (t : pyodbc.tabla) :
  pyodbc.merge (rechazo E) sql row b = Ok b' ->
  t <> pyodbc.destino sql ->
  pyodbc.tabla_de b' t = pyodbc.tabla_de b t.
Proof.
  intros Hm Ht. apply merge_casos in Hm as [_ [[_ ->] | [_ ->]]]; [reflexivity|].
  rewrite tabla_de_insertar.
  destruct (pyodbc.destino sql), t; try contradiction; now rewrite app_nil_r.
Qed.

(** The run of [main] in three steps: the clients and the cases, then
    the contracts on what those left, then the commit. *)
Lemma main_en_tres_pasos (E : Entorno) (b : pyodbc.base) (dfc dfk dfs : pd.DataFrame) :
  obtener_y_limpiar E = Ok (dfc, dfk, dfs) ->
  error_de_conexion E = None ->
  Forall (fun r => List.length r = 3%nat) (pd.itertuples dfc) ->
  Forall (fun r => List.length r = 2%nat) (pd.itertuples dfk) ->
  Forall (fun r => List.length r = 5%nat) (pd.itertuples dfs) ->
  (forall row b', In row (pd.itertuples dfc) -> rechazo E pyodbc.cliente row b' = None) ->
  (forall row b', In row (pd.itertuples dfk) -> rechazo E pyodbc.casoJuridico row b' = None) ->
  (forall row b',
     In row (pd.itertuples dfs) ->
     Forall (guardada (pyodbc.filas_cliente b')) (pd.itertuples dfc) ->
     Forall (guardada (pyodbc.filas_casoJuridico b')) (pd.itertuples dfk) ->
     rechazo E pyodbc.contratoServicio row b' = None) ->
  exists b2,
    aplicar E (map (pair insert_clientes) (pd.itertuples dfc)
               ++ map (pair insert_casos) (pd.itertuples dfk)) b = Ok b2
    /\ pyodbc.filas_contratoServicio b2 = pyodbc.filas_contratoServicio b
    /\ aplicar E (map (pair insert_servicios) (pd.itertuples dfs)) b2
       = Ok (almacen (main E b))
    /\ salida (main E b) = Ok tt.
Proof.
  intros Ho Hc L3 L2 L5 A1 A2 A3.
  destruct (aplicar_con_invariante E (fun _ => True) insert_clientes (pd.itertuples dfc))
    with (b := b) as [b1 [H1 _]]; auto.
  destruct (aplicar_con_invariante E (fun _ => True) insert_casos (pd.itertuples dfk))
    with (b := b1) as [b2 [H2 _]]; auto.
  pose proof (enviadas_guardadas E insert_clientes (pd.itertuples dfc) _ b b1 H1
                (fun row Hr => in_map (pair insert_clientes) _ _ Hr)) as G1.
  pose proof (enviadas_guardadas E insert_casos (pd.itertuples dfk) _ b1 b2 H2
                (fun row Hr => in_map (pair insert_casos) _ _ Hr)) as G2.
  cbn [pyodbc.destino insert_clientes insert_casos pyodbc.tabla_de] in G1, G2.
  assert (T1 : pyodbc.filas_cliente b2 = pyodbc.filas_cliente b1).
  { apply (aplicar_otra_tabla E insert_casos _ b1 b2 H2 pyodbc.cliente). discriminate. }
  set (Inv := fun b' : pyodbc.base =>
                pyodbc.filas_cliente b' = pyodbc.filas_cliente b2
                /\ pyodbc.filas_casoJuridico b' = pyodbc.filas_casoJuridico b2).
  destruct (aplicar_con_invariante E Inv insert_servicios (pd.itertuples dfs))
    with (b := b2) as [b3 [H3 _]].
  { intros row b0 b0' [I1 I2] Hm. split.
    - rewrite <- I1.
      apply (merge_otra_tabla E insert_servicios row b0 b0' pyodbc.cliente Hm). discriminate.
    - rewrite <- I2.
      apply (merge_otra_tabla E insert_servicios row b0 b0' pyodbc.casoJuridico Hm).
      discriminate. }
  { intros row b0 Hr [I1 I2]. apply A3; [exact Hr| |].
    - rewrite I1, T1. exact G1.
    - rewrite I2. exact G2. }
  { exact L5. }
  { split; reflexivity. }
  assert (Hall : aplicar E (sentencias dfc dfk dfs) b = Ok b3).
  { unfold sentencias. rewrite aplicar_app, H1. cbn [bind].
    rewrite aplicar_app, H2. cbn [bind]. exact H3. }
  assert (Hmain : main E b = mkCorrida (Ok tt) b3 1).
  { unfold main. rewrite Ho, guardar_aplicar, Hc, Hall. reflexivity. }
  exists b2. rewrite Hmain. cbn [almacen salida].
  split; [now rewrite aplicar_app, H1|].
  split; [|split; [exact H3 | reflexivity]].
  transitivity (pyodbc.filas_contratoServicio b1).
  - apply (aplicar_otra_tabla E insert_casos _ b1 b2 H2 pyodbc.contratoServicio). discriminate.
  - apply (aplicar_otra_tabla E insert_clientes _ b b1 H1 pyodbc.contratoServicio). discriminate.
Qed.

(** If the store accepts the clients and the cases of a run, and accepts
    each contract of the run once all those clients and cases have their
    rows, the run returns and every contract has its row: no contract
    statement executes before the client and case statements of the
    run. *)
Theorem contratos_al_final (E : Entorno) (b : pyodbc.base) (dfc dfk dfs : pd.DataFrame) :
  obtener_y_limpiar E = Ok (dfc, dfk, dfs) ->
  error_de_conexion E = None ->
  Forall (fun r => List.length r = 3%nat) (pd.itertuples dfc) ->
  Forall (fun r => List.length r = 2%nat) (pd.itertuples dfk) ->
  Forall (fun r => List.length r = 5%nat) (pd.itertuples dfs) ->
  (forall row b', In row (pd.itertuples dfc) -> rechazo E pyodbc.cliente row b' = None) ->
  (forall row b', In row (pd.itertuples dfk) -> rechazo E pyodbc.casoJuridico row b' = None) ->
  (forall row b',
     In row (pd.itertuples dfs) ->
     Forall (guardada (pyodbc.filas_cliente b')) (pd.itertuples dfc) ->
     Forall (guardada (pyodbc.filas_casoJuridico b')) (pd.itertuples dfk) ->
     rechazo E pyodbc.contratoServicio row b' = None) ->
  salida (main E b) = Ok tt
  /\ Forall (guardada (pyodbc.filas_contratoServicio (almacen (main E b))))
            (pd.itertuples dfs).
Proof.
  intros Ho Hc L3 L2 L5 A1 A2 A3.
  destruct (main_en_tres_pasos E b dfc dfk dfs Ho Hc L3 L2 L5 A1 A2 A3)
    as (b2 & _ & _ & H3 & Hs).
  split; [exact Hs|].
  exact (enviadas_guardadas E insert_servicios (pd.itertuples dfs) _ b2 _ H3
           (fun row Hr => in_map (pair insert_servicios) _ _ Hr)).
Qed.

Lemma contratos_al_final_testigo :
  salida (main estricto pyodbc.vacia) = Ok tt
  /\ Forall (guardada (pyodbc.filas_contratoServicio (almacen (main estricto pyodbc.vacia))))
            (pd.itertuples
               (pd.mkDataFrame ["nrocontrato"; "fecha"; "monto"; "cicliente"; "nrocasojuridico"]
                  [[VStr "K1"; VTimestamp (mkTimestamp 2024 3 1 0); VFloat 150.56%float;
                    VStr "A1"; VStr "C1"]])).
Proof.
  apply (contratos_al_final estricto pyodbc.vacia
           (pd.mkDataFrame ["ci"; "nombre"; "apellido"] [[VStr "A1"; VStr "Ana"; VStr "Ruiz"]])
           (pd.mkDataFrame ["nrocaso"; "meteria"] [[VStr "C1"; VStr "civil"]])).
  - vm_compute. reflexivity.
  - reflexivity.
  - repeat constructor.
  - repeat constructor.
  - repeat constructor.
  - intros row b' [<- | []]. reflexivity.
  - intros row b' [<- | []]. reflexivity.
  - intros row b' [<- | []] G _.
    inversion G as [|? ? [Hin | Hco] _]; subst.
    + unfold esquema_estricto, clave_primaria.
      cbn [pyodbc.clave pd.celda nth]. cbn.
      assert (Hc : pyodbc.coincide (VStr "A1") (pyodbc.filas_cliente b') = true).
      { unfold pyodbc.coincide. apply existsb_exists. eexists. split; [exact Hin|].
        reflexivity. }
      now rewrite Hc.
    + unfold esquema_estricto, clave_primaria. cbn.
      cbn in Hco. now rewrite Hco.
Defined.

(* ================================================================== *)
(** ** From the source to the store                                    *)
(* ================================================================== *)
























(** The store has to take what the coercion leaves: one that takes no
    NaN in the amount column refuses the contract K2, and the run that
    goes through without K2 fails with it. *)
Example sin_nan_falla :
  main (entorno (VList [cliente_A1]) (VList [caso_C1]) (VList [contrato_K1]) sin_nan)
       pyodbc.vacia
  = main escenario pyodbc.vacia
  /\ main (entorno (VList [cliente_A1]) (VList [caso_C1]) (VList [contrato_K1; contrato_K2])
             sin_nan)
          pyodbc.vacia
     = mkCorrida
         (Raise (Exception_
                   "Error al guardar los datos en la base de datos: The supplied value is not a valid instance of data type float"))
         pyodbc.vacia 0.
Proof. split; vm_compute; reflexivity. Qed.



(** The rows of K2 in the example: its references are missing in the
    frame and in the table. *)
Example K2_sin_referencias :
  pd.filas df_dos_contratos_limpio
  = pyodbc.filas_contratoServicio (almacen (main dos_de_cada pyodbc.vacia))
  /\ nth_error (pd.filas df_dos_contratos_limpio) 1
     = Some [VStr "K2"; VNaT; VFloat nan; VNone; VNone].
Proof. split; vm_compute; reflexivity. Qed.

(* ================================================================== *)
(** ** The types of the cleaned contracts                              *)
(* ================================================================== *)

Lemma round_2_tipos (P : valor -> bool) (serie : list valor) :
  (forall f, P (VFloat f) = true -> forall g, P (VFloat g) = true) ->
  Forall (fun v => P v = true) serie ->
  Forall (fun v => P v = true) (pd.round_2 serie).
Proof.
  intros HP H. unfold pd.round_2. apply Forall_forall. intros v Hv.
  apply in_map_iff in Hv as [x [<- Hx]].
  rewrite Forall_forall in H. specialize (H x Hx).
  destruct x; auto. eapply HP; eauto.
Qed.

(** What [to_numeric] returns is of one numeric type. *)
Lemma to_numeric_tipos (an : string -> option pd.lectura) (serie m : list valor) :
  pd.to_numeric an serie = Ok m ->
  Forall (fun v => pd.es_float v = true) m
  \/ Forall (fun v => pd.es_int v = true) m
  \/ Forall (fun v => es_bool v = true) m.
Proof.
  intros H. apply to_numeric_ok in H as [[zs [_ ->]] | [leidos [_ ->]]].
  - right. left. apply Forall_forall. intros v Hv.
    apply in_map_iff in Hv as [z [<- _]]. reflexivity.
  - destruct (pd.visto_float leidos) eqn:Hf; [|destruct (pd.visto_int leidos) eqn:Hi].
    + left. apply Forall_forall. intros v Hv.
      apply in_map_iff in Hv as [x [<- _]]. now destruct x.
    + right. left. apply Forall_forall. intros v Hv.
      apply in_map_iff in Hv as [x [<- _]]. now destruct x.
    + right. right. apply Forall_forall. intros v Hv.
      apply in_map_iff in Hv as [x [<- _]]. now destruct x.
Qed.

(** After the cleaning the contracts are typed, whatever the source
    sent in the two fields: the date column holds timestamps and NaT and
    nothing else, and the amount column is of one numeric type: floats
    (NaN among them), or integers, or bools. *)
Theorem contratos_tipados (E : Entorno) (dfc dfk dfs c' k' s' : pd.DataFrame) (jf jm : nat) :
  limpiar_dataframes E dfc dfk dfs = Ok (c', k', s') ->
  bien_formado dfs ->
  pd.indice "fecha" (pd.columns dfs) = Some jf ->
  pd.indice "monto" (pd.columns dfs) = Some jm ->
  Forall (fun v => es_fecha_o_NaT v = true) (pd.columna jf (pd.itertuples s'))
  /\ (Forall (fun v => pd.es_float v = true) (pd.columna jm (pd.itertuples s'))
      \/ Forall (fun v => pd.es_int v = true) (pd.columna jm (pd.itertuples s'))
      \/ Forall (fun v => es_bool v = true) (pd.columna jm (pd.itertuples s'))).
Proof.
  intros H Hb Hf Hm.
  apply limpiar_dataframes_ok in H
    as (k0 & s0 & jf' & jm' & montos & Hc & Hk & -> & Hs & Hjf & Hjm & Hmon & ->).
  pose proof (drop_duplicates_columns _ _ _ Hs) as Hcols.
  pose proof (drop_duplicates_bien_formado _ _ _ Hs Hb) as Hb0.
  rewrite Hcols in Hjf, Hjm.
  assert (jf' = jf) by congruence. assert (jm' = jm) by congruence. subst jf' jm'.
  rewrite <- Hcols in Hjf, Hjm.
  rewrite itertuples_filas.
  2:{ rewrite (con_tipos_columns E s0 jf jm Hjf Hjm montos).
      intros Hnil. rewrite Hnil in Hjf. discriminate. }
  rewrite (con_tipos_fecha E s0 jf jm Hjf Hjm montos Hmon Hb0),
    (con_tipos_monto E s0 jf jm Hjf Hjm montos Hmon Hb0).
  split; [apply to_datetime_tipos|].
  destruct (to_numeric_tipos _ _ _ Hmon) as [T | [T | T]].
  - left. apply round_2_tipos; [intros; reflexivity | exact T].
  - right. left. apply round_2_tipos; [discriminate | exact T].
  - right. right. apply round_2_tipos; [discriminate | exact T].
Qed.

Lemma contratos_tipados_testigo :
  Forall (fun v => es_fecha_o_NaT v = true)
         (pd.columna 1 (pd.itertuples df_dos_contratos_limpio))
  /\ (Forall (fun v => pd.es_float v = true)
             (pd.columna 2 (pd.itertuples df_dos_contratos_limpio))
      \/ Forall (fun v => pd.es_int v = true)
                (pd.columna 2 (pd.itertuples df_dos_contratos_limpio))
      \/ Forall (fun v => es_bool v = true)
                (pd.columna 2 (pd.itertuples df_dos_contratos_limpio))).
Proof.
  apply (contratos_tipados escenario df_dos_clientes df_un_caso df_dos_contratos
           df_un_cliente_limpio df_un_caso_limpio df_dos_contratos_limpio 1 2);
    try (vm_compute; reflexivity).
  unfold bien_formado. repeat constructor.
Defined.

(* ================================================================== *)
(** ** pandas on particular inputs                                     *)
(* ================================================================== *)

(** Keys are compared as Python compares them: [1], [True] and [1.0]
    are one key and the text ["1"] another; [None] and NaN are two keys;
    lists and dicts are keys like any other, dicts in any item order. *)
Example claves_como_python :
  pd.drop_duplicates
    (pd.mkDataFrame ["ci"; "nombre"]
       [[VInt 1; VStr "a"]; [VBool true; VStr "b"]; [VFloat 1%float; VStr "c"];
        [VStr "1"; VStr "d"]; [VInt 2; VStr "e"]]) "ci"
  = Ok (pd.mkDataFrame ["ci"; "nombre"]
          [[VInt 1; VStr "a"]; [VStr "1"; VStr "d"]; [VInt 2; VStr "e"]])
  /\ pd.drop_duplicates
       (pd.mkDataFrame ["ci"; "nombre"]
          [[VStr "A1"; VStr "a"]; [VNone; VStr "b"]; [VFloat nan; VStr "c"];
           [VNone; VStr "d"]; [VFloat nan; VStr "e"]]) "ci"
     = Ok (pd.mkDataFrame ["ci"; "nombre"]
             [[VStr "A1"; VStr "a"]; [VNone; VStr "b"]; [VFloat nan; VStr "c"]])
  /\ pd.drop_duplicates
       (pd.mkDataFrame ["ci"; "nombre"]
          [[VList [VInt 1]; VStr "a"]; [VList [VInt 1]; VStr "b"];
           [VDict [("x", VInt 1); ("y", VNone)]; VStr "c"];
           [VDict [("y", VNone); ("x", VFloat 1%float)]; VStr "d"]]) "ci"
     = Ok (pd.mkDataFrame ["ci"; "nombre"]
             [[VList [VInt 1]; VStr "a"];
              [VDict [("x", VInt 1); ("y", VNone)]; VStr "c"]]).
Proof. repeat split; vm_compute; reflexivity. Qed.

(** [to_numeric] by what the series holds: integer texts give integers,
    bools stay bools, an integer beyond 64 bits makes the series float64,
    and so does anything that is no number, which becomes NaN. *)
Example to_numeric_por_tipos :
  pd.to_numeric numero_entero [VStr "150"; VStr "7"] = Ok [VInt 150; VInt 7]
  /\ pd.to_numeric numero_entero [VBool true; VBool false] = Ok [VBool true; VBool false]
  /\ pd.to_numeric numero_entero [VInt (2 ^ 63); VInt 1] = Ok [VInt (2 ^ 63); VInt 1]
  /\ pd.to_numeric numero_entero [VInt (2 ^ 70); VInt 1]
     = Ok [VFloat 1180591620717411303424%float; VFloat 1%float]
  /\ pd.to_numeric numero_entero [VBool true; VInt 2] = Ok [VInt 1; VInt 2]
  /\ pd.to_numeric numero_entero [VInt 2; VStr "mucho"; VNone; VBool true]
     = Ok [VFloat 2%float; VFloat nan; VFloat nan; VFloat 1%float].
Proof. repeat split; vm_compute; reflexivity. Qed.

(** A record without fields gives a frame with a row and no column,
    which is empty and yields no tuple: the run stores nothing for it and
    commits. *)
Example sin_columnas_sin_tuplas :
  pd.DataFrame_ (VList [VDict []]) = Ok (pd.mkDataFrame [] [[]])
  /\ pd.itertuples (pd.mkDataFrame [] [[]]) = []
  /\ main (entorno (VList [VDict []]) (VList [caso_C1]) (VList [contrato_K1]) sin_restricciones)
          pyodbc.vacia
     = mkCorrida (Ok tt)
         (pyodbc.mkBase []
            [[VStr "C1"; VStr "civil"]]
            [[VStr "K1"; VTimestamp (mkTimestamp 2024 3 1 0); VFloat 150.56%float;
              VStr "A1"; VStr "C1"]])
         1.
Proof. repeat split; vm_compute; reflexivity. Qed.
